(** * go-proxy: a disk-backed caching proxy for the Go module protocol

    Shallow embedding of [cache.go], of the proxy handlers and resolver
    factory, and of the proxy selection of [main.go], with the properties
    of the specification stated against them.

    Conventions.
    - Go [string] is [string]; [[]byte] is [list byte]; [error] is the
      error's message, [option error] being Go's nilable [error].
    - [time.Duration] and instants are [Z] nanoseconds.
    - The build target is linux ([GOOS=linux] in the Dockerfile), so
      [filepath.Separator] is ["/"] and there are no volume names.
    - The file system is a finite map from path names to nodes; handlers run
      one at a time (the [sync.RWMutex] of [Proxy] is not modelled). *)

From Stdlib Require Import ZArith Lia Ascii String.
From Stdlib.Strings Require Import Byte.
From Stdlib Require DecimalString.
From stdpp Require Import gmap strings list.

Local Open Scope Z_scope.

Definition error := string.

(** ** Package [strings] *)

Module GoStrings.

Fixpoint drop (n : nat) (s : string) : string :=
  match n, s with
  | S n', String _ s' => drop n' s'
  | _, _ => s
  end.

Fixpoint take (n : nat) (s : string) : string :=
  match n, s with
  | S n', String c s' => String c (take n' s')
  | _, _ => EmptyString
  end.

Fixpoint HasPrefix (s prefix : string) {struct prefix} : bool :=
  match prefix with
  | EmptyString => true
  | String p prefix' =>
      match s with
      | EmptyString => false
      | String c s' => if Ascii.eqb c p then HasPrefix s' prefix' else false
      end
  end.

Definition HasSuffix (s suffix : string) : bool :=
  (String.length suffix <=? String.length s)%nat
  && String.eqb (drop (String.length s - String.length suffix) s) suffix.

Definition TrimPrefix (s prefix : string) : string :=
  if HasPrefix s prefix then drop (String.length prefix) s else s.

Definition TrimSuffix (s suffix : string) : string :=
  if HasSuffix s suffix
  then take (String.length s - String.length suffix) s else s.

Fixpoint Contains (s substr : string) : bool :=
  HasPrefix s substr
  || match s with
     | EmptyString => false
     | String _ s' => Contains s' substr
     end.

(** [ReplaceAll s old new] for a non-empty [old]: non-overlapping
    occurrences, leftmost first.  [skip] counts the bytes of a matched
    occurrence that are still to be passed over. *)
Fixpoint replaceFrom (old new : string) (skip : nat) (s : string) : string :=
  match s with
  | EmptyString => EmptyString
  | String c s' =>
      match skip with
      | S k => replaceFrom old new k s'
      | O =>
          if HasPrefix s old
          then new +:+ replaceFrom old new (String.length old - 1) s'
          else String c (replaceFrom old new O s')
      end
  end.

Definition ReplaceAll (s old new : string) : string :=
  replaceFrom old new O s.

(** [Split s sep] for a non-empty [sep]; the result is never empty. *)
Fixpoint splitFrom (sep : string) (skip : nat) (s : string) : list string :=
  match s with
  | EmptyString => [EmptyString]
  | String c s' =>
      match skip with
      | S k => splitFrom sep k s'
      | O =>
          if HasPrefix s sep
          then EmptyString :: splitFrom sep (String.length sep - 1) s'
          else match splitFrom sep O s' with
               | piece :: rest => String c piece :: rest
               | [] => [String c EmptyString]
               end
      end
  end.

Definition Split (s sep : string) : list string := splitFrom sep O s.

Fixpoint Join (elems : list string) (sep : string) : string :=
  match elems with
  | [] => EmptyString
  | [e] => e
  | e :: rest => e +:+ sep +:+ Join rest sep
  end.

End GoStrings.

(** ** Package [path/filepath] on unix

    [Clean] is described on path elements: the elements between separators
    are scanned left to right onto a stack, empty and ["."] elements are
    dropped, [".."] removes the last real element when there is one, is
    dropped at the root of a rooted path and is kept otherwise. *)

Module filepath.

Definition Separator : ascii := "/"%char.

Definition sep : string := String Separator EmptyString.

(** The elements of a path: the pieces between separators. *)
Fixpoint elements (path : string) : list string :=
  match path with
  | EmptyString => [EmptyString]
  | String c rest =>
      if Ascii.eqb c Separator then EmptyString :: elements rest
      else match elements rest with
           | e :: es => String c e :: es
           | [] => [String c EmptyString]
           end
  end.

Definition isRooted (path : string) : bool :=
  match path with
  | String c _ => Ascii.eqb c Separator
  | EmptyString => false
  end.

(** One element scanned by [Clean]; [stack] holds the output elements,
    last one first. *)
Definition cleanStep (rooted : bool) (stack : list string) (e : string)
  : list string :=
  if String.eqb e "" || String.eqb e "." then stack
  else if String.eqb e ".." then
    match stack with
    | top :: below => if String.eqb top ".." then e :: stack else below
    | [] => if rooted then [] else [e]
    end
  else e :: stack.

Definition cleanStack (rooted : bool) (es : list string) : list string :=
  fold_left (cleanStep rooted) es [].

Definition render (rooted : bool) (out : list string) : string :=
  match out with
  | [] => if rooted then sep else "."
  | _ => (if rooted then sep else "") +:+ GoStrings.Join out sep
  end.

Definition Clean (path : string) : string :=
  render (isRooted path) (rev (cleanStack (isRooted path) (elements path))).

(** [Join] skips leading empty elements and cleans the rest joined by
    the separator. *)
Fixpoint Join (elem : list string) : string :=
  match elem with
  | [] => ""
  | e :: rest =>
      if String.eqb e "" then Join rest else Clean (GoStrings.Join elem sep)
  end.

(** The part of [path] up to and including its last separator. *)
Fixpoint uptoLastSeparator (path : string) : string :=
  match path with
  | EmptyString => EmptyString
  | String c rest =>
      match uptoLastSeparator rest with
      | EmptyString => if Ascii.eqb c Separator then sep else EmptyString
      | r => String c r
      end
  end.

Definition Dir (path : string) : string := Clean (uptoLastSeparator path).

End filepath.

(** ** cache.go: the path of a cache key *)

(** cachePath converts a URL path to a safe filesystem path *)
Definition cachePath (baseDir urlPath : string) : string :=
  let safePath := GoStrings.ReplaceAll urlPath "/" filepath.sep in
  filepath.Join [baseDir; safePath].

(** ** Package [os]: the file system

    A file system maps a path name to the node stored there.  Names are
    used as the program passes them (it only passes cleaned paths, their
    directory and their [.tmp] sibling); the working directory ["."] and the
    root ["/"] always exist; symbolic links and permission bits are not
    modelled.  Failures that do not follow from the shape of the tree (a
    permission refusal, an I/O error, a full disk) are injected through
    [Faults].  A name that is not there is reported as [ENOENT], also below
    a regular file, where the system says [ENOTDIR]: no property stated
    for every file system depends on which of the two it is. *)

Module os.

Inductive node : Type :=
| File (content : list byte)
| Directory.

Definition ENOENT : error := "no such file or directory".
Definition EEXIST : error := "file exists".
Definition ENOTDIR : error := "not a directory".
Definition EISDIR : error := "is a directory".
Definition ENOTEMPTY : error := "directory not empty".
Definition EINVAL : error := "invalid argument".
Definition EBUSY : error := "device or resource busy".

Definition isFixed (name : string) : bool :=
  String.eqb name "." || String.eqb name "/".

Definition lookupPath (fs : gmap string node) (name : string) : option node :=
  if String.eqb name "" then None
  else if isFixed name then Some Directory
  else fs !! name.

(** The node of the directory that holds [name]. *)
Definition parentOf (fs : gmap string node) (name : string) : option node :=
  if String.eqb name "" then None else lookupPath fs (filepath.Dir name).

Record Faults : Type := {
  onOpen : option error;             (* opening an existing node for reading *)
  onFileRead : option (nat * error); (* a read fails after that many bytes *)
  onStat : option error;             (* [File.Stat] on an open file *)
  onMkdir : option error;            (* [MkdirAll] *)
  onCreate : option error;           (* opening for writing *)
  onWrite : option (nat * error);    (* the file takes that many bytes, then fails *)
  onRename : option error;
}.

Definition noFaults : Faults :=
  {| onOpen := None; onFileRead := None; onStat := None; onMkdir := None;
     onCreate := None; onWrite := None; onRename := None |}.

Definition Stat (fs : gmap string node) (name : string) : option node * option error :=
  match lookupPath fs name with
  | Some n => (Some n, None)
  | None => (None, Some ENOENT)
  end.

Definition Mkdir (fs : gmap string node) (name : string)
  : gmap string node * option error :=
  match lookupPath fs name with
  | Some _ => (fs, Some EEXIST)
  | None =>
      match parentOf fs name with
      | Some Directory => (<[name := Directory]> fs, None)
      | Some (File _) => (fs, Some ENOTDIR)
      | None => (fs, Some ENOENT)
      end
  end.

Definition isSep (c : ascii) : bool := Ascii.eqb c filepath.Separator.

(** [MkdirAll] (as of Go 1.21, the toolchain of the Dockerfile) returns at
    once when the path is there, and otherwise recurses on [path[:j-1]], the
    path without its trailing separators, its last element and the separator
    before it, as long as [j > 1], before it makes the directory itself.
    [parentArg] is that [path[:j-1]]. *)

Fixpoint dropWhileSep (l : list ascii) : list ascii :=
  match l with
  | c :: l' => if isSep c then dropWhileSep l' else l
  | [] => []
  end.

Fixpoint dropElement (l : list ascii) : list ascii :=
  match l with
  | c :: l' => if isSep c then l else dropElement l'
  | [] => []
  end.

Definition parentArg (path : string) : option string :=
  let upto_j := dropElement (dropWhileSep (rev (list_ascii_of_string path))) in
  match upto_j with
  | _ :: (_ :: _) as before => Some (string_of_list_ascii (rev before))
  | _ => None
  end.

Fixpoint MkdirAll_rec (fuel : nat) (fs : gmap string node) (path : string)
  : gmap string node * option error :=
  match lookupPath fs path with
  | Some Directory => (fs, None)
  | Some (File _) => (fs, Some ENOTDIR)
  | None =>
      let parent :=
        match fuel, parentArg path with
        | S fuel', Some p => MkdirAll_rec fuel' fs p
        | _, _ => (fs, None)
        end in
      match parent with
      | (fs1, Some err) => (fs1, Some err)
      | (fs1, None) =>
          match Mkdir fs1 path with
          | (fs2, Some err) =>
              match lookupPath fs2 path with
              | Some Directory => (fs2, None)
              | _ => (fs2, Some err)
              end
          | (fs2, None) => (fs2, None)
          end
      end
  end.

Definition MkdirAll (flt : option error) (fs : gmap string node) (path : string)
  : gmap string node * option error :=
  match flt with
  | Some err => (fs, Some err)
  | None => MkdirAll_rec (String.length path) fs path
  end.

(** [OpenFile(name, O_WRONLY|O_CREATE|O_TRUNC)], also [Create]. *)
Definition Create (flt : option error) (fs : gmap string node) (name : string)
  : gmap string node * option error :=
  match flt with
  | Some err => (fs, Some err)
  | None =>
      match lookupPath fs name with
      | Some Directory => (fs, Some EISDIR)
      | _ =>
          match parentOf fs name with
          | Some Directory => (<[name := File []]> fs, None)
          | Some (File _) => (fs, Some ENOTDIR)
          | None => (fs, Some ENOENT)
          end
      end
  end.

(** [File.Write] on the file opened at [name]: the bytes taken and the
    error, if any. *)
Definition fileWrite (flt : option (nat * error)) (fs : gmap string node)
    (name : string) (p : list byte) : gmap string node * nat * option error :=
  match fs !! name with
  | Some (File sofar) =>
      match flt with
      | Some (room, err) =>
          if (length sofar + length p <=? room)%nat
          then (<[name := File (sofar ++ p)]> fs, length p, None)
          else (<[name := File (sofar ++ take (room - length sofar) p)]> fs,
                length (take (room - length sofar) p), Some err)
      | None => (<[name := File (sofar ++ p)]> fs, length p, None)
      end
  | _ => (fs, O, Some EINVAL)
  end.

Definition WriteFile (flt : Faults) (fs : gmap string node) (name : string)
    (data : list byte) : gmap string node * option error :=
  match Create (onCreate flt) fs name with
  | (fs1, Some err) => (fs1, Some err)
  | (fs1, None) =>
      match fileWrite (onWrite flt) fs1 name data with
      | (fs2, _, err) => (fs2, err)
      end
  end.

(** The entries below directory [old] move with it. *)
Definition moveTree (fs : gmap string node) (old new : string) : gmap string node :=
  map_fold
    (fun k v acc =>
       if String.eqb k old then <[new := v]> acc
       else if GoStrings.HasPrefix k (old +:+ filepath.sep)
            then <[new +:+ GoStrings.drop (String.length old) k := v]> acc
            else <[k := v]> acc)
    ∅ fs.

Definition Rename (flt : option error) (fs : gmap string node) (old new : string)
  : gmap string node * option error :=
  match flt with
  | Some err => (fs, Some err)
  | None =>
      match lookupPath fs old, lookupPath fs new with
      | None, _ => (fs, Some ENOENT)
      | Some _, Some Directory => (fs, Some EEXIST)
      | Some (File c), _ =>
          match parentOf fs new with
          | Some Directory => (<[new := File c]> (delete old fs), None)
          | Some (File _) => (fs, Some ENOTDIR)
          | None => (fs, Some ENOENT)
          end
      | Some Directory, Some (File _) => (fs, Some ENOTDIR)
      | Some Directory, None =>
          if isFixed old then (fs, Some EBUSY)
          else if GoStrings.HasPrefix new (old +:+ filepath.sep) then (fs, Some EINVAL)
          else match parentOf fs new with
               | Some Directory => (moveTree fs old new, None)
               | Some (File _) => (fs, Some ENOTDIR)
               | None => (fs, Some ENOENT)
               end
      end
  end.

Definition hasEntriesBelow (fs : gmap string node) (name : string) : bool :=
  map_fold (fun k _ b => b || GoStrings.HasPrefix k (name +:+ filepath.sep)) false fs.

(** [Remove]: refused with [flt], if any; else a file or an empty directory
    goes. *)
Definition Remove (flt : option error) (fs : gmap string node) (name : string)
  : gmap string node * option error :=
  match flt with
  | Some err => (fs, Some err)
  | None =>
      match lookupPath fs name with
      | None => (fs, Some ENOENT)
      | Some (File _) => (delete name fs, None)
      | Some Directory =>
          if isFixed name then (fs, Some EBUSY)
          else if hasEntriesBelow fs name then (fs, Some ENOTEMPTY)
          else (delete name fs, None)
      end
  end.

(** [Open]: files and directories both open for reading. *)
Definition Open (flt : option error) (fs : gmap string node) (name : string)
  : option node * option error :=
  match lookupPath fs name with
  | None => (None, Some ENOENT)
  | Some n =>
      match flt with
      | Some err => (None, Some err)
      | None => (Some n, None)
      end
  end.

(** Reading an open node to its end: the bytes obtained and the error
    that stopped the read, if any. *)
Definition readToEnd (flt : option (nat * error)) (n : node)
  : list byte * option error :=
  match n with
  | Directory => ([], Some EISDIR)
  | File c =>
      match flt with
      | Some (k, err) => (take k c, Some err)
      | None => (c, None)
      end
  end.

Definition ReadFile (flt : Faults) (fs : gmap string node) (name : string)
  : list byte * option error :=
  match Open (onOpen flt) fs name with
  | (Some n, None) => readToEnd (onFileRead flt) n
  | (_, Some err) => ([], Some err)
  | (None, None) => ([], Some ENOENT)
  end.

Definition Size (dirSize : Z) (n : node) : Z :=
  match n with
  | File c => Z.of_nat (length c)
  | Directory => dirSize
  end.

End os.

(** ** cache.go *)

(** readCache reads data from the cache file *)
Definition readCache (flt : os.Faults) (fs : gmap string os.node) (path : string)
  : list byte * option error :=
  os.ReadFile flt fs path.

(** writeCache writes data to cache atomically using temp file + rename *)
Definition writeCache (flt : os.Faults) (fs : gmap string os.node) (path : string)
    (data : list byte) : gmap string os.node * option error :=
  match os.MkdirAll (os.onMkdir flt) fs (filepath.Dir path) with
  | (fs1, Some err) => (fs1, Some err)
  | (fs1, None) =>
      let tmpPath := path +:+ ".tmp" in
      match os.WriteFile flt fs1 tmpPath data with
      | (fs2, Some err) => (fs2, Some err)
      | (fs2, None) => os.Rename (os.onRename flt) fs2 tmpPath path
      end
  end.

(** cacheExists checks if a cache file exists *)
Definition cacheExists (fs : gmap string os.node) (path : string) : bool :=
  match os.Stat fs path with
  | (_, None) => true
  | (_, Some _) => false
  end.


(** ** Package [encoding/json]: validity of a document

    [checkValid] runs the scanner of the package over the document: a
    pushdown automaton whose state is the current step function and the
    stack of open objects and arrays.  [Unmarshal] into a
    [map[string]interface{}] first checks validity and then decodes. *)

Module json.

Inductive parseState : Type := parseObjectKey | parseObjectValue | parseArrayValue.

Inductive step : Type :=
| stateBeginValueOrEmpty | stateBeginValue | stateBeginStringOrEmpty
| stateBeginString | stateEndValue | stateEndTop
| stateInString | stateInStringEsc | stateInStringEscU | stateInStringEscU1
| stateInStringEscU12 | stateInStringEscU123
| stateNeg | state1 | state0 | stateDot | stateDot0 | stateE | stateESign | stateE0
| stateT | stateTr | stateTru | stateF | stateFa | stateFal | stateFals
| stateN | stateNu | stateNul.

Record scanner : Type := mkScanner {
  scanStep : step;
  scanStack : list parseState;   (* innermost first *)
  endTop : bool;
}.

Definition maxNestingDepth : N := 10000.

Definition isSpace (c : byte) : bool :=
  match c with
  | " "%byte | x09 | x0d | x0a => true
  | _ => false
  end.

Definition isDigit (c : byte) : bool :=
  match c with
  | "0"%byte | "1"%byte | "2"%byte | "3"%byte | "4"%byte
  | "5"%byte | "6"%byte | "7"%byte | "8"%byte | "9"%byte => true
  | _ => false
  end.

Definition isDigit19 (c : byte) : bool :=
  isDigit c && negb (Byte.eqb c "0"%byte).

Definition isHex (c : byte) : bool :=
  isDigit c ||
  match c with
  | "a"%byte | "b"%byte | "c"%byte | "d"%byte | "e"%byte | "f"%byte
  | "A"%byte | "B"%byte | "C"%byte | "D"%byte | "E"%byte | "F"%byte => true
  | _ => false
  end.

(** The scanner goes to [next] with the same stack; [None] is [scanError]. *)
Definition goto (s : scanner) (next : step) : option scanner :=
  Some (mkScanner next (scanStack s) (endTop s)).

Definition pushParseState (s : scanner) (newParseState : parseState) (next : step)
  : option scanner :=
  let stack := newParseState :: scanStack s in
  if (N.of_nat (length stack) <=? maxNestingDepth)%N
  then Some (mkScanner next stack (endTop s))
  else None.

Definition popParseState (s : scanner) : option scanner :=
  match scanStack s with
  | _ :: [] => Some (mkScanner stateEndTop [] true)
  | _ :: below => Some (mkScanner stateEndValue below (endTop s))
  | [] => None
  end.

Definition replaceTop (s : scanner) (ps : parseState) : scanner :=
  mkScanner (scanStep s) (ps :: tail (scanStack s)) (endTop s).

Definition doEndTop (s : scanner) (c : byte) : option scanner :=
  if isSpace c then Some (mkScanner stateEndTop (scanStack s) true) else None.

Definition doEndValue (s : scanner) (c : byte) : option scanner :=
  match scanStack s with
  | [] => doEndTop s c
  | ps :: _ =>
      if isSpace c then goto s stateEndValue
      else match ps with
           | parseObjectKey =>
               if Byte.eqb c ":"%byte
               then goto (replaceTop s parseObjectValue) stateBeginValue
               else None
           | parseObjectValue =>
               if Byte.eqb c ","%byte
               then goto (replaceTop s parseObjectKey) stateBeginString
               else if Byte.eqb c "}"%byte then popParseState s
               else None
           | parseArrayValue =>
               if Byte.eqb c ","%byte then goto s stateBeginValue
               else if Byte.eqb c "]"%byte then popParseState s
               else None
           end
  end.

Definition doBeginValue (s : scanner) (c : byte) : option scanner :=
  if isSpace c then Some s
  else match c with
       | "{"%byte => pushParseState s parseObjectKey stateBeginStringOrEmpty
       | "["%byte => pushParseState s parseArrayValue stateBeginValueOrEmpty
       | x22 => goto s stateInString
       | "-"%byte => goto s stateNeg
       | "0"%byte => goto s state0
       | "t"%byte => goto s stateT
       | "f"%byte => goto s stateF
       | "n"%byte => goto s stateN
       | _ => if isDigit19 c then goto s state1 else None
       end.

Definition doBeginString (s : scanner) (c : byte) : option scanner :=
  if isSpace c then Some s
  else if Byte.eqb c x22 then goto s stateInString
  else None.

Definition do0 (s : scanner) (c : byte) : option scanner :=
  if Byte.eqb c "."%byte then goto s stateDot
  else if Byte.eqb c "e"%byte || Byte.eqb c "E"%byte then goto s stateE
  else doEndValue s c.

Definition doESign (s : scanner) (c : byte) : option scanner :=
  if isDigit c then goto s stateE0 else None.

Definition expect (s : scanner) (c want : byte) (next : step) : option scanner :=
  if Byte.eqb c want then goto s next else None.

Definition doStep (s : scanner) (c : byte) : option scanner :=
  match scanStep s with
  | stateBeginValueOrEmpty =>
      if isSpace c then Some s
      else if Byte.eqb c "]"%byte then doEndValue s c
      else doBeginValue s c
  | stateBeginValue => doBeginValue s c
  | stateBeginStringOrEmpty =>
      if isSpace c then Some s
      else if Byte.eqb c "}"%byte then doEndValue (replaceTop s parseObjectValue) c
      else doBeginString s c
  | stateBeginString => doBeginString s c
  | stateEndValue => doEndValue s c
  | stateEndTop => doEndTop s c
  | stateInString =>
      if Byte.eqb c x22 then goto s stateEndValue
      else if Byte.eqb c x5c then goto s stateInStringEsc
      else if (Byte.to_N c <? 32)%N then None
      else Some s
  | stateInStringEsc =>
      match c with
      | "b"%byte | "f"%byte | "n"%byte | "r"%byte | "t"%byte
      | x5c | "/"%byte | x22 => goto s stateInString
      | "u"%byte => goto s stateInStringEscU
      | _ => None
      end
  | stateInStringEscU => if isHex c then goto s stateInStringEscU1 else None
  | stateInStringEscU1 => if isHex c then goto s stateInStringEscU12 else None
  | stateInStringEscU12 => if isHex c then goto s stateInStringEscU123 else None
  | stateInStringEscU123 => if isHex c then goto s stateInString else None
  | stateNeg =>
      if Byte.eqb c "0"%byte then goto s state0
      else if isDigit19 c then goto s state1
      else None
  | state1 => if isDigit c then goto s state1 else do0 s c
  | state0 => do0 s c
  | stateDot => if isDigit c then goto s stateDot0 else None
  | stateDot0 =>
      if isDigit c then Some s
      else if Byte.eqb c "e"%byte || Byte.eqb c "E"%byte then goto s stateE
      else doEndValue s c
  | stateE =>
      if Byte.eqb c "+"%byte || Byte.eqb c "-"%byte then goto s stateESign
      else doESign s c
  | stateESign => doESign s c
  | stateE0 => if isDigit c then Some s else doEndValue s c
  | stateT => expect s c "r"%byte stateTr
  | stateTr => expect s c "u"%byte stateTru
  | stateTru => expect s c "e"%byte stateEndValue
  | stateF => expect s c "a"%byte stateFa
  | stateFa => expect s c "l"%byte stateFal
  | stateFal => expect s c "s"%byte stateFals
  | stateFals => expect s c "e"%byte stateEndValue
  | stateN => expect s c "u"%byte stateNu
  | stateNu => expect s c "l"%byte stateNul
  | stateNul => expect s c "l"%byte stateEndValue
  end.

Definition eof (s : scanner) : bool :=
  endTop s ||
  match doStep s " "%byte with
  | Some s' => endTop s'
  | None => false
  end.

Fixpoint scanAll (s : scanner) (data : list byte) : bool :=
  match data with
  | [] => eof s
  | c :: rest =>
      match doStep s c with
      | Some s' => scanAll s' rest
      | None => false
      end
  end.

Definition checkValid (data : list byte) : bool :=
  scanAll (mkScanner stateBeginValue [] false) data.

(** The first byte of the document's value. *)
Fixpoint firstByte (data : list byte) : option byte :=
  match data with
  | [] => None
  | c :: rest => if isSpace c then firstByte rest else Some c
  end.

(** [Unmarshal(data, &info)] with [info] a [map[string]interface{}]: a
    syntax error when the document is not valid; a type error when its
    value is not an object or [null], or when one of its numbers does not
    convert to a [float64] ([numbersFit], which is not computed here). *)
Definition Unmarshal (numbersFit : list byte -> bool) (data : list byte)
  : option error :=
  if checkValid data then
    match firstByte data with
    | Some "{"%byte =>
        if numbersFit data then None
        else Some "json: cannot unmarshal number into Go value of type float64"
    | Some "n"%byte => None
    | _ => Some "json: cannot unmarshal into Go value of type map[string]interface {}"
    end
  else Some "invalid character or unexpected end of JSON input".

End json.

(** ** Packages [time] and [context] *)

Module time.

Definition Second : Z := 1000000000.
Definition Minute : Z := 60 * Second.

End time.

(** A context is described by its deadline, if it has one, and by the
    instant at which it is cancelled from outside (the inbound client going
    away), if that ever happens. *)

Module context.

Record Context : Type := mkContext {
  Deadline : option Z;
  cancelAt : option Z;
}.

Definition Background : Context := mkContext None None.

Definition earliest (a b : option Z) : option Z :=
  match a, b with
  | Some x, Some y => Some (Z.min x y)
  | Some x, None => Some x
  | None, _ => b
  end.

(** The instant at which [Done] is closed. *)
Definition doneAt (ctx : Context) : option Z :=
  earliest (Deadline ctx) (cancelAt ctx).

Definition WithDeadline (parent : Context) (d : Z) : Context :=
  match Deadline parent with
  | Some cur =>
      if cur <? d then parent   (* the current deadline is already sooner *)
      else mkContext (Some d) (cancelAt parent)
  | None => mkContext (Some d) (cancelAt parent)
  end.

Definition WithTimeout (parent : Context) (now timeout : Z) : Context :=
  WithDeadline parent (now + timeout).

End context.

(** ** Package [fmt] *)

Module fmt.

Inductive arg : Type :=
| str (s : string)       (* a string, or an error printed with its message *)
| int (n : Z)
| duration (d : Z).      (* only logged, never rendered *)

Definition itoa (n : Z) : string :=
  DecimalString.NilZero.string_of_int (Z.to_int n).

Definition showArg (a : arg) : string :=
  match a with
  | str s => s
  | int n => itoa n
  | duration d => itoa d +:+ "ns"
  end.

(** [Sprintf] for formats whose verbs are [%s], [%d] and [%v]; [skip] is
    set while the verb's letter is passed over. *)
Fixpoint sprintfFrom (skip : bool) (format : string) (args : list arg) : string :=
  match format with
  | EmptyString => EmptyString
  | String c rest =>
      if skip then sprintfFrom false rest args
      else if Ascii.eqb c "%"%char then
        match args with
        | a :: args' => showArg a +:+ sprintfFrom true rest args'
        | [] => "%!(MISSING)" +:+ sprintfFrom true rest []
        end
      else String c (sprintfFrom false rest args)
  end.

Definition Sprintf (format : string) (args : list arg) : string :=
  sprintfFrom false format args.

End fmt.

(** ** Package [net/http] *)

Module http.

Definition MethodGet : string := "GET".
Definition StatusOK : Z := 200.
Definition StatusNotFound : Z := 404.
Definition StatusMethodNotAllowed : Z := 405.
Definition StatusInternalServerError : Z := 500.
Definition StatusBadGateway : Z := 502.

(** What the handler has put on its [ResponseWriter]; the header is frozen
    once the status line is written.  [WriteHeader] and [Write] are those of
    net/http for a status that is sent as given and with a body: the
    constants the handlers use, and of the statuses of upstream those from
    200 to 999 other than 204 and 304. *)
Record ResponseWriter : Type := mkResponseWriter {
  Header : gmap string string;
  wroteHeader : option Z;
  wroteBody : list byte;
}.

Definition newResponseWriter : ResponseWriter := mkResponseWriter ∅ None [].

Definition HeaderSet (key value : string) (w : ResponseWriter) : ResponseWriter :=
  match wroteHeader w with
  | None => mkResponseWriter (<[key := value]> (Header w)) None (wroteBody w)
  | Some _ => w
  end.

Definition WriteHeader (code : Z) (w : ResponseWriter) : ResponseWriter :=
  match wroteHeader w with
  | None => mkResponseWriter (Header w) (Some code) (wroteBody w)
  | Some _ => w
  end.

Definition Write (p : list byte) (w : ResponseWriter) : ResponseWriter :=
  let w' := WriteHeader StatusOK w in
  mkResponseWriter (Header w') (wroteHeader w') (wroteBody w' ++ p).

Definition Error (msg : string) (code : Z) (w : ResponseWriter) : ResponseWriter :=
  let w1 := HeaderSet "Content-Type" "text/plain; charset=utf-8" w in
  let w2 := HeaderSet "X-Content-Type-Options" "nosniff" w1 in
  Write (list_byte_of_string (msg +:+ String "010"%char EmptyString))
        (WriteHeader code w2).

(** The status the client sees: an untouched writer answers 200. *)
Definition statusOf (w : ResponseWriter) : Z :=
  match wroteHeader w with
  | Some code => code
  | None => StatusOK
  end.

(** An upstream response: its body arrives in the chunks the successive
    reads return, and ends cleanly or with a read error. *)
Record Response : Type := mkResponse {
  StatusCode : Z;
  ContentLength : Z;
  Body : list (list byte);
  BodyErr : option error;
}.

(** A request; for an inbound one, [URL] is its [URL.Path]. *)
Record Request : Type := mkRequest {
  Method : string;
  URL : string;
  Ctx : context.Context;
  RemoteAddr : string;
}.

End http.

Module io.

(** [ReadAll]: the bytes read and the error that ended the read. *)
Definition ReadAll (resp : http.Response) : list byte * option error :=
  (concat (http.Body resp), http.BodyErr resp).

End io.

(** ** Name resolution (part_000, lines 23-214) *)

Inductive result (A : Type) : Type :=
| Ok (a : A)
| Err (err : error).
Arguments Ok {A} a.
Arguments Err {A} err.

Module net.

Definition IP : Type := list byte.

Record IPAddr : Type := mkIPAddr { addrIP : IP; Zone : string }.

(** [Dialer] values the program builds. *)
Record Dialer : Type := mkDialer { DialTimeout : Z; KeepAlive : Z }.

End net.

Module dns.

Definition TypeA : Z := 1.

Inductive RR : Type :=
| A (ip : net.IP)
| otherRR (rrtype : Z).

Record Msg : Type := mkMsg {
  Question : list (string * Z);
  Answer : list RR;
}.

Record Client : Type := mkClient { Net : string }.

(** [Fqdn]: the name with a trailing dot (escaped dots are not modelled). *)
Definition Fqdn (s : string) : string :=
  if GoStrings.HasSuffix s "." then s else s +:+ ".".

Definition SetQuestion (name : string) (t : Z) : Msg := mkMsg [(name, t)] [].

End dns.

(** What the network does with the resolvers' traffic. *)
Record Connection : Type := mkConnection {
  WriteMsg : option Z -> dns.Msg -> option error;   (* deadline, message *)
  ReadMsg : option Z -> dns.Msg -> result dns.Msg;  (* deadline, query sent *)
}.

Record Network : Type := mkNetwork {
  tlsDial : net.Dialer -> string -> string -> string -> result Connection;
      (* dialer, network, address, TLS server name *)
  udpLookupIPAddr : string -> context.Context -> string -> result (list net.IPAddr);
      (* server, context, host *)
  QueryEscape : string -> string;
  ParseIP : string -> option net.IP;
  dohNewRequestError : string -> option error;
  dohDo : Z -> context.Context -> string -> result (Z * result (list (Z * string)));
      (* client timeout, context, URL: status and decoded answers *)
}.

Inductive NetEvent : Type :=
| DialedTLS (network address serverName : string)
| LookedUpUDP (server host : string)
| RequestedHTTP (url : string).

Definition LookupResult : Type := (list net.IP * option error) * list NetEvent.

(** DNSResolver handles different DNS protocol types *)
Class DNSResolver (R : Type) : Type := {
  LookupIP : Network -> R -> context.Context -> string -> LookupResult;
}.

(** StandardDNSResolver uses UDP DNS *)
Record StandardDNSResolver : Type := mkStandardDNSResolver { stdServer : string }.

(** DoHResolver uses DNS-over-HTTPS *)
Record DoHResolver : Type := mkDoHResolver { dohClientTimeout : Z; endpoint : string }.

(** DoTResolver uses DNS-over-TLS *)
Record DoTResolver : Type := mkDoTResolver { dotServer : string; dotClient : dns.Client }.

(** DoQResolver uses DNS-over-QUIC *)
Record DoQResolver : Type := mkDoQResolver { doqServer : string; doqClient : dns.Client }.

Definition StandardDNSResolver_LookupIP (nw : Network) (r : StandardDNSResolver)
    (ctx : context.Context) (host : string) : LookupResult :=
  let events := [LookedUpUDP (stdServer r) host] in
  match udpLookupIPAddr nw (stdServer r) ctx host with
  | Err err => (([], Some err), events)
  | Ok addrs => ((map net.addrIP addrs, None), events)
  end.

Definition DoHResolver_LookupIP (nw : Network) (r : DoHResolver)
    (ctx : context.Context) (host : string) : LookupResult :=
  let dohURL :=
    fmt.Sprintf "%s?name=%s&type=A" [fmt.str (endpoint r); fmt.str (QueryEscape nw host)] in
  match dohNewRequestError nw dohURL with
  | Some err => (([], Some err), [])
  | None =>
      let events := [RequestedHTTP dohURL] in
      match dohDo nw (dohClientTimeout r) ctx dohURL with
      | Err err => (([], Some err), events)
      | Ok (status, decoded) =>
          if negb (status =? http.StatusOK)
          then (([], Some (fmt.Sprintf "DoH server returned status %d" [fmt.int status])),
                events)
          else
            match decoded with
            | Err err => (([], Some err), events)
            | Ok answers =>
                let ips :=
                  omap (fun answer : Z * string =>
                          if fst answer =? 1 then ParseIP nw (snd answer) else None)
                       answers in
                if (length ips =? 0)%nat
                then (([], Some (fmt.Sprintf "no A records found for %s" [fmt.str host])),
                      events)
                else ((ips, None), events)
            end
      end
  end.

Definition DoTResolver_LookupIP (nw : Network) (r : DoTResolver)
    (ctx : context.Context) (host : string) : LookupResult :=
  let m := dns.SetQuestion (dns.Fqdn host) dns.TypeA in
  let serverName := hd EmptyString (GoStrings.Split (dotServer r) ":") in
  let events := [DialedTLS "tcp" (dotServer r) serverName] in
  match tlsDial nw (net.mkDialer (5 * time.Second) 0) "tcp" (dotServer r) serverName with
  | Err err => (([], Some err), events)
  | Ok conn =>
      let deadline := context.Deadline ctx in
      match WriteMsg conn deadline m with
      | Some err => (([], Some err), events)
      | None =>
          match ReadMsg conn deadline m with
          | Err err => (([], Some err), events)
          | Ok reply =>
              let ips :=
                omap (fun rr => match rr with dns.A a => Some a | _ => None end)
                     (dns.Answer reply) in
              if (length ips =? 0)%nat
              then (([], Some (fmt.Sprintf "no A records found for %s" [fmt.str host])),
                    events)
              else ((ips, None), events)
          end
      end
  end.

Definition DoQResolver_LookupIP (nw : Network) (r : DoQResolver)
    (ctx : context.Context) (host : string) : LookupResult :=
  let dotResolver := mkDoTResolver (doqServer r) (doqClient r) in
  DoTResolver_LookupIP nw dotResolver ctx host.

#[export] Instance StandardDNSResolver_DNSResolver : DNSResolver StandardDNSResolver :=
  {| LookupIP := StandardDNSResolver_LookupIP |}.
#[export] Instance DoHResolver_DNSResolver : DNSResolver DoHResolver :=
  {| LookupIP := DoHResolver_LookupIP |}.
#[export] Instance DoTResolver_DNSResolver : DNSResolver DoTResolver :=
  {| LookupIP := DoTResolver_LookupIP |}.
#[export] Instance DoQResolver_DNSResolver : DNSResolver DoQResolver :=
  {| LookupIP := DoQResolver_LookupIP |}.

(** A value of the interface type: one of its four implementations. *)
Inductive Resolver : Type :=
| isStandard (r : StandardDNSResolver)
| isDoH (r : DoHResolver)
| isDoT (r : DoTResolver)
| isDoQ (r : DoQResolver).

#[export] Instance Resolver_DNSResolver : DNSResolver Resolver :=
  {| LookupIP nw r :=
       match r with
       | isStandard r' => LookupIP nw r'
       | isDoH r' => LookupIP nw r'
       | isDoT r' => LookupIP nw r'
       | isDoQ r' => LookupIP nw r'
       end |}.

(** createDNSResolver creates appropriate DNS resolver based on URL *)
Definition createDNSResolver (dnsURL : string) : option Resolver * option error :=
  if String.eqb dnsURL "" then (None, None)
  else if GoStrings.HasPrefix dnsURL "https://" then
    (Some (isDoH (mkDoHResolver (10 * time.Second) dnsURL)), None)
  else if GoStrings.HasPrefix dnsURL "quic://" then
    let server := GoStrings.TrimPrefix dnsURL "quic://" in
    let server := if negb (GoStrings.Contains server ":") then server +:+ ":853" else server in
    (Some (isDoQ (mkDoQResolver server (dns.mkClient "tcp-tls"))), None)
  else if GoStrings.HasPrefix dnsURL "tls://" then
    let server := GoStrings.TrimPrefix dnsURL "tls://" in
    let server := if negb (GoStrings.Contains server ":") then server +:+ ":853" else server in
    (Some (isDoT (mkDoTResolver server (dns.mkClient "tcp-tls"))), None)
  else
    let server := GoStrings.TrimPrefix dnsURL "udp://" in
    let server := if negb (GoStrings.Contains server ":") then server +:+ ":53" else server in
    (Some (isStandard (mkStandardDNSResolver server)), None).

(** ** The proxy and its construction (part_000, lines 216-344; main.go) *)

Record URL : Type := mkURL { Scheme : string; Host : string }.

(** What [DialContext] of the transport does: dial directly, through the
    dialer of [createDialer], or through a SOCKS5 proxy; in both cases with
    the custom resolver when there is one. *)
Inductive DialContext : Type :=
| dialDirect (dialer : net.Dialer) (dnsResolver : option Resolver)
| dialSOCKS5 (proxyAddr : string) (dnsResolver : option Resolver).

Record Transport : Type := mkTransport {
  transportDial : DialContext;
  transportProxy : option URL;
  TLSHandshakeTimeout : Z;
  ResponseHeaderTimeout : Z;
  IdleConnTimeout : Z;
  MaxIdleConns : Z;
  MaxIdleConnsPerHost : Z;
}.

Record Client : Type := mkClient { Timeout : Z; clientTransport : Transport }.

(** Proxy handles Go module proxy requests with disk caching *)
Record Proxy : Type := mkProxy {
  cacheDir : string;
  upstream : string;
  client : Client;
}.

(** The process environment at start-up. *)
Record Startup : Type := mkStartup {
  Getenv : string -> string;
  url_Parse : string -> result URL;
  proxy_SOCKS5 : string -> string -> option error;   (* network, address *)
}.

Definition LogEntry : Type := (string * list fmt.arg)%type.

(** createDialer creates a custom dialer with DNS resolver support *)
Definition createDialer (dnsResolver : option Resolver) : DialContext :=
  dialDirect (net.mkDialer (5 * time.Second) (30 * time.Second)) dnsResolver.

(** Determine proxy URL: flag > HTTP_PROXY > HTTPS_PROXY > SOCKS5_PROXY
    (part_000, lines 278-288). *)
Definition NewProxy_proxyURL (env : Startup) (httpProxy : string) : string :=
  let proxyURL := httpProxy in
  let proxyURL := if String.eqb proxyURL "" then Getenv env "HTTP_PROXY" else proxyURL in
  let proxyURL := if String.eqb proxyURL "" then Getenv env "HTTPS_PROXY" else proxyURL in
  let proxyURL := if String.eqb proxyURL "" then Getenv env "SOCKS5_PROXY" else proxyURL in
  proxyURL.

(** NewProxy creates a new proxy instance with configured HTTP client *)
Definition NewProxy (env : Startup) (cacheDir upstream httpProxy dnsServer : string)
  : Proxy * list LogEntry :=
  let '(dnsResolver, log1) :=
    match createDNSResolver dnsServer with
    | (_, Some err) =>
        (None, [("[WARN] Failed to create DNS resolver: %v", [fmt.str err])])
    | (Some r, None) => (Some r, [("Using DNS resolver: %s", [fmt.str dnsServer])])
    | (None, None) => (None, [])
    end in
  let dialer := createDialer dnsResolver in
  let transport (dial : DialContext) (viaProxy : option URL) :=
    mkTransport dial viaProxy (5 * time.Second) (10 * time.Second)
                (90 * time.Second) 100 10 in
  let proxyURL := NewProxy_proxyURL env httpProxy in
  let '(tr, log2) :=
    if negb (String.eqb proxyURL "") then
      match url_Parse env proxyURL with
      | Err err =>
          (transport dialer None,
           [("[WARN] Invalid proxy URL '%s': %v", [fmt.str proxyURL; fmt.str err])])
      | Ok parsedURL =>
          if String.eqb (Scheme parsedURL) "http" || String.eqb (Scheme parsedURL) "https"
          then (transport dialer (Some parsedURL),
                [("Using HTTP proxy: %s", [fmt.str proxyURL])])
          else if String.eqb (Scheme parsedURL) "socks5"
                  || String.eqb (Scheme parsedURL) "socks5h"
          then match proxy_SOCKS5 env "tcp" (Host parsedURL) with
               | Some err =>
                   (transport dialer None,
                    [("[WARN] Failed to create SOCKS5 dialer: %v", [fmt.str err])])
               | None =>
                   (transport (dialSOCKS5 (Host parsedURL) dnsResolver) None,
                    [("Using SOCKS5 proxy: %s", [fmt.str proxyURL])])
               end
          else (transport dialer None,
                [("[WARN] Unsupported proxy scheme: %s (supported: http, https, socks5, socks5h)",
                  [fmt.str (Scheme parsedURL)])])
      end
    else (transport dialer None, []) in
  (mkProxy cacheDir (GoStrings.TrimSuffix upstream "/")
           (mkClient (5 * time.Minute) tr),
   log1 ++ log2).

(** main.go: the flags after [flag.Parse], then the environment. *)
Record Flags : Type := mkFlags {
  port : string;
  flagCacheDir : string;
  flagUpstream : string;
  httpProxy : string;
  dnsServer : string;
}.

Definition orEnv (env : Startup) (name current : string) : string :=
  if negb (String.eqb (Getenv env name) "") then Getenv env name else current.

Definition main_config (env : Startup) (flags : Flags) : Flags :=
  let port' := orEnv env "PORT" (port flags) in
  let cacheDir' := orEnv env "CACHE_DIR" (flagCacheDir flags) in
  let upstream' := orEnv env "UPSTREAM_PROXY" (flagUpstream flags) in
  let httpProxy' :=
    if String.eqb (httpProxy flags) "" then
      if negb (String.eqb (Getenv env "HTTP_PROXY") "") then Getenv env "HTTP_PROXY"
      else if negb (String.eqb (Getenv env "HTTPS_PROXY") "") then Getenv env "HTTPS_PROXY"
      else if negb (String.eqb (Getenv env "SOCKS5_PROXY") "") then Getenv env "SOCKS5_PROXY"
      else httpProxy flags
    else httpProxy flags in
  let dnsServer' :=
    if String.eqb (dnsServer flags) "" then
      if negb (String.eqb (Getenv env "DNS_SERVER") "") then Getenv env "DNS_SERVER"
      else dnsServer flags
    else dnsServer flags in
  mkFlags port' cacheDir' upstream' httpProxy' dnsServer'.

Definition main_proxy (env : Startup) (flags : Flags) : Proxy * list LogEntry :=
  let cfg := main_config env flags in
  NewProxy env (flagCacheDir cfg) (flagUpstream cfg) (httpProxy cfg) (dnsServer cfg).

(** The proxy URL the transport is configured from, for given flags. *)
Definition main_proxyURL (env : Startup) (flags : Flags) : string :=
  NewProxy_proxyURL env (httpProxy (main_config env flags)).

(** ** The handlers (part_000, lines 346-662)

    A handler runs against the file system and its [ResponseWriter], logs,
    and sends requests upstream.  [World] holds what the handler cannot
    decide: the faults of the disk, the clock, and what upstream answers. *)

Record World : Type := mkWorld {
  faults : os.Faults;
  now : Z;                                   (* [time.Now()] when a fetch is issued *)
  elapsed : Z;                               (* [time.Since(startTime)] *)
  newRequestError : string -> option error;  (* [http.NewRequestWithContext] *)
  roundTrip : string -> option Z -> result http.Response;
      (* URL and the instant the request is abandoned, if any *)
  clientRoom : option (nat * error);         (* the inbound connection takes that
                                                many streamed bytes, then fails *)
  dirSize : Z;                               (* [Size()] of a directory *)
  numbersFit : list byte -> bool;            (* see [json.Unmarshal] *)
  onRemove : option error;                   (* [os.Remove] is refused *)
}.

Record State : Type := mkState {
  disk : gmap string os.node;
  w : http.ResponseWriter;
  logged : list LogEntry;
  sent : list http.Request;
}.

Definition initState (fs : gmap string os.node) : State :=
  mkState fs http.newResponseWriter [] [].

(** [None] as value: the handler has returned. *)
Definition Handler (A : Type) : Type := State -> option A * State.

Definition ret {A : Type} (a : A) : Handler A := fun st => (Some a, st).

Definition bind {A B : Type} (m : Handler A) (k : A -> Handler B) : Handler B :=
  fun st =>
    match m st with
    | (Some a, st') => k a st'
    | (None, st') => (None, st')
    end.

Definition return_ {A : Type} : Handler A := fun st => (None, st).

Notation "'let!' x ':=' m 'in' k" := (bind m (fun x => k))
  (at level 10, x pattern, m at level 100, k at level 200, only parsing).
Notation "m ;; k" := (bind m (fun _ => k))
  (at level 100, k at level 200, right associativity, only parsing).

(** The state a handler leaves behind. *)
Definition run {A : Type} (h : Handler A) (st : State) : State := snd (h st).

Definition log_Printf (format : string) (args : list fmt.arg) : Handler unit :=
  fun st => (Some tt, mkState (disk st) (w st) (logged st ++ [(format, args)]) (sent st)).

Definition onWriter (f : http.ResponseWriter -> http.ResponseWriter) : Handler unit :=
  fun st => (Some tt, mkState (disk st) (f (w st)) (logged st) (sent st)).

Definition onDisk {A : Type} (f : gmap string os.node -> gmap string os.node * A)
  : Handler A :=
  fun st => let '(fs, a) := f (disk st) in
            (Some a, mkState fs (w st) (logged st) (sent st)).

Definition fromDisk {A : Type} (f : gmap string os.node -> A) : Handler A :=
  fun st => (Some (f (disk st)), st).

Definition w_Header_Set (key value : string) : Handler unit :=
  onWriter (http.HeaderSet key value).

Definition w_Write (p : list byte) : Handler unit := onWriter (http.Write p).

Definition http_Error (msg : string) (code : Z) : Handler unit :=
  onWriter (http.Error msg code).

Definition http_NewRequestWithContext (wld : World) (ctx : context.Context)
    (method url : string) : Handler (http.Request * option error) :=
  ret (http.mkRequest method url ctx "", newRequestError wld url).

(** The instant at which [Client.Do] abandons a request issued at [t]:
    when its context is done or the client's [Timeout] has passed. *)
Definition abandonedAt (c : Client) (t : Z) (ctx : context.Context) : option Z :=
  context.earliest (context.doneAt ctx)
                   (if 0 <? Timeout c then Some (t + Timeout c) else None).

Definition client_Do (p : Proxy) (wld : World) (req : http.Request)
  : Handler (result http.Response) :=
  fun st =>
    (Some (roundTrip wld (http.URL req) (abandonedAt (client p) (now wld) (http.Ctx req))),
     mkState (disk st) (w st) (logged st) (sent st ++ [req])).

Definition quoted (s : string) : string :=
  String "034"%char (s +:+ String "034"%char EmptyString).

(** handleHealth handles health check requests *)
Definition handleHealth : Handler unit :=
  w_Header_Set "Content-Type" "application/json" ;;
  onWriter (http.WriteHeader http.StatusOK) ;;
  w_Write (list_byte_of_string ("{" +:+ quoted "status" +:+ ":" +:+ quoted "ok" +:+ "}")).

(** handleList handles GET /<module>/@v/list requests *)
Definition handleList (p : Proxy) (wld : World) (r : http.Request) (path : string)
  : Handler unit :=
  let cachePath' := cachePath (cacheDir p) path in
  (* Try cache first *)
  let! (cached, err) := fromDisk (fun fs => readCache (faults wld) fs cachePath') in
  match err with
  | None =>
      log_Printf "[CACHE HIT] %s" [fmt.str path] ;;
      w_Header_Set "Content-Type" "text/plain; charset=utf-8" ;;
      w_Write cached ;;
      return_
  | Some _ => ret tt
  end ;;
  log_Printf "[CACHE MISS] %s" [fmt.str path] ;;
  (* Fetch from upstream *)
  let url := fmt.Sprintf "%s/%s" [fmt.str (upstream p); fmt.str path] in
  let! (req, err) := http_NewRequestWithContext wld (http.Ctx r) http.MethodGet url in
  match err with
  | Some err =>
      http_Error (fmt.Sprintf "Failed to create request: %v" [fmt.str err])
                 http.StatusInternalServerError ;;
      return_
  | None => ret tt
  end ;;
  let! res := client_Do p wld req in
  match res with
  | Err err =>
      log_Printf "[ERROR] Failed to fetch %s: %v" [fmt.str url; fmt.str err] ;;
      http_Error (fmt.Sprintf "Failed to fetch: %v" [fmt.str err]) http.StatusBadGateway ;;
      return_
  | Ok resp =>
      if negb (http.StatusCode resp =? http.StatusOK) then
        log_Printf "[ERROR] Upstream returned %d for %s"
                   [fmt.int (http.StatusCode resp); fmt.str url] ;;
        http_Error (fmt.Sprintf "Upstream error: %d" [fmt.int (http.StatusCode resp)])
                   (http.StatusCode resp) ;;
        return_
      else
        let '(data, err) := io.ReadAll resp in
        match err with
        | Some err =>
            log_Printf "[ERROR] Failed to read response for %s: %v" [fmt.str url; fmt.str err] ;;
            http_Error (fmt.Sprintf "Failed to read response: %v" [fmt.str err])
                       http.StatusInternalServerError ;;
            return_
        | None => ret tt
        end ;;
        (* Cache the response *)
        let! err := onDisk (fun fs => writeCache (faults wld) fs cachePath' data) in
        match err with
        | Some err => log_Printf "[WARN] Failed to cache %s: %v" [fmt.str path; fmt.str err]
        | None => ret tt
        end ;;
        w_Header_Set "Content-Type" "text/plain; charset=utf-8" ;;
        w_Write data
  end.

(** handleInfo handles GET /<module>/@v/<version>.info requests *)
Definition handleInfo (p : Proxy) (wld : World) (r : http.Request) (path : string)
  : Handler unit :=
  let cachePath' := cachePath (cacheDir p) path in
  (* Try cache first *)
  let! (cached, err) := fromDisk (fun fs => readCache (faults wld) fs cachePath') in
  match err with
  | None =>
      log_Printf "[CACHE HIT] %s" [fmt.str path] ;;
      w_Header_Set "Content-Type" "application/json" ;;
      w_Write cached ;;
      return_
  | Some _ => ret tt
  end ;;
  log_Printf "[CACHE MISS] %s" [fmt.str path] ;;
  (* Fetch from upstream *)
  let url := fmt.Sprintf "%s/%s" [fmt.str (upstream p); fmt.str path] in
  let! (req, err) := http_NewRequestWithContext wld (http.Ctx r) http.MethodGet url in
  match err with
  | Some err =>
      http_Error (fmt.Sprintf "Failed to create request: %v" [fmt.str err])
                 http.StatusInternalServerError ;;
      return_
  | None => ret tt
  end ;;
  let! res := client_Do p wld req in
  match res with
  | Err err =>
      log_Printf "[ERROR] Failed to fetch %s: %v" [fmt.str url; fmt.str err] ;;
      http_Error (fmt.Sprintf "Failed to fetch: %v" [fmt.str err]) http.StatusBadGateway ;;
      return_
  | Ok resp =>
      if negb (http.StatusCode resp =? http.StatusOK) then
        log_Printf "[ERROR] Upstream returned %d for %s"
                   [fmt.int (http.StatusCode resp); fmt.str url] ;;
        http_Error (fmt.Sprintf "Upstream error: %d" [fmt.int (http.StatusCode resp)])
                   (http.StatusCode resp) ;;
        return_
      else
        let '(data, err) := io.ReadAll resp in
        match err with
        | Some err =>
            log_Printf "[ERROR] Failed to read response for %s: %v" [fmt.str url; fmt.str err] ;;
            http_Error (fmt.Sprintf "Failed to read response: %v" [fmt.str err])
                       http.StatusInternalServerError ;;
            return_
        | None => ret tt
        end ;;
        (* Validate JSON *)
        match json.Unmarshal (numbersFit wld) data with
        | Some err =>
            log_Printf "[ERROR] Invalid JSON from upstream for %s: %v" [fmt.str url; fmt.str err] ;;
            http_Error (fmt.Sprintf "Invalid JSON: %v" [fmt.str err]) http.StatusBadGateway ;;
            return_
        | None => ret tt
        end ;;
        (* Cache the response *)
        let! err := onDisk (fun fs => writeCache (faults wld) fs cachePath' data) in
        match err with
        | Some err => log_Printf "[WARN] Failed to cache %s: %v" [fmt.str path; fmt.str err]
        | None => ret tt
        end ;;
        w_Header_Set "Content-Type" "application/json" ;;
        w_Write data
  end.

(** handleMod handles GET /<module>/@v/<version>.mod requests *)
Definition handleMod (p : Proxy) (wld : World) (r : http.Request) (path : string)
  : Handler unit :=
  let cachePath' := cachePath (cacheDir p) path in
  (* Try cache first *)
  let! (cached, err) := fromDisk (fun fs => readCache (faults wld) fs cachePath') in
  match err with
  | None =>
      log_Printf "[CACHE HIT] %s" [fmt.str path] ;;
      w_Header_Set "Content-Type" "text/plain; charset=utf-8" ;;
      w_Write cached ;;
      return_
  | Some _ => ret tt
  end ;;
  log_Printf "[CACHE MISS] %s" [fmt.str path] ;;
  (* Fetch from upstream *)
  let url := fmt.Sprintf "%s/%s" [fmt.str (upstream p); fmt.str path] in
  let! (req, err) := http_NewRequestWithContext wld (http.Ctx r) http.MethodGet url in
  match err with
  | Some err =>
      http_Error (fmt.Sprintf "Failed to create request: %v" [fmt.str err])
                 http.StatusInternalServerError ;;
      return_
  | None => ret tt
  end ;;
  let! res := client_Do p wld req in
  match res with
  | Err err =>
      log_Printf "[ERROR] Failed to fetch %s: %v" [fmt.str url; fmt.str err] ;;
      http_Error (fmt.Sprintf "Failed to fetch: %v" [fmt.str err]) http.StatusBadGateway ;;
      return_
  | Ok resp =>
      if negb (http.StatusCode resp =? http.StatusOK) then
        log_Printf "[ERROR] Upstream returned %d for %s"
                   [fmt.int (http.StatusCode resp); fmt.str url] ;;
        http_Error (fmt.Sprintf "Upstream error: %d" [fmt.int (http.StatusCode resp)])
                   (http.StatusCode resp) ;;
        return_
      else
        let '(data, err) := io.ReadAll resp in
        match err with
        | Some err =>
            log_Printf "[ERROR] Failed to read response for %s: %v" [fmt.str url; fmt.str err] ;;
            http_Error (fmt.Sprintf "Failed to read response: %v" [fmt.str err])
                       http.StatusInternalServerError ;;
            return_
        | None => ret tt
        end ;;
        (* Cache the response *)
        let! err := onDisk (fun fs => writeCache (faults wld) fs cachePath' data) in
        match err with
        | Some err => log_Printf "[WARN] Failed to cache %s: %v" [fmt.str path; fmt.str err]
        | None => ret tt
        end ;;
        w_Header_Set "Content-Type" "text/plain; charset=utf-8" ;;
        w_Write data
  end.

(** [ResponseWriter.Write] on the inbound connection while streaming: the
    bytes taken and the error, if any. *)
Definition clientWrite (room : option (nat * error)) (w0 : http.ResponseWriter)
    (p : list byte) : http.ResponseWriter * nat * option error :=
  match room with
  | Some (n, err) =>
      if (length (http.wroteBody w0) + length p <=? n)%nat
      then (http.Write p w0, length p, None)
      else (http.Write (take (n - length (http.wroteBody w0)) p) w0,
            length (take (n - length (http.wroteBody w0)) p), Some err)
  | None => (http.Write p w0, length p, None)
  end.

(** [io.CopyBuffer(io.MultiWriter(w, cacheFile), resp.Body, buf)]: every
    chunk read goes to the client first and then to the file; the copy
    stops at the first write error, or with the error that ends the body. *)
Fixpoint copyToBoth (wld : World) (tmpPath : string) (chunks : list (list byte))
    (bodyErr : option error) (written : Z) (st : State)
  : option (Z * option error) * State :=
  match chunks with
  | [] => (Some (written, bodyErr), st)
  | p :: rest =>
      if (length p =? 0)%nat then copyToBoth wld tmpPath rest bodyErr written st
      else
        match clientWrite (clientRoom wld) (w st) p with
        | (w1, nw, Some err) =>
            (Some (written + Z.of_nat nw, Some err),
             mkState (disk st) w1 (logged st) (sent st))
        | (w1, _, None) =>
            match os.fileWrite (os.onWrite (faults wld)) (disk st) tmpPath p with
            | (fs1, nw, Some err) =>
                (Some (written + Z.of_nat nw, Some err),
                 mkState fs1 w1 (logged st) (sent st))
            | (fs1, nw, None) =>
                copyToBoth wld tmpPath rest bodyErr (written + Z.of_nat nw)
                           (mkState fs1 w1 (logged st) (sent st))
            end
        end
  end.

(** [io.Copy(w, file)] from the opened cache file. *)
Definition copyFromFile (wld : World) (file : os.node) : Handler unit :=
  match os.readToEnd (os.onFileRead (faults wld)) file with
  | ([], _) => ret tt
  | (bytes, _) => w_Write bytes
  end.

(** handleZip handles GET /<module>/@v/<version>.zip requests *)
Definition handleZip (p : Proxy) (wld : World) (r : http.Request) (path : string)
  : Handler unit :=
  let cachePath' := cachePath (cacheDir p) path in
  (* Try cache first *)
  let! (file, err) := fromDisk (fun fs => os.Open (os.onOpen (faults wld)) fs cachePath') in
  match file, err with
  | Some file, None =>
      match os.onStat (faults wld) with
      | None =>
          log_Printf "[CACHE HIT] %s" [fmt.str path] ;;
          w_Header_Set "Content-Type" "application/zip" ;;
          w_Header_Set "Content-Length"
                       (fmt.Sprintf "%d" [fmt.int (os.Size (dirSize wld) file)]) ;;
          copyFromFile wld file ;;
          return_
      | Some _ => ret tt
      end
  | _, _ => ret tt
  end ;;
  log_Printf "[CACHE MISS] %s" [fmt.str path] ;;
  (* Fetch from upstream *)
  (* Use extended context timeout for zip files (up to 10 minutes) *)
  let ctx := context.WithTimeout (http.Ctx r) (now wld) (10 * time.Minute) in
  let url := fmt.Sprintf "%s/%s" [fmt.str (upstream p); fmt.str path] in
  let! (req, err) := http_NewRequestWithContext wld ctx http.MethodGet url in
  match err with
  | Some err =>
      http_Error (fmt.Sprintf "Failed to create request: %v" [fmt.str err])
                 http.StatusInternalServerError ;;
      return_
  | None => ret tt
  end ;;
  let! res := client_Do p wld req in
  match res with
  | Err err =>
      log_Printf "[ERROR] Failed to fetch %s: %v" [fmt.str url; fmt.str err] ;;
      http_Error (fmt.Sprintf "Failed to fetch: %v" [fmt.str err]) http.StatusBadGateway ;;
      return_
  | Ok resp =>
      if negb (http.StatusCode resp =? http.StatusOK) then
        log_Printf "[ERROR] Upstream returned %d for %s"
                   [fmt.int (http.StatusCode resp); fmt.str url] ;;
        http_Error (fmt.Sprintf "Upstream error: %d" [fmt.int (http.StatusCode resp)])
                   (http.StatusCode resp) ;;
        return_
      else
        (* Create cache directory for this file *)
        let! err := onDisk (fun fs => os.MkdirAll (os.onMkdir (faults wld)) fs
                                                  (filepath.Dir cachePath')) in
        match err with
        | Some err =>
            log_Printf "[ERROR] Failed to create cache dir for %s: %v" [fmt.str path; fmt.str err] ;;
            http_Error (fmt.Sprintf "Failed to create cache dir: %v" [fmt.str err])
                       http.StatusInternalServerError ;;
            return_
        | None => ret tt
        end ;;
        (* Write to cache and response simultaneously *)
        let! err := onDisk (fun fs => os.Create (os.onCreate (faults wld)) fs
                                                (cachePath' +:+ ".tmp")) in
        match err with
        | Some err =>
            log_Printf "[ERROR] Failed to create cache file for %s: %v" [fmt.str path; fmt.str err] ;;
            http_Error (fmt.Sprintf "Failed to create cache file: %v" [fmt.str err])
                       http.StatusInternalServerError ;;
            return_
        | None => ret tt
        end ;;
        (* Set headers before writing *)
        w_Header_Set "Content-Type" "application/zip" ;;
        (if 0 <? http.ContentLength resp then
           w_Header_Set "Content-Length" (fmt.Sprintf "%d" [fmt.int (http.ContentLength resp)]) ;;
           log_Printf "[INFO] Downloading zip %s (size: %d bytes)"
                      [fmt.str path; fmt.int (http.ContentLength resp)]
         else ret tt) ;;
        (* Stream to both response and cache *)
        let! (bytesCopied, err) :=
          copyToBoth wld (cachePath' +:+ ".tmp") (http.Body resp) (http.BodyErr resp) 0 in
        match err with
        | Some err =>
            log_Printf "[ERROR] Error copying zip for %s: %v (copied %d bytes in %v)"
                       [fmt.str path; fmt.str err; fmt.int bytesCopied;
                        fmt.duration (elapsed wld)] ;;
            (* Remove partial cache file on error *)
            onDisk (fun fs => os.Remove (onRemove wld) fs (cachePath' +:+ ".tmp")) ;;
            return_
        | None => ret tt
        end ;;
        log_Printf "[SUCCESS] Cached zip %s (%d bytes in %v)"
                   [fmt.str path; fmt.int bytesCopied; fmt.duration (elapsed wld)] ;;
        (* Atomically rename temp file to final cache file *)
        let! err := onDisk (fun fs => os.Rename (os.onRename (faults wld)) fs
                                                (cachePath' +:+ ".tmp") cachePath') in
        match err with
        | Some err =>
            log_Printf "[WARN] Failed to rename cache file for %s: %v" [fmt.str path; fmt.str err] ;;
            onDisk (fun fs => os.Remove (onRemove wld) fs (cachePath' +:+ ".tmp")) ;;
            ret tt
        | None => ret tt
        end
  end.

(** HandleRequest routes requests to appropriate handlers *)
Definition HandleRequest (p : Proxy) (wld : World) (r : http.Request) : Handler unit :=
  if negb (String.eqb (http.Method r) http.MethodGet) then
    http_Error "Method not allowed" http.StatusMethodNotAllowed ;;
    return_
  else
    let path := GoStrings.TrimPrefix (http.URL r) "/" in
    (* Handle health check endpoint *)
    if String.eqb path "health" || String.eqb path "healthz" then
      handleHealth ;;
      return_
    else
      log_Printf "[%s] %s %s" [fmt.str (http.RemoteAddr r); fmt.str (http.Method r); fmt.str path] ;;
      (* Route to appropriate handler based on path *)
      if GoStrings.HasSuffix path "/@v/list" then handleList p wld r path
      else if GoStrings.HasSuffix path ".info" then handleInfo p wld r path
      else if GoStrings.HasSuffix path ".mod" then handleMod p wld r path
      else if GoStrings.HasSuffix path ".zip" then handleZip p wld r path
      else http_Error "Not found" http.StatusNotFound.

(** Serving one request from a file system. *)
Definition serve (p : Proxy) (wld : World) (r : http.Request)
    (fs : gmap string os.node) : State :=
  run (HandleRequest p wld r) (initState fs).

(** ** The request multiplexer (main.go, lines 61-63)

    [main] registers [HandleRequest] on the pattern ["/"] of a [ServeMux] of
    net/http.  For a request that is no CONNECT the mux cleans the URL path
    and answers a path that is not in clean form with a redirect to the clean
    one: only clean paths reach the handler. *)

Module ServeMux.

(** [cleanPath] of net/http: the canonical path for [p], without [.] and
    [..] elements; a trailing slash is kept.  [path.Clean] is [filepath.Clean]
    where the separator is the slash. *)
Definition cleanPath (p : string) : string :=
  if String.eqb p "" then "/"
  else
    let p := if filepath.isRooted p then p else "/" +:+ p in
    let np := filepath.Clean p in
    (* path.Clean removes the trailing slash except for root; put it back *)
    if GoStrings.HasSuffix p "/" && negb (String.eqb np "/") then
      (* fast path for the common case of p being the string we want *)
      if (String.length p =? String.length np + 1)%nat && GoStrings.HasPrefix p np
      then p
      else np +:+ "/"
    else np.

Inductive target : Type :=
| handler                        (* the registered handler gets the request *)
| redirect (location : string).  (* 301 Moved Permanently to the clean path *)

(** [ServeMux.Handler] with the one pattern ["/"]. *)
Definition Handler (r : http.Request) : target :=
  if String.eqb (http.Method r) "CONNECT" then handler
  else if String.eqb (cleanPath (http.URL r)) (http.URL r) then handler
  else redirect (cleanPath (http.URL r)).

End ServeMux.

(** ** Notions the properties are stated with *)

(** The elements of the cleaned path [base]. *)
Definition cleanElements (base : string) : list string :=
  rev (filepath.cleanStack (filepath.isRooted base) (filepath.elements base)).

(** A string without a path separator. *)
Fixpoint separatorFree (s : string) : bool :=
  match s with
  | EmptyString => true
  | String c rest => negb (Ascii.eqb c filepath.Separator) && separatorFree rest
  end.

(** An element that names an entry of a directory. *)
Definition properElement (e : string) : bool :=
  negb (String.eqb e "" || String.eqb e "." || String.eqb e "..") && separatorFree e.

(** [p] names a place below the directory [base]: its elements are those of
    the cleaned [base] followed by names of entries. *)
Definition rootedUnder (base p : string) : Prop :=
  exists below : list string,
    Forall (fun e => properElement e = true) below
    /\ p = filepath.render (filepath.isRooted base) (cleanElements base ++ below).

(** An element that is neither [.] nor [..]. *)
Definition noDots (e : string) : Prop := e <> "." /\ e <> "..".

(** The cache key of a request, as [HandleRequest] takes it from the URL. *)
Definition cacheKey (r : http.Request) : string :=
  GoStrings.TrimPrefix (http.URL r) "/".

Definition hasDotDot (key : string) : bool :=
  existsb (String.eqb "..") (filepath.elements key).

(** The elements of a key that name something. *)
Definition keyElements (key : string) : list string :=
  List.filter (fun e => negb (String.eqb e "" || String.eqb e "."))
              (filepath.elements key).

(** The first non-empty string of a list, the empty string when there is none. *)
Fixpoint firstNonEmpty (candidates : list string) : string :=
  match candidates with
  | [] => ""
  | c :: rest => if String.eqb c "" then firstNonEmpty rest else c
  end.

(** A server address with the port to use when it names none. *)
Definition withDefaultPort (server port : string) : string :=
  if GoStrings.Contains server ":" then server else server +:+ ":" +:+ port.

(** A file holds content [c] at [name]. *)
Definition holds (fs : gmap string os.node) (name : string) (c : list byte) : Prop :=
  fs !! name = Some (os.File c).

(** The two file systems hold the same file contents. *)
Definition sameFiles (fs fs' : gmap string os.node) : Prop :=
  forall (k : string) (c : list byte), holds fs' k c <-> holds fs k c.

(** The URL a handler fetches for [path]. *)
Definition upstreamURL (p : Proxy) (path : string) : string :=
  fmt.Sprintf "%s/%s" [fmt.str (upstream p); fmt.str path].

(** The request a buffered handler sends upstream for [path]. *)
Definition fetchRequest (p : Proxy) (ctx : context.Context) (path : string) : http.Request :=
  http.mkRequest http.MethodGet (upstreamURL p path) ctx "".

(** What upstream answers to the fetch of [path] issued under [ctx]. *)
Definition answer (p : Proxy) (wld : World) (ctx : context.Context) (path : string)
  : result http.Response :=
  roundTrip wld (upstreamURL p path) (abandonedAt (client p) (now wld) ctx).

(** The archive handler finds no usable cache file: the open fails, or the
    [Stat] of the opened file does. *)
Definition zipMiss (wld : World) (fs : gmap string os.node) (path : string) : bool :=
  match os.Open (os.onOpen (faults wld)) fs path with
  | (Some _, None) =>
      match os.onStat (faults wld) with
      | Some _ => true
      | None => false
      end
  | _ => true
  end.


(** The three verbs whose handlers buffer the upstream body. *)
Inductive bufferedVerb : Type := verbList | verbInfo | verbMod.

Definition bufferedHandler (v : bufferedVerb)
  : Proxy -> World -> http.Request -> string -> Handler unit :=
  match v with
  | verbList => handleList
  | verbInfo => handleInfo
  | verbMod => handleMod
  end.

Definition contentTypeOf (v : bufferedVerb) : string :=
  match v with
  | verbInfo => "application/json"
  | _ => "text/plain; charset=utf-8"
  end.

(** The body passes the validation of the verb: only the info verb has one. *)
Definition validates (v : bufferedVerb) (wld : World) (data : list byte) : bool :=
  match v with
  | verbInfo =>
      match json.Unmarshal (numbersFit wld) data with
      | None => true
      | Some _ => false
      end
  | _ => true
  end.

(** ** Data of the examples *)

Definition exampleStartup : Startup :=
  mkStartup (fun _ => "") (fun _ => Err "no proxy configured") (fun _ _ => None).

Definition exampleProxy : Proxy :=
  fst (NewProxy exampleStartup "./cache" "https://proxy.golang.org/" "" "").

(** Upstream answers every fetch with status 200 and [body]. *)
Definition exampleWorld (body : string) : World :=
  mkWorld os.noFaults 0 0 (fun _ => None)
          (fun _ _ => Ok (http.mkResponse 200 (-1) [list_byte_of_string body] None))
          None 4096 (fun _ => true) None.

Definition exampleRequest (path : string) (ctx : context.Context) : http.Request :=
  http.mkRequest "GET" path ctx "192.0.2.1:4711".

Definition exampleCache (entries : list (string * os.node)) : gmap string os.node :=
  list_to_map (("cache", os.Directory) :: entries).

(** ** Notions of the further properties *)

(** The four verbs. *)
Inductive verb : Type :=
| buffered (v : bufferedVerb)
| archive.

Definition handlerOf (v : verb) : Proxy -> World -> http.Request -> string -> Handler unit :=
  match v with
  | buffered b => bufferedHandler b
  | archive => handleZip
  end.

(** The context under which a verb fetches. *)
Definition fetchContext (v : verb) (wld : World) (r : http.Request) : context.Context :=
  match v with
  | buffered _ => http.Ctx r
  | archive => context.WithTimeout (http.Ctx r) (now wld) (10 * time.Minute)
  end.

(** The verb finds no usable entry in the cache. *)
Definition misses (v : verb) (wld : World) (fs : gmap string os.node) (path : string)
  : bool :=
  match v with
  | buffered _ =>
      match snd (readCache (faults wld) fs path) with
      | Some _ => true
      | None => false
      end
  | archive => zipMiss wld fs path
  end.

(** A directory stands at [name]. *)
Definition isDirectory (fs : gmap string os.node) (name : string) : bool :=
  match os.lookupPath fs name with
  | Some os.Directory => true
  | _ => false
  end.

(** A key as the router's mux delivers it: no element is empty, [.] or [..]. *)
Definition canonicalKey (key : string) : bool :=
  forallb (fun e => negb (String.eqb e "" || String.eqb e "." || String.eqb e ".."))
          (filepath.elements key).

(** The statuses net/http sends as given and with a body: from 200 to 999,
    other than 204 and 304 ([checkWriteHeaderCode], [bodyAllowedForStatus]). *)
Definition carriesBody (status : Z) : bool :=
  (200 <=? status) && (status <=? 999) && negb (status =? 204) && negb (status =? 304).

(** The schemes [NewProxy] knows. *)
Definition isHTTPScheme (u : URL) : bool :=
  String.eqb (Scheme u) "http" || String.eqb (Scheme u) "https".

Definition isSOCKSScheme (u : URL) : bool :=
  String.eqb (Scheme u) "socks5" || String.eqb (Scheme u) "socks5h".

Definition isStandardResolver (r : Resolver) : bool :=
  match r with
  | isStandard _ => true
  | _ => false
  end.

(** The value of a valid document is neither an object nor [null]. *)
Definition notAnObject (data : list byte) : bool :=
  match json.firstByte data with
  | Some "{"%byte | Some "n"%byte => false
  | _ => true
  end.

(** ** More data of the examples *)

(** Upstream answers every fetch with [res]. *)
Definition answeringWorld (res : result http.Response) : World :=
  mkWorld os.noFaults 0 0 (fun _ => None) (fun _ _ => res) None 4096 (fun _ => true) None.

(** No request can be built. *)
Definition brokenRequestWorld : World :=
  mkWorld os.noFaults 0 0 (fun _ => Some "invalid URL")
          (fun _ _ => Err "unreachable") None 4096 (fun _ => true) None.

(** A network on which nothing answers. *)
Definition exampleNetwork : Network :=
  mkNetwork (fun _ _ _ _ => Err "connection refused") (fun _ _ _ => Err "no such host")
            (fun s => s) (fun _ => None) (fun _ => None)
            (fun _ _ _ => Err "connection refused").

(** Every proxy URL parses as a SOCKS5 endpoint. *)
Definition socksStartup : Startup :=
  mkStartup (fun _ => "") (fun _ => Ok (mkURL "socks5" "127.0.0.1:1080")) (fun _ _ => None).

Definition listCache : gmap string os.node :=
  exampleCache [("cache/example.com", os.Directory);
                ("cache/example.com/@v", os.Directory);
                ("cache/example.com/@v/list", os.File (list_byte_of_string "v1.0.0"))].

(** The disk takes one byte of a file and is full then. *)
Definition diskFull : os.Faults :=
  {| os.onOpen := None; os.onFileRead := None; os.onStat := None; os.onMkdir := None;
     os.onCreate := None; os.onWrite := Some (1%nat, "no space left on device");
     os.onRename := None |}.

(** The final rename of a cache write is refused. *)
Definition renameRefused : os.Faults :=
  {| os.onOpen := None; os.onFileRead := None; os.onStat := None; os.onMkdir := None;
     os.onCreate := None; os.onWrite := None;
     os.onRename := Some "read-only file system" |}.




(** Upstream answers 200 with the body ["PK"]; the rename of the cache file
    and the removal of the temporary file are both refused. *)
Definition stuckWorld : World :=
  mkWorld renameRefused 0 0 (fun _ => None)
          (fun _ _ => Ok (http.mkResponse 200 (-1) [list_byte_of_string "PK"] None))
          None 4096 (fun _ => true) (Some "operation not permitted").

(** * Properties *)

(** ** Strings and paths *)

Lemma append_nonempty (a b : string) : b <> "" -> a +:+ b <> "".
Proof. destruct a; simpl; [auto | discriminate]. Qed.

Lemma append_length (a b : string) :
  String.length (a +:+ b) = (String.length a + String.length b)%nat.
Proof. induction a; simpl; [reflexivity | now rewrite IHa]. Qed.

Lemma tmp_neq (path : string) : path +:+ ".tmp" <> path.
Proof.
  intros H. apply (f_equal String.length) in H.
  rewrite append_length in H. simpl in H. lia.
Qed.

Lemma tmp_eqb_empty (path : string) : String.eqb (path +:+ ".tmp") "" = false.
Proof. destruct path; reflexivity. Qed.

Lemma tmp_not_fixed (path : string) : os.isFixed (path +:+ ".tmp") = false.
Proof.
  unfold os.isFixed.
  destruct path as [|a [|b path]]; simpl; try reflexivity.
  all: repeat match goal with |- context [Ascii.eqb ?x ?y] => destruct (Ascii.eqb x y) end.
  all: reflexivity.
Qed.

Lemma lookupPath_tmp (fs : gmap string os.node) (path : string) :
  os.lookupPath fs (path +:+ ".tmp") = fs !! (path +:+ ".tmp").
Proof. unfold os.lookupPath. now rewrite tmp_eqb_empty, tmp_not_fixed. Qed.

Lemma lookupPath_Some_file (fs : gmap string os.node) (name : string) (c : list byte) :
  os.lookupPath fs name = Some (os.File c) -> fs !! name = Some (os.File c).
Proof.
  unfold os.lookupPath.
  destruct (String.eqb name ""); [discriminate |].
  destruct (os.isFixed name); [discriminate | auto].
Qed.

Lemma lookupPath_insert_file (fs : gmap string os.node) (name : string) (c : list byte) :
  String.eqb name "" = false -> os.isFixed name = false ->
  os.lookupPath (<[name := os.File c]> fs) name = Some (os.File c).
Proof.
  intros H1 H2. unfold os.lookupPath. rewrite H1, H2. apply lookup_insert_eq.
Qed.

(** ** [MkdirAll] has fuel enough *)

Lemma dropWhileSep_length (l : list ascii) :
  (length (os.dropWhileSep l) <= length l)%nat.
Proof.
  induction l as [|c l IH]; cbn [os.dropWhileSep]; [lia |].
  destruct (os.isSep c); cbn [length]; lia.
Qed.

Lemma dropElement_length (l : list ascii) :
  (length (os.dropElement l) <= length l)%nat.
Proof.
  induction l as [|c l IH]; cbn [os.dropElement]; [lia |].
  destruct (os.isSep c); cbn [length]; lia.
Qed.

Lemma list_ascii_length (s : string) :
  length (list_ascii_of_string s) = String.length s.
Proof. induction s as [|c s IH]; cbn; [reflexivity | now rewrite IH]. Qed.

Lemma string_of_list_length (l : list ascii) :
  String.length (string_of_list_ascii l) = length l.
Proof. induction l as [|c l IH]; cbn; [reflexivity | now rewrite IH]. Qed.

Lemma parentArg_shorter (path p : string) :
  os.parentArg path = Some p -> (String.length p < String.length path)%nat.
Proof.
  unfold os.parentArg.
  pose proof (dropElement_length (os.dropWhileSep (rev (list_ascii_of_string path)))) as H1.
  pose proof (dropWhileSep_length (rev (list_ascii_of_string path))) as H2.
  rewrite length_rev, list_ascii_length in H2.
  destruct (os.dropElement _) as [|x [|y before]]; try discriminate.
  intros [= <-]. rewrite string_of_list_length, length_app, length_rev.
  cbn [length] in *. lia.
Qed.

(** The recursion of [MkdirAll] on ever shorter paths ends before the fuel
    does: more fuel changes nothing. *)
Lemma MkdirAll_rec_fuel (fuel1 : nat) :
  forall (fuel2 : nat) (fs : gmap string os.node) (path : string),
    (String.length path <= fuel1)%nat -> (String.length path <= fuel2)%nat ->
    os.MkdirAll_rec fuel1 fs path = os.MkdirAll_rec fuel2 fs path.
Proof.
  induction fuel1 as [|fuel1 IH]; intros fuel2 fs path H1 H2.
  - destruct path; [|cbn in H1; lia].
    destruct fuel2; reflexivity.
  - destruct fuel2 as [|fuel2].
    + destruct path; [reflexivity | cbn in H2; lia].
    + cbn [os.MkdirAll_rec].
      destruct (os.lookupPath fs path) as [[?|]|]; try reflexivity.
      destruct (os.parentArg path) as [p|] eqn:E; [|reflexivity].
      apply parentArg_shorter in E.
      rewrite (IH fuel2 fs p) by lia. reflexivity.
Qed.

(** ** The cache engine: write, then read *)

Lemma Create_ok (flt : option error) (fs fs' : gmap string os.node) (name : string) :
  os.Create flt fs name = (fs', None) -> fs' = <[name := os.File []]> fs.
Proof.
  unfold os.Create. destruct flt; [discriminate |].
  destruct (os.lookupPath fs name) as [[c|]|];
    destruct (os.parentOf fs name) as [[c'|]|]; congruence.
Qed.

Lemma fileWrite_ok (flt : option (nat * error)) (fs fs' : gmap string os.node)
    (name : string) (sofar p : list byte) (n : nat) :
  fs !! name = Some (os.File sofar) ->
  os.fileWrite flt fs name p = (fs', n, None) ->
  fs' = <[name := os.File (sofar ++ p)]> fs.
Proof.
  unfold os.fileWrite. intros ->.
  destruct flt as [[room err]|]; [|congruence].
  destruct (length sofar + length p <=? room)%nat; congruence.
Qed.

Lemma WriteFile_ok (flt : os.Faults) (fs fs' : gmap string os.node) (name : string)
    (data : list byte) :
  os.WriteFile flt fs name data = (fs', None) ->
  fs' = <[name := os.File data]> fs.
Proof.
  unfold os.WriteFile.
  destruct (os.Create (os.onCreate flt) fs name) as [fs1 [err|]] eqn:HC; [discriminate |].
  apply Create_ok in HC. subst fs1.
  destruct (os.fileWrite _ _ _ _) as [[fs2 n] err] eqn:HW.
  intros [= -> ->].
  eapply fileWrite_ok in HW; [|apply lookup_insert_eq].
  rewrite HW. simpl. apply insert_insert_eq.
Qed.

Lemma Rename_file_ok (flt : option error) (fs fs' : gmap string os.node)
    (old new : string) (c : list byte) :
  os.lookupPath fs old = Some (os.File c) ->
  os.Rename flt fs old new = (fs', None) ->
  fs' = <[new := os.File c]> (delete old fs)
  /\ String.eqb new "" = false /\ os.isFixed new = false.
Proof.
  unfold os.Rename. intros ->. destruct flt; [discriminate |].
  destruct (os.lookupPath fs new) as [[c'|]|] eqn:HN; try discriminate.
  - unfold os.parentOf.
    destruct (String.eqb new "") eqn:HE; [discriminate |].
    destruct (os.lookupPath fs (filepath.Dir new)) as [[?|]|]; try discriminate.
    intros [= <-]. repeat split.
    unfold os.lookupPath in HN. rewrite HE in HN.
    destruct (os.isFixed new); [discriminate | reflexivity].
  - unfold os.parentOf.
    destruct (String.eqb new "") eqn:HE; [discriminate |].
    destruct (os.lookupPath fs (filepath.Dir new)) as [[?|]|]; try discriminate.
    intros [= <-]. repeat split.
    unfold os.lookupPath in HN. rewrite HE in HN.
    destruct (os.isFixed new); [discriminate | reflexivity].
Qed.

(** What a successful [writeCache] leaves at the final path. *)
Lemma writeCache_ok_lookup (flt : os.Faults) (fs fs' : gmap string os.node)
    (path : string) (data : list byte) :
  writeCache flt fs path data = (fs', None) ->
  os.lookupPath fs' path = Some (os.File data)
  /\ fs' !! (path +:+ ".tmp") = None.
Proof.
  unfold writeCache.
  destruct (os.MkdirAll _ fs _) as [fs1 [err|]]; [discriminate |].
  destruct (os.WriteFile flt fs1 _ data) as [fs2 [err|]] eqn:HW; [discriminate |].
  apply WriteFile_ok in HW. intros HR.
  apply (Rename_file_ok _ _ _ _ _ data) in HR.
  - destruct HR as (-> & HE & HF). split.
    + now apply lookupPath_insert_file.
    + rewrite lookup_insert_ne by (intros E; symmetry in E; now apply tmp_neq in E).
      apply lookup_delete_eq.
  - rewrite lookupPath_tmp, HW. apply lookup_insert_eq.
Qed.

Lemma ReadFile_file (flt : os.Faults) (fs : gmap string os.node) (name : string)
    (c : list byte) :
  os.onOpen flt = None -> os.onFileRead flt = None ->
  os.lookupPath fs name = Some (os.File c) ->
  os.ReadFile flt fs name = (c, None).
Proof.
  intros HO HR HL. unfold os.ReadFile, os.Open. rewrite HL, HO. simpl. now rewrite HR.
Qed.

(** C1. For every key K and payload P, a successful [writeCache] of P at the
    path derived from K, followed by [readCache] of that same path (whose own
    open and read go through), returns exactly the bytes P. *)
Theorem writeCache_readCache_roundtrip
    (flt rflt : os.Faults) (fs : gmap string os.node) (baseDir K : string)
    (P : list byte) :
  snd (writeCache flt fs (cachePath baseDir K) P) = None ->
  os.onOpen rflt = None -> os.onFileRead rflt = None ->
  readCache rflt (fst (writeCache flt fs (cachePath baseDir K) P)) (cachePath baseDir K)
  = (P, None).
Proof.
  intros HW HO HR.
  destruct (writeCache flt fs (cachePath baseDir K) P) as [fs' err] eqn:E.
  simpl in *. subst err.
  apply writeCache_ok_lookup in E. destruct E as [HL _].
  unfold readCache. now apply ReadFile_file.
Qed.

Lemma writeCache_readCache_roundtrip_witness :
  readCache os.noFaults
    (fst (writeCache os.noFaults ∅ (cachePath "./cache" "example.com/@v/list")
                     (list_byte_of_string "v1.0.0")))
    (cachePath "./cache" "example.com/@v/list")
  = (list_byte_of_string "v1.0.0", None).
Proof.
  apply (writeCache_readCache_roundtrip os.noFaults os.noFaults ∅ "./cache"
           "example.com/@v/list" (list_byte_of_string "v1.0.0"));
    vm_compute; reflexivity.
Defined.

(** ** The path of a key *)

Lemma ReplaceAll_separator (s : string) :
  GoStrings.ReplaceAll s "/" filepath.sep = s.
Proof.
  unfold GoStrings.ReplaceAll, filepath.sep, filepath.Separator.
  induction s as [|c s IH]; [reflexivity |].
  simpl. destruct (Ascii.eqb_spec c "/"%char) as [-> | _].
  - simpl. now rewrite IH.
  - now rewrite IH.
Qed.

Lemma elements_nonempty (path : string) : filepath.elements path <> [].
Proof.
  destruct path as [|c path]; simpl; [discriminate |].
  destruct (Ascii.eqb c filepath.Separator); [discriminate |].
  destruct (filepath.elements path); discriminate.
Qed.

Lemma elements_join (a b : string) :
  filepath.elements (a +:+ filepath.sep +:+ b)
  = filepath.elements a ++ filepath.elements b.
Proof.
  change (filepath.sep +:+ b) with (String filepath.Separator b).
  induction a as [|c a IH]; [reflexivity |].
  change (String c a +:+ String filepath.Separator b)
    with (String c (a +:+ String filepath.Separator b)).
  cbn [filepath.elements].
  destruct (Ascii.eqb c filepath.Separator).
  - now rewrite IH.
  - rewrite IH. pose proof (elements_nonempty a) as HN.
    destruct (filepath.elements a); [congruence | reflexivity].
Qed.

Lemma isRooted_join (a b : string) :
  String.eqb a "" = false -> filepath.isRooted (a +:+ b) = filepath.isRooted a.
Proof. destruct a; [discriminate | reflexivity]. Qed.

(** Elements that never step back up are pushed, or dropped when they name
    nothing. *)
Lemma cleanStep_push (rooted : bool) (es stack : list string) :
  existsb (String.eqb "..") es = false ->
  fold_left (filepath.cleanStep rooted) es stack
  = rev (List.filter (fun e => negb (String.eqb e "" || String.eqb e ".")) es) ++ stack.
Proof.
  revert stack. induction es as [|e es IH]; intros stack H; [reflexivity |].
  cbn [existsb] in H. apply Bool.orb_false_elim in H as [He Hes].
  cbn [fold_left List.filter]. rewrite IH by assumption.
  unfold filepath.cleanStep.
  destruct (String.eqb e "" || String.eqb e ".") eqn:Hskip; simpl; [reflexivity |].
  rewrite String.eqb_sym, He. now rewrite <- app_assoc.
Qed.

Lemma cachePath_Join (baseDir key : string) :
  cachePath baseDir key = filepath.Join [baseDir; key].
Proof. unfold cachePath. now rewrite ReplaceAll_separator. Qed.

Lemma cachePath_elements (baseDir key : string) :
  String.eqb baseDir "" = false -> hasDotDot key = false ->
  cachePath baseDir key
  = filepath.render (filepath.isRooted baseDir) (cleanElements baseDir ++ keyElements key).
Proof.
  intros HB HK. rewrite cachePath_Join. cbn [filepath.Join]. rewrite HB.
  cbn [GoStrings.Join]. unfold filepath.Clean.
  rewrite isRooted_join by assumption. rewrite elements_join.
  unfold filepath.cleanStack. rewrite fold_left_app.
  rewrite cleanStep_push by exact HK.
  rewrite rev_app_distr, rev_involutive. reflexivity.
Qed.

(** ** What a write changes *)

Lemma sameFiles_refl (fs : gmap string os.node) : sameFiles fs fs.
Proof. intros k c. reflexivity. Qed.

Lemma sameFiles_trans (a b c : gmap string os.node) :
  sameFiles a b -> sameFiles b c -> sameFiles a c.
Proof. intros H1 H2 k x. etransitivity; [apply H2 | apply H1]. Qed.

Lemma lookupPath_None (fs : gmap string os.node) (name : string) :
  os.lookupPath fs name = None -> String.eqb name "" = true \/ fs !! name = None.
Proof.
  unfold os.lookupPath. destruct (String.eqb name ""); [now left |].
  destruct (os.isFixed name); [discriminate | now right].
Qed.

Lemma Mkdir_sameFiles (fs fs' : gmap string os.node) (name : string) (err : option error) :
  os.Mkdir fs name = (fs', err) -> sameFiles fs fs'.
Proof.
  unfold os.Mkdir.
  destruct (os.lookupPath fs name) eqn:HL; [intros [= <- _]; apply sameFiles_refl |].
  unfold os.parentOf.
  destruct (String.eqb name "") eqn:HE; [intros [= <- _]; apply sameFiles_refl |].
  apply lookupPath_None in HL as [HL | HL]; [congruence |].
  destruct (os.lookupPath fs (filepath.Dir name)) as [[?|]|];
    intros [= <- _]; try apply sameFiles_refl.
  intros k c. unfold holds. destruct (decide (name = k)) as [<- | Hne].
  - rewrite lookup_insert_eq, HL. split; discriminate.
  - now rewrite lookup_insert_ne.
Qed.

Lemma MkdirAll_rec_sameFiles (fuel : nat) :
  forall (fs fs' : gmap string os.node) (path : string) (err : option error),
    os.MkdirAll_rec fuel fs path = (fs', err) -> sameFiles fs fs'.
Proof.
  induction fuel as [|fuel IH]; intros fs fs' path err; cbn [os.MkdirAll_rec].
  - destruct (os.lookupPath fs path) as [[?|]|]; try (intros [= <- _]; apply sameFiles_refl).
    destruct (os.Mkdir fs path) as [fs2 [e|]] eqn:HM.
    + apply Mkdir_sameFiles in HM.
      destruct (os.lookupPath fs2 path) as [[?|]|]; intros [= <- _]; exact HM.
    + apply Mkdir_sameFiles in HM. intros [= <- _]; exact HM.
  - destruct (os.lookupPath fs path) as [[?|]|]; try (intros [= <- _]; apply sameFiles_refl).
    assert (HP : exists fs1 e1,
               match os.parentArg path with
               | Some p => os.MkdirAll_rec fuel fs p
               | None => (fs, None)
               end = (fs1, e1) /\ sameFiles fs fs1).
    { destruct (os.parentArg path) as [p|].
      - destruct (os.MkdirAll_rec fuel fs p) as [fs1 e1] eqn:HR.
        exists fs1, e1. split; [reflexivity | eapply IH; eassumption].
      - exists fs, None. split; [reflexivity | apply sameFiles_refl]. }
    destruct HP as (fs1 & e1 & -> & HS).
    destruct e1 as [e1|]; [intros [= <- _]; exact HS |].
    destruct (os.Mkdir fs1 path) as [fs2 [e|]] eqn:HM; apply Mkdir_sameFiles in HM.
    + destruct (os.lookupPath fs2 path) as [[?|]|]; intros [= <- _];
        eapply sameFiles_trans; eassumption.
    + intros [= <- _]. eapply sameFiles_trans; eassumption.
Qed.

Lemma MkdirAll_sameFiles (flt : option error) (fs fs' : gmap string os.node)
    (path : string) (err : option error) :
  os.MkdirAll flt fs path = (fs', err) -> sameFiles fs fs'.
Proof.
  unfold os.MkdirAll. destruct flt; [intros [= <- _]; apply sameFiles_refl |].
  apply MkdirAll_rec_sameFiles.
Qed.

Lemma Create_other (flt : option error) (fs fs' : gmap string os.node) (name : string)
    (err : option error) :
  os.Create flt fs name = (fs', err) -> forall k, k <> name -> fs' !! k = fs !! k.
Proof.
  unfold os.Create. destruct flt; [intros [= <- _]; reflexivity |].
  destruct (os.lookupPath fs name) as [[?|]|];
    destruct (os.parentOf fs name) as [[?|]|]; intros [= <- _] k Hk;
    try reflexivity; now rewrite lookup_insert_ne.
Qed.

Lemma fileWrite_other (flt : option (nat * error)) (fs fs' : gmap string os.node)
    (name : string) (p : list byte) (n : nat) (err : option error) :
  os.fileWrite flt fs name p = (fs', n, err) -> forall k, k <> name -> fs' !! k = fs !! k.
Proof.
  unfold os.fileWrite.
  destruct (fs !! name) as [[sofar|]|]; try (intros [= <- _ _]; reflexivity).
  destruct flt as [[room e]|].
  - destruct (length sofar + length p <=? room)%nat; intros [= <- _ _] k Hk;
      now rewrite lookup_insert_ne.
  - intros [= <- _ _] k Hk. now rewrite lookup_insert_ne.
Qed.

Lemma WriteFile_other (flt : os.Faults) (fs fs' : gmap string os.node) (name : string)
    (data : list byte) (err : option error) :
  os.WriteFile flt fs name data = (fs', err) -> forall k, k <> name -> fs' !! k = fs !! k.
Proof.
  unfold os.WriteFile.
  destruct (os.Create _ fs name) as [fs1 [e|]] eqn:HC.
  - intros [= <- _]. eapply Create_other; eassumption.
  - destruct (os.fileWrite _ fs1 name data) as [[fs2 n] e] eqn:HW.
    intros [= <- _] k Hk.
    erewrite fileWrite_other by eassumption. eapply Create_other; eassumption.
Qed.

(** Renaming a file either fails and changes nothing, or moves it. *)
Lemma Rename_file_cases (flt : option error) (fs : gmap string os.node)
    (old new : string) (c : list byte) :
  os.lookupPath fs old = Some (os.File c) ->
  (exists err, os.Rename flt fs old new = (fs, Some err))
  \/ os.Rename flt fs old new = (<[new := os.File c]> (delete old fs), None).
Proof.
  unfold os.Rename. intros ->. destruct flt as [e|]; [left; eauto |].
  destruct (os.lookupPath fs new) as [[?|]|];
    destruct (os.parentOf fs new) as [[?|]|]; eauto.
Qed.

Lemma writeCache_frame (flt : os.Faults) (fs fs' : gmap string os.node) (path : string)
    (data : list byte) (err : option error) :
  writeCache flt fs path data = (fs', err) ->
  forall (k : string) (c : list byte),
    k <> path -> k <> path +:+ ".tmp" -> (holds fs' k c <-> holds fs k c).
Proof.
  unfold writeCache.
  destruct (os.MkdirAll _ fs _) as [fs1 [e|]] eqn:HM; apply MkdirAll_sameFiles in HM.
  { intros [= <- _] k c _ _. apply HM. }
  destruct (os.WriteFile flt fs1 _ data) as [fs2 [e|]] eqn:HW.
  { intros [= <- _] k c _ Hk. unfold holds.
    erewrite WriteFile_other by eassumption. apply HM. }
  pose proof (WriteFile_other _ _ _ _ _ _ HW) as HO.
  apply WriteFile_ok in HW.
  assert (HL : os.lookupPath fs2 (path +:+ ".tmp") = Some (os.File data))
    by (rewrite lookupPath_tmp, HW; apply lookup_insert_eq).
  destruct (Rename_file_cases (os.onRename flt) fs2 _ path data HL) as [[e ->] | ->].
  - intros [= <- _] k c _ Hk. unfold holds. rewrite HO by assumption. apply HM.
  - intros [= <- _] k c Hp Hk. unfold holds.
    rewrite lookup_insert_ne by congruence.
    rewrite lookup_delete_ne by congruence.
    rewrite HO by assumption. apply HM.
Qed.

(** X17. A write that fails leaves the file content of the final path as it
    was. *)
Lemma writeCache_failure_final (flt : os.Faults) (fs fs' : gmap string os.node)
    (path : string) (data : list byte) (err : error) :
  writeCache flt fs path data = (fs', Some err) ->
  forall c : list byte, holds fs' path c <-> holds fs path c.
Proof.
  unfold writeCache.
  destruct (os.MkdirAll _ fs _) as [fs1 [e|]] eqn:HM; apply MkdirAll_sameFiles in HM.
  { intros [= <- _] c. apply HM. }
  destruct (os.WriteFile flt fs1 _ data) as [fs2 [e|]] eqn:HW.
  { intros [= <- _] c. unfold holds.
    erewrite WriteFile_other; [apply HM | eassumption |].
    intros E. symmetry in E. now apply tmp_neq in E. }
  pose proof (WriteFile_other _ _ _ _ _ _ HW) as HO.
  apply WriteFile_ok in HW.
  assert (HL : os.lookupPath fs2 (path +:+ ".tmp") = Some (os.File data))
    by (rewrite lookupPath_tmp, HW; apply lookup_insert_eq).
  destruct (Rename_file_cases (os.onRename flt) fs2 _ path data HL) as [[e ->] | ->];
    [|discriminate].
  intros [= <- _] c. unfold holds.
  rewrite HO by (intros E; symmetry in E; now apply tmp_neq in E). apply HM.
Qed.

(** X27. A write that fails at the rename returns the error of the rename and
    leaves its temporary file behind, holding the whole payload. *)
Lemma writeCache_rename_failure_keeps_tmp (flt : os.Faults) (fs fs1 fs2 : gmap string os.node)
    (path : string) (data : list byte) (err : error) :
  os.MkdirAll (os.onMkdir flt) fs (filepath.Dir path) = (fs1, None) ->
  os.WriteFile flt fs1 (path +:+ ".tmp") data = (fs2, None) ->
  os.Rename (os.onRename flt) fs2 (path +:+ ".tmp") path = (fs2, Some err) ->
  writeCache flt fs path data = (fs2, Some err)
  /\ holds fs2 (path +:+ ".tmp") data.
Proof.
  intros HM HW HR. unfold writeCache. rewrite HM, HW, HR. split; [reflexivity |].
  apply WriteFile_ok in HW. unfold holds. rewrite HW. apply lookup_insert_eq.
Qed.

(** ** Resolver construction *)

Lemma port_default (server port : string) :
  (if negb (GoStrings.Contains server ":") then server +:+ String ":" port else server)
  = withDefaultPort server port.
Proof. unfold withDefaultPort. now destruct (GoStrings.Contains server ":"). Qed.

(** Shows the bytes of a literal prefix put before a string. *)
Ltac expose_prefix :=
  match goal with
  | |- context [String.append ?lit ?rest] =>
      let t := eval cbv [String.append] in (String.append lit rest) in
      change (String.append lit rest) with t
  end.

Lemma createDNSResolver_no_error (s : string) : snd (createDNSResolver s) = None.
Proof.
  unfold createDNSResolver.
  destruct (String.eqb s ""); [reflexivity |].
  destruct (GoStrings.HasPrefix s "https://"); [reflexivity |].
  destruct (GoStrings.HasPrefix s "quic://"); [reflexivity |].
  destruct (GoStrings.HasPrefix s "tls://"); reflexivity.
Qed.

Lemma createDNSResolver_https (rest : string) :
  createDNSResolver ("https://" +:+ rest)
  = (Some (isDoH (mkDoHResolver (10 * time.Second) ("https://" +:+ rest))), None).
Proof. unfold createDNSResolver. expose_prefix. reflexivity. Qed.

Lemma createDNSResolver_tls (rest : string) :
  createDNSResolver ("tls://" +:+ rest)
  = (Some (isDoT (mkDoTResolver (withDefaultPort rest "853") (dns.mkClient "tcp-tls"))),
     None).
Proof.
  unfold createDNSResolver. expose_prefix.
  cbn -[withDefaultPort GoStrings.Contains Z.mul]. now rewrite port_default.
Qed.

Lemma createDNSResolver_quic (rest : string) :
  createDNSResolver ("quic://" +:+ rest)
  = (Some (isDoQ (mkDoQResolver (withDefaultPort rest "853") (dns.mkClient "tcp-tls"))),
     None).
Proof.
  unfold createDNSResolver. expose_prefix.
  cbn -[withDefaultPort GoStrings.Contains Z.mul]. now rewrite port_default.
Qed.

Lemma createDNSResolver_standard (s : string) :
  String.eqb s "" = false ->
  GoStrings.HasPrefix s "https://" = false ->
  GoStrings.HasPrefix s "tls://" = false ->
  GoStrings.HasPrefix s "quic://" = false ->
  createDNSResolver s
  = (Some (isStandard (mkStandardDNSResolver
                         (withDefaultPort (GoStrings.TrimPrefix s "udp://") "53"))),
     None).
Proof.
  intros H0 H1 H2 H3. unfold createDNSResolver. rewrite H0, H1, H2, H3.
  now rewrite port_default.
Qed.

(** C4. Resolver construction never fails; the empty string gives no
    resolver; [https://] gives DNS-over-HTTPS; [tls://] and [quic://] give
    DNS-over-TLS and the DoQ resolver, on port 853 when the rest names no
    port; every other string, [udp://] stripped, gives the UDP resolver, on
    port 53 when it names no port. *)
Theorem createDNSResolver_dispatch :
  (forall s, snd (createDNSResolver s) = None)
  /\ createDNSResolver "" = (None, None)
  /\ (forall rest,
        createDNSResolver ("https://" +:+ rest)
        = (Some (isDoH (mkDoHResolver (10 * time.Second) ("https://" +:+ rest))), None))
  /\ (forall rest,
        createDNSResolver ("tls://" +:+ rest)
        = (Some (isDoT (mkDoTResolver (withDefaultPort rest "853") (dns.mkClient "tcp-tls"))),
           None))
  /\ (forall rest,
        createDNSResolver ("quic://" +:+ rest)
        = (Some (isDoQ (mkDoQResolver (withDefaultPort rest "853") (dns.mkClient "tcp-tls"))),
           None))
  /\ (forall s,
        String.eqb s "" = false ->
        GoStrings.HasPrefix s "https://" = false ->
        GoStrings.HasPrefix s "tls://" = false ->
        GoStrings.HasPrefix s "quic://" = false ->
        createDNSResolver s
        = (Some (isStandard (mkStandardDNSResolver
                               (withDefaultPort (GoStrings.TrimPrefix s "udp://") "53"))),
           None))
  /\ createDNSResolver "8.8.8.8"
     = (Some (isStandard (mkStandardDNSResolver "8.8.8.8:53")), None)
  /\ createDNSResolver "tls://1.1.1.1"
     = (Some (isDoT (mkDoTResolver "1.1.1.1:853" (dns.mkClient "tcp-tls"))), None).
Proof.
  split; [exact createDNSResolver_no_error |].
  split; [reflexivity |].
  split; [exact createDNSResolver_https |].
  split; [exact createDNSResolver_tls |].
  split; [exact createDNSResolver_quic |].
  split; [exact createDNSResolver_standard |].
  split; reflexivity.
Qed.

Lemma createDNSResolver_dispatch_witness :
  createDNSResolver "udp://9.9.9.9"
  = (Some (isStandard (mkStandardDNSResolver "9.9.9.9:53")), None).
Proof.
  exact (proj1 (proj2 (proj2 (proj2 (proj2 (proj2 createDNSResolver_dispatch)))))
           "udp://9.9.9.9" eq_refl eq_refl eq_refl eq_refl).
Defined.

(** ** Proxy selection *)

(** C6. The proxy URL used is the first non-empty value among the explicit
    configuration value, [HTTP_PROXY], [HTTPS_PROXY] and [SOCKS5_PROXY], in
    that order. *)
Theorem proxyURL_precedence (env : Startup) (flags : Flags) :
  main_proxyURL env flags
  = firstNonEmpty [httpProxy flags; Getenv env "HTTP_PROXY";
                   Getenv env "HTTPS_PROXY"; Getenv env "SOCKS5_PROXY"]
  /\ httpProxy (main_config env flags)
     = firstNonEmpty [httpProxy flags; Getenv env "HTTP_PROXY";
                      Getenv env "HTTPS_PROXY"; Getenv env "SOCKS5_PROXY"]
  /\ forall explicit : string,
       NewProxy_proxyURL env explicit
       = firstNonEmpty [explicit; Getenv env "HTTP_PROXY";
                        Getenv env "HTTPS_PROXY"; Getenv env "SOCKS5_PROXY"].
Proof.
  unfold main_proxyURL, main_config, NewProxy_proxyURL, firstNonEmpty.
  cbn [httpProxy].
  generalize (httpProxy flags) (Getenv env "HTTP_PROXY") (Getenv env "HTTPS_PROXY")
             (Getenv env "SOCKS5_PROXY").
  intros a b c d.
  repeat split; [| | intros a'; clear a; rename a' into a].
  all: destruct (String.eqb a "") eqn:Ea; cbn [negb]; rewrite ?Ea;
       destruct (String.eqb b "") eqn:Eb; cbn [negb]; rewrite ?Ea, ?Eb;
       destruct (String.eqb c "") eqn:Ec; cbn [negb]; rewrite ?Ea, ?Eb, ?Ec;
       destruct (String.eqb d "") eqn:Ed; cbn [negb]; rewrite ?Ea, ?Eb, ?Ec, ?Ed;
       try reflexivity.
  all: now apply String.eqb_eq.
Qed.

(** ** DNS-over-QUIC *)

(** C9. For every network, context and host, the lookup of the
    DNS-over-QUIC resolver is the lookup of the DNS-over-TLS resolver for the
    same server address; the only connection it opens is a TLS connection
    over TCP to that address; and the resolvers built from [quic://a] and
    [tls://a] look names up alike. *)
Theorem DoQ_is_DoT (nw : Network) (ctx : context.Context) (host : string)
    (r : DoQResolver) :
  LookupIP nw r ctx host = LookupIP nw (mkDoTResolver (doqServer r) (doqClient r)) ctx host
  /\ snd (LookupIP nw r ctx host)
     = [DialedTLS "tcp" (doqServer r)
                  (hd EmptyString (GoStrings.Split (doqServer r) ":"))]
  /\ forall address : string,
       exists (q : DoQResolver) (t : DoTResolver),
         createDNSResolver ("quic://" +:+ address) = (Some (isDoQ q), None)
         /\ createDNSResolver ("tls://" +:+ address) = (Some (isDoT t), None)
         /\ doqServer q = dotServer t
         /\ LookupIP nw (isDoQ q) ctx host = LookupIP nw (isDoT t) ctx host.
Proof.
  split; [reflexivity |]. split.
  - cbn [LookupIP DoQResolver_DNSResolver].
    unfold DoQResolver_LookupIP, DoTResolver_LookupIP. cbn [dotServer].
    destruct (tlsDial nw _ _ _ _) as [conn|e]; [|reflexivity].
    destruct (WriteMsg conn _ _); [reflexivity |].
    destruct (ReadMsg conn _ _) as [reply|e]; [|reflexivity].
    destruct (length _ =? 0)%nat; reflexivity.
  - intros address. eexists _, _.
    rewrite createDNSResolver_quic, createDNSResolver_tls.
    repeat split; reflexivity.
Qed.

(** ** The handlers *)

Ltac exec :=
  cbv beta iota zeta delta
      [run bind ret return_ fromDisk onDisk onWriter log_Printf w_Header_Set w_Write
       http_Error http_NewRequestWithContext client_Do io.ReadAll];
  cbn [disk w logged sent fst snd http.URL http.Ctx http.Method].

Lemma Error_status (msg : string) (code : Z) (w0 : http.ResponseWriter) :
  http.wroteHeader w0 = None -> http.statusOf (http.Error msg code w0) = code.
Proof.
  intros H. unfold http.Error, http.Write, http.WriteHeader, http.HeaderSet, http.statusOf.
  rewrite H. cbn. reflexivity.
Qed.

Lemma Write_served (key value : string) (data : list byte) (w0 : http.ResponseWriter) :
  http.wroteHeader w0 = None ->
  let w1 := http.Write data (http.HeaderSet key value w0) in
  http.statusOf w1 = http.StatusOK
  /\ http.wroteBody w1 = http.wroteBody w0 ++ data
  /\ http.Header w1 !! key = Some value.
Proof.
  intros H. unfold http.Write, http.WriteHeader, http.HeaderSet, http.statusOf.
  rewrite H. cbn. repeat split. apply lookup_insert_eq.
Qed.

Lemma Unmarshal_invalid (fit : list byte -> bool) (data : list byte) :
  json.checkValid data = false -> exists err, json.Unmarshal fit data = Some err.
Proof. intros H. unfold json.Unmarshal. rewrite H. eauto. Qed.

(** C7. On an info request that misses the cache, when upstream answers 200
    with a body that is not well-formed JSON, the handler answers 502 and the
    cache is left as it was. *)
Theorem handleInfo_invalid_json
    (p : Proxy) (wld : World) (r : http.Request) (path : string) (st : State)
    (resp : http.Response) (cached : list byte) (err : error) :
  http.wroteHeader (w st) = None ->
  readCache (faults wld) (disk st) (cachePath (cacheDir p) path) = (cached, Some err) ->
  newRequestError wld (upstreamURL p path) = None ->
  answer p wld (http.Ctx r) path = Ok resp ->
  http.StatusCode resp = http.StatusOK ->
  http.BodyErr resp = None ->
  json.checkValid (concat (http.Body resp)) = false ->
  http.statusOf (w (run (handleInfo p wld r path) st)) = http.StatusBadGateway
  /\ disk (run (handleInfo p wld r path) st) = disk st.
Proof.
  intros Hw Hread Hreq Hans Hcode Hbody Hjson.
  unfold answer, upstreamURL in *.
  apply (Unmarshal_invalid (numbersFit wld)) in Hjson as [jerr Hjson].
  unfold handleInfo. exec. rewrite Hread. exec. rewrite Hreq. exec.
  rewrite Hans. exec. rewrite Hcode. change (negb (http.StatusOK =? http.StatusOK)) with false.
  exec. rewrite Hbody. exec. rewrite Hjson. exec.
  split; [now apply Error_status | reflexivity].
Qed.

Lemma handleInfo_invalid_json_witness :
  http.statusOf
    (w (run (handleInfo exampleProxy (exampleWorld "not-json")
                        (exampleRequest "/example.com/@v/v1.0.0.info" context.Background)
                        "example.com/@v/v1.0.0.info")
            (initState ∅)))
  = http.StatusBadGateway
  /\ disk (run (handleInfo exampleProxy (exampleWorld "not-json")
                           (exampleRequest "/example.com/@v/v1.0.0.info" context.Background)
                           "example.com/@v/v1.0.0.info")
               (initState ∅))
     = ∅.
Proof.
  apply (handleInfo_invalid_json exampleProxy (exampleWorld "not-json")
           (exampleRequest "/example.com/@v/v1.0.0.info" context.Background)
           "example.com/@v/v1.0.0.info" (initState ∅)
           (http.mkResponse 200 (-1) [list_byte_of_string "not-json"] None)
           [] os.ENOENT);
    vm_compute; reflexivity.
Defined.

Lemma validates_info (wld : World) (data : list byte) :
  validates verbInfo wld data = true -> json.Unmarshal (numbersFit wld) data = None.
Proof. unfold validates. now destruct (json.Unmarshal _ data). Qed.

(** When the fetch of a list, info or manifest request succeeds and
    validates, the handler answers 200 with the fetched bytes whether or not
    the cache write succeeds; a failed write only adds a warning to the log. *)
Lemma buffered_persist_failure_swallowed
    (v : bufferedVerb) (p : Proxy) (wld : World) (r : http.Request) (path : string)
    (st : State) (resp : http.Response) (cached : list byte) (err : error) :
  http.wroteHeader (w st) = None ->
  readCache (faults wld) (disk st) (cachePath (cacheDir p) path) = (cached, Some err) ->
  newRequestError wld (upstreamURL p path) = None ->
  answer p wld (http.Ctx r) path = Ok resp ->
  http.StatusCode resp = http.StatusOK ->
  http.BodyErr resp = None ->
  validates v wld (concat (http.Body resp)) = true ->
  let st' := run (bufferedHandler v p wld r path) st in
  let persist := writeCache (faults wld) (disk st) (cachePath (cacheDir p) path)
                            (concat (http.Body resp)) in
  http.statusOf (w st') = http.StatusOK
  /\ http.wroteBody (w st') = http.wroteBody (w st) ++ concat (http.Body resp)
  /\ http.Header (w st') !! "Content-Type" = Some (contentTypeOf v)
  /\ disk st' = fst persist
  /\ logged st'
     = logged st ++
       ("[CACHE MISS] %s", [fmt.str path]) ::
       match snd persist with
       | Some werr => [("[WARN] Failed to cache %s: %v", [fmt.str path; fmt.str werr])]
       | None => []
       end.
Proof.
  intros Hw Hread Hreq Hans Hcode Hbody Hval st' persist. subst st' persist.
  unfold answer, upstreamURL in *.
  destruct v; cbn [bufferedHandler contentTypeOf];
    [unfold handleList | apply validates_info in Hval; unfold handleInfo | unfold handleMod].
  all: exec; rewrite Hread; exec; rewrite Hreq; exec; rewrite Hans; exec; rewrite Hcode;
    change (negb (http.StatusOK =? http.StatusOK)) with false; exec; rewrite Hbody; exec;
    rewrite ?Hval; exec.
  all: destruct (writeCache (faults wld) (disk st) _ _) as [fs' [werr|]]; exec.
  all: pose proof (Write_served "Content-Type") as HW; cbv zeta in HW.
  all: repeat split; try (apply HW; exact Hw).
  all: rewrite <- app_assoc; reflexivity.
Qed.

(** ** A miss goes upstream *)

Lemma copyToBoth_keeps (wld : World) (tmpPath : string) (bodyErr : option error)
    (chunks : list (list byte)) :
  forall (written : Z) (st st' : State) (res : option (Z * option error)),
    copyToBoth wld tmpPath chunks bodyErr written st = (res, st') ->
    sent st' = sent st /\ logged st' = logged st /\ exists v, res = Some v.
Proof.
  induction chunks as [|c chunks IH]; intros written st st' res; cbn [copyToBoth].
  - intros [= <- <-]. eauto.
  - destruct (length c =? 0)%nat; [apply IH |].
    destruct (clientWrite _ _ c) as [[w1 nw] [e|]]; [intros [= <- <-]; cbn; eauto |].
    destruct (os.fileWrite _ _ _ c) as [[fs1 nw'] [e|]]; [intros [= <- <-]; cbn; eauto |].
    intros H. apply IH in H. exact H.
Qed.


(** After a failed cache read a buffered handler logs the miss and sends
    exactly one request upstream, under the inbound request's context. *)
Lemma buffered_miss_sends
    (v : bufferedVerb) (p : Proxy) (wld : World) (r : http.Request) (path : string)
    (st : State) (cached : list byte) (err : error) :
  readCache (faults wld) (disk st) (cachePath (cacheDir p) path) = (cached, Some err) ->
  newRequestError wld (upstreamURL p path) = None ->
  sent (run (bufferedHandler v p wld r path) st)
  = sent st ++ [fetchRequest p (http.Ctx r) path]
  /\ exists later,
       logged (run (bufferedHandler v p wld r path) st)
       = logged st ++ ("[CACHE MISS] %s", [fmt.str path]) :: later.
Proof.
  intros Hread Hreq. unfold fetchRequest, upstreamURL in *.
  destruct v; cbn [bufferedHandler];
    [unfold handleList | unfold handleInfo | unfold handleMod].
  all: exec; rewrite Hread; exec; rewrite Hreq; exec.
  all: destruct (roundTrip wld _ _) as [resp|e]; exec.
  all: try destruct (negb (http.StatusCode resp =? http.StatusOK)); exec.
  all: try destruct (http.BodyErr resp); exec.
  all: try destruct (json.Unmarshal _ _); exec.
  all: try destruct (writeCache _ _ _ _) as [fs' [werr|]]; exec.
  all: split; [reflexivity |].
  all: rewrite <- ?app_assoc; cbn [app]; eexists; reflexivity.
Qed.

(** After a failed open or [Stat] of the cache file the archive handler logs
    the miss and sends exactly one request upstream, under the inbound
    request's context with a timeout of ten minutes added. *)
Lemma handleZip_miss_sends
    (p : Proxy) (wld : World) (r : http.Request) (path : string) (st : State) :
  zipMiss wld (disk st) (cachePath (cacheDir p) path) = true ->
  newRequestError wld (upstreamURL p path) = None ->
  sent (run (handleZip p wld r path) st)
  = sent st ++ [fetchRequest p (context.WithTimeout (http.Ctx r) (now wld) (10 * time.Minute))
                             path]
  /\ exists later,
       logged (run (handleZip p wld r path) st)
       = logged st ++ ("[CACHE MISS] %s", [fmt.str path]) :: later.
Proof.
  intros Hmiss Hreq. unfold fetchRequest, upstreamURL, zipMiss in *.
  unfold handleZip. exec.
  destruct (os.Open _ _ _) as [[file|] [e|]]; exec;
    try (destruct (os.onStat (faults wld)); [|discriminate]); exec.
  all: rewrite Hreq; exec.
  all: destruct (roundTrip wld _ _) as [resp|e']; exec.
  all: try destruct (negb (http.StatusCode resp =? http.StatusOK)); exec.
  all: try (destruct (os.MkdirAll _ _ _) as [fs1 [e1|]]; exec).
  all: try (destruct (os.Create _ _ _) as [fs2 [e2|]]; exec).
  all: try (destruct (0 <? http.ContentLength resp); exec).
  all: try (destruct (copyToBoth _ _ _ _ _ _) as [res st3] eqn:HC;
            apply copyToBoth_keeps in HC; cbn [sent logged] in HC;
            destruct HC as (HS & HL & [[n cerr] ->]);
            destruct cerr as [cerr|]; exec).
  all: try (destruct (os.Remove _ _ _) as [fs4 rerr]; exec).
  all: try (destruct (os.Rename _ _ _ _) as [fs5 [e5|]]; exec).
  all: try (destruct (os.Remove _ _ _) as [fs6 rerr6]; exec).
  all: rewrite ?HS, ?HL; split; [reflexivity |].
  all: rewrite <- ?app_assoc; cbn [app]; eexists; reflexivity.
Qed.



(** ** The timeout of an archive fetch *)

Lemma WithTimeout_deadline (parent : context.Context) (t d : Z) :
  exists dl,
    context.Deadline (context.WithTimeout parent t d) = Some dl
    /\ dl <= t + d
    /\ forall d0, context.Deadline parent = Some d0 -> dl <= d0.
Proof.
  unfold context.WithTimeout, context.WithDeadline.
  destruct (context.Deadline parent) as [cur|] eqn:E.
  - destruct (Z.ltb_spec cur (t + d)).
    + exists cur. rewrite E. repeat split; [lia |]. intros d0 [= <-]. lia.
    + exists (t + d). cbn. repeat split; [lia |]. intros d0 [= <-]. lia.
  - exists (t + d). cbn. repeat split; [lia |]. discriminate.
Qed.

Lemma WithTimeout_cancelAt (parent : context.Context) (t d : Z) :
  context.cancelAt (context.WithTimeout parent t d) = context.cancelAt parent.
Proof.
  unfold context.WithTimeout, context.WithDeadline.
  destruct (context.Deadline parent) as [cur|]; [|reflexivity].
  destruct (cur <? t + d); reflexivity.
Qed.

Lemma earliest_le_l (a b : option Z) (x : Z) :
  a = Some x -> exists y, context.earliest a b = Some y /\ y <= x.
Proof. intros ->. destruct b as [z|]; cbn; eexists; split; eauto; lia. Qed.

Lemma earliest_le_r (a b : option Z) (x : Z) :
  b = Some x -> exists y, context.earliest a b = Some y /\ y <= x.
Proof. intros ->. destruct a as [z|]; cbn; eexists; split; eauto; lia. Qed.

Lemma WithTimeout_doneAt (parent : context.Context) (t d : Z) :
  exists at_,
    context.doneAt (context.WithTimeout parent t d) = Some at_
    /\ at_ <= t + d
    /\ forall t0, context.doneAt parent = Some t0 -> at_ <= t0.
Proof.
  destruct (WithTimeout_deadline parent t d) as (dl & Hdl & Hle & Hpar).
  unfold context.doneAt. rewrite Hdl, WithTimeout_cancelAt.
  destruct (context.cancelAt parent) as [c|] eqn:Ec; cbn.
  - exists (Z.min dl c). repeat split; [lia |].
    intros t0. destruct (context.Deadline parent) as [d0|]; cbn.
    + intros [= <-]. specialize (Hpar d0 eq_refl). lia.
    + intros [= <-]. lia.
  - exists dl. repeat split; [lia |].
    intros t0. destruct (context.Deadline parent) as [d0|]; cbn; [|discriminate].
    intros [= <-]. now apply Hpar.
Qed.

(** C5 (as amended). An archive request that misses the cache is fetched
    under the inbound request's context with a timeout of ten minutes added:
    the fetch is given up at the latest ten minutes after it is issued, and
    no later than the inbound context is done, whose cancellation it keeps. *)
Theorem zip_fetch_timeout
    (p : Proxy) (wld : World) (r : http.Request) (path : string) (st : State) :
  zipMiss wld (disk st) (cachePath (cacheDir p) path) = true ->
  newRequestError wld (upstreamURL p path) = None ->
  exists req,
    sent (run (handleZip p wld r path) st) = sent st ++ [req]
    /\ http.URL req = upstreamURL p path
    /\ http.Ctx req = context.WithTimeout (http.Ctx r) (now wld) (10 * time.Minute)
    /\ context.cancelAt (http.Ctx req) = context.cancelAt (http.Ctx r)
    /\ (exists dl,
          context.Deadline (http.Ctx req) = Some dl
          /\ dl <= now wld + 10 * time.Minute
          /\ forall d0, context.Deadline (http.Ctx r) = Some d0 -> dl <= d0)
    /\ (exists at_,
          abandonedAt (client p) (now wld) (http.Ctx req) = Some at_
          /\ at_ <= now wld + 10 * time.Minute
          /\ forall t0, context.doneAt (http.Ctx r) = Some t0 -> at_ <= t0).
Proof.
  intros Hmiss Hreq.
  destruct (handleZip_miss_sends p wld r path st Hmiss Hreq) as [Hsent _].
  eexists. split; [exact Hsent |]. cbn [fetchRequest http.URL http.Ctx].
  split; [reflexivity |]. split; [reflexivity |].
  split; [apply WithTimeout_cancelAt |].
  split; [apply WithTimeout_deadline |].
  destruct (WithTimeout_doneAt (http.Ctx r) (now wld) (10 * time.Minute))
    as (a & Ha & Hle & Hpar).
  unfold abandonedAt. rewrite Ha.
  destruct (0 <? Timeout (client p)); cbn.
  - exists (Z.min a (now wld + Timeout (client p))). repeat split; [lia |].
    intros t0 H0. specialize (Hpar t0 H0). lia.
  - exists a. repeat split; assumption.
Qed.

Lemma zip_fetch_timeout_witness :
  exists req,
    sent (run (handleZip exampleProxy (exampleWorld "PK")
                 (exampleRequest "/example.com/@v/v1.0.0.zip" context.Background)
                 "example.com/@v/v1.0.0.zip") (initState (exampleCache []))) = [req]
    /\ context.Deadline (http.Ctx req) = Some (10 * time.Minute).
Proof.
  destruct (zip_fetch_timeout exampleProxy (exampleWorld "PK")
              (exampleRequest "/example.com/@v/v1.0.0.zip" context.Background)
              "example.com/@v/v1.0.0.zip" (initState (exampleCache []))
              ltac:(vm_compute; reflexivity) ltac:(vm_compute; reflexivity))
    as (req & Hs & _ & Hc & _).
  exists req. split; [exact Hs |]. rewrite Hc. reflexivity.
Defined.

(** C5, as first stated, fails: the client of [NewProxy] gives every request
    up after five minutes, and a cancellation of the inbound request (here
    after one second) gives the fetch up at once. *)
Lemma zip_fetch_not_independent :
  let gaveUp (ctx : context.Context) :=
    map (fun req => abandonedAt (client exampleProxy) 0 (http.Ctx req))
        (sent (serve exampleProxy (exampleWorld "PK")
                     (exampleRequest "/example.com/@v/v1.0.0.zip" ctx) ∅)) in
  Timeout (client exampleProxy) = 5 * time.Minute
  /\ gaveUp context.Background = [Some (5 * time.Minute)]
  /\ gaveUp (context.mkContext None (Some time.Second)) = [Some time.Second]
  /\ 5 * time.Minute < 10 * time.Minute
  /\ time.Second < 10 * time.Minute.
Proof. cbv zeta. repeat split; vm_compute; reflexivity. Qed.

(** ** A write that fails *)

Lemma Create_cases (flt : option error) (fs : gmap string os.node) (name : string) :
  (exists err, os.Create flt fs name = (fs, Some err))
  \/ os.Create flt fs name = (<[name := os.File []]> fs, None).
Proof.
  unfold os.Create. destruct flt; [eauto |].
  destruct (os.lookupPath fs name) as [[?|]|];
    destruct (os.parentOf fs name) as [[?|]|]; eauto.
Qed.

Lemma Remove_file (fs : gmap string os.node) (name : string) (c : list byte) :
  os.lookupPath fs name = Some (os.File c) -> os.Remove None fs name = (delete name fs, None).
Proof. unfold os.Remove. now intros ->. Qed.

Lemma Remove_refused (err : error) (fs : gmap string os.node) (name : string) :
  os.Remove (Some err) fs name = (fs, Some err).
Proof. reflexivity. Qed.

(** The copy only touches the temporary file; when it ends without error
    the file holds all of the body, and the body ended cleanly. *)
Lemma copyToBoth_disk (wld : World) (tmpPath : string) (bodyErr : option error)
    (chunks : list (list byte)) :
  forall (written : Z) (st st' : State) (c0 : list byte) (n : Z) (err : option error),
    disk st !! tmpPath = Some (os.File c0) ->
    copyToBoth wld tmpPath chunks bodyErr written st = (Some (n, err), st') ->
    exists c1, disk st' = <[tmpPath := os.File c1]> (disk st)
               /\ (err = None -> c1 = c0 ++ concat chunks /\ bodyErr = None).
Proof.
  induction chunks as [|c chunks IH]; intros written st st' c0 n err H0; cbn [copyToBoth].
  - intros [= <- <- <-]. exists c0. split.
    + symmetry. now apply insert_id.
    + intros ->. now rewrite app_nil_r.
  - destruct (length c =? 0)%nat eqn:El.
    { intros H. destruct (IH _ _ _ _ _ _ H0 H) as (c1 & Hd & Hok).
      exists c1. split; [exact Hd |]. intros E. destruct (Hok E) as [-> ->].
      apply Nat.eqb_eq, nil_length_inv in El. subst c. now split. }
    destruct (clientWrite _ _ c) as [[w1 nw] [e|]].
    { intros [= <- <- <-]. cbn [disk]. exists c0. split; [|discriminate].
      symmetry. now apply insert_id. }
    unfold os.fileWrite. rewrite H0.
    destruct (os.onWrite (faults wld)) as [[room e]|].
    + destruct (length c0 + length c <=? room)%nat.
      * intros H. eapply IH in H; [|cbn [disk]; apply lookup_insert_eq].
        destruct H as (c1 & Hd & Hok). cbn [disk] in Hd.
        rewrite insert_insert_eq in Hd. exists c1. split; [exact Hd |].
        intros E. destruct (Hok E) as [-> ->]. cbn [concat]. now rewrite app_assoc.
      * intros [= <- <- <-]. cbn [disk]. eexists. split; [reflexivity | discriminate].
    + intros H. eapply IH in H; [|cbn [disk]; apply lookup_insert_eq].
      destruct H as (c1 & Hd & Hok). cbn [disk] in Hd.
      rewrite insert_insert_eq in Hd. exists c1. split; [exact Hd |].
      intros E. destruct (Hok E) as [-> ->]. cbn [concat]. now rewrite app_assoc.
Qed.

(** C2, the failing input. The rename of [writeCache] fails when a directory
    stands at the final path, and its write fails when the disk is full after
    one byte: in both cases [writeCache] returns the error and its temporary
    file stays behind, also when it is called by the info handler. *)
Theorem writeCache_leaves_tmp_behind :
  let fs := exampleCache [("cache/foo.info", os.Directory)] in
  let data := list_byte_of_string "{}" in
  let diskFull :=
    {| os.onOpen := None; os.onFileRead := None; os.onStat := None; os.onMkdir := None;
       os.onCreate := None; os.onWrite := Some (1%nat, "no space left on device");
       os.onRename := None |} in
  fs !! "cache/foo.info.tmp" = None
  /\ writeCache os.noFaults fs "cache/foo.info" data
     = (<["cache/foo.info.tmp" := os.File data]> fs, Some os.EEXIST)
  /\ writeCache diskFull (exampleCache []) "cache/foo.info" data
     = (<["cache/foo.info.tmp" := os.File (list_byte_of_string "{")]> (exampleCache []),
        Some "no space left on device")
  /\ disk (serve exampleProxy (exampleWorld "{}")
                 (exampleRequest "/foo.info" context.Background) fs)
     = <["cache/foo.info.tmp" := os.File data]> fs.
Proof. cbv zeta. repeat split; vm_compute; reflexivity. Qed.


(** When the rename and then the removal are refused, the temporary file of
    the archive stays where it is, with the whole body: the handler drops
    the result of [os.Remove]. *)
Example handleZip_remove_refused :
  disk (run (handleZip exampleProxy stuckWorld
               (exampleRequest "/foo.zip" context.Background) "foo.zip")
            (initState (exampleCache [])))
  = exampleCache [("cache/foo.zip.tmp", os.File (list_byte_of_string "PK"))].
Proof. vm_compute. reflexivity. Qed.

(** ** A failed persist is swallowed *)

Lemma Write_keeps_200 (p0 : list byte) (w0 : http.ResponseWriter) :
  http.wroteHeader w0 = None \/ http.wroteHeader w0 = Some http.StatusOK ->
  http.wroteHeader (http.Write p0 w0) = Some http.StatusOK
  /\ http.wroteBody (http.Write p0 w0) = http.wroteBody w0 ++ p0
  /\ http.Header (http.Write p0 w0) = http.Header w0.
Proof.
  unfold http.Write, http.WriteHeader. intros [H | H]; rewrite H; cbn; auto.
Qed.

(** A copy that meets no failing write delivers the whole body to the
    client and to the temporary file. *)
Lemma copyToBoth_clean (wld : World) (tmpPath : string) (bodyErr : option error)
    (chunks : list (list byte)) :
  clientRoom wld = None -> os.onWrite (faults wld) = None ->
  forall (written : Z) (st : State) (c0 : list byte),
    disk st !! tmpPath = Some (os.File c0) ->
    http.wroteHeader (w st) = None \/ http.wroteHeader (w st) = Some http.StatusOK ->
    exists st',
      copyToBoth wld tmpPath chunks bodyErr written st
      = (Some (written + Z.of_nat (length (concat chunks)), bodyErr), st')
      /\ http.wroteBody (w st') = http.wroteBody (w st) ++ concat chunks
      /\ http.statusOf (w st') = http.StatusOK
      /\ logged st' = logged st /\ sent st' = sent st
      /\ disk st' = <[tmpPath := os.File (c0 ++ concat chunks)]> (disk st)
      /\ http.Header (w st') = http.Header (w st).
Proof.
  intros Hc Hf. induction chunks as [|c chunks IH]; intros written st c0 Hd Hw;
    cbn [copyToBoth concat].
  - exists st. rewrite !app_nil_r, Z.add_0_r. repeat split.
    + unfold http.statusOf. destruct Hw as [-> | ->]; reflexivity.
    + symmetry. now apply insert_id.
  - destruct (length c =? 0)%nat eqn:El.
    { apply Nat.eqb_eq, nil_length_inv in El. subst c. cbn [app]. now apply IH. }
    unfold clientWrite, os.fileWrite. rewrite Hc, Hf, Hd.
    destruct (Write_keeps_200 c (w st) Hw) as (H1 & H2 & H3).
    edestruct (IH (written + Z.of_nat (length c))
                 (mkState (<[tmpPath := os.File (c0 ++ c)]> (disk st)) (http.Write c (w st))
                          (logged st) (sent st)) (c0 ++ c))
      as (st' & E & Hb & Hs & Hl & Hse & Hdk & Hh).
    { cbn [disk]. apply lookup_insert_eq. }
    { cbn [w]. now right. }
    exists st'. rewrite E. cbn [w disk logged sent] in *.
    rewrite Hb, H2, Hdk, Hh, H3, insert_insert_eq, length_app, Nat2Z.inj_add, !app_assoc,
      Z.add_assoc.
    repeat split; assumption.
Qed.


(** A failed rename of a streamed archive: the client has its 200 and the
    bytes, the log has the warning, and the temporary file is gone. *)
Example handleZip_rename_fails :
  let st' := serve exampleProxy (exampleWorld "PK")
                   (exampleRequest "/foo.zip" context.Background)
                   (exampleCache []) in
  let st'' :=
    run (handleZip exampleProxy
           (mkWorld {| os.onOpen := Some "permission denied"; os.onFileRead := None;
                       os.onStat := None; os.onMkdir := None; os.onCreate := None;
                       os.onWrite := None; os.onRename := Some "read-only file system" |}
                    0 0 (fun _ => None)
                    (fun _ _ => Ok (http.mkResponse 200 (-1) [list_byte_of_string "PK"] None))
                    None 4096 (fun _ => true) None)
           (exampleRequest "/foo.zip" context.Background) "foo.zip")
        (initState (exampleCache [])) in
  disk st' = exampleCache [("cache/foo.zip", os.File (list_byte_of_string "PK"))]
  /\ http.statusOf (w st'') = 200
  /\ http.wroteBody (w st'') = list_byte_of_string "PK"
  /\ disk st'' = exampleCache []
  /\ last (logged st'')
     = Some ("[WARN] Failed to rename cache file for %s: %v",
             [fmt.str "foo.zip"; fmt.str "read-only file system"]).
Proof. cbv zeta. repeat split; vm_compute; reflexivity. Qed.

(** ** Examples *)

Example cachePath_list :
  cachePath "./cache" "example.com/@v/list" = "cache/example.com/@v/list".
Proof. reflexivity. Qed.

Example Clean_examples :
  map filepath.Clean ["a//b/./c/.."; "/../a"; "../../x"; ""; "a/.."; "/"]
  = ["a/b"; "/a"; "../../x"; "."; "."; "/"].
Proof. reflexivity. Qed.

Example Dir_examples :
  map filepath.Dir ["cache/a/@v/list"; "list"; "/x"; "/"; "."]
  = ["cache/a/@v"; "."; "/"; "/"; "."].
Proof. reflexivity. Qed.

Example checkValid_examples :
  map (fun s => json.checkValid (list_byte_of_string s))
      ["not-json"; "{}"; "[1, 2.5e-3, true, null]"; "01"; " {} "; "{} x"; "nul"; "[1,]"]
  = [false; true; true; false; true; false; false; false].
Proof. vm_compute. reflexivity. Qed.

(** A cached list is served as stored and nothing is fetched. *)
Example handleList_hit :
  let st' := serve exampleProxy (exampleWorld "from upstream")
                   (exampleRequest "/example.com/@v/list" context.Background)
                   (exampleCache
                      [("cache/example.com", os.Directory);
                       ("cache/example.com/@v", os.Directory);
                       ("cache/example.com/@v/list",
                        os.File (list_byte_of_string "v1.0.0"))]) in
  http.wroteBody (w st') = list_byte_of_string "v1.0.0" /\ sent st' = [].
Proof. vm_compute. split; reflexivity. Qed.

(** A stream that breaks off removes the temporary file of the archive. *)
Example handleZip_broken_stream :
  let wld :=
    mkWorld os.noFaults 0 0 (fun _ => None)
            (fun _ _ => Ok (http.mkResponse 200 100 [list_byte_of_string "PK"]
                                            (Some "unexpected EOF")))
            None 4096 (fun _ => true) None in
  disk (serve exampleProxy wld
              (exampleRequest "/example.com/@v/v1.0.0.zip" context.Background)
              (exampleCache []))
  = exampleCache [("cache/example.com", os.Directory);
                  ("cache/example.com/@v", os.Directory)].
Proof. vm_compute. reflexivity. Qed.

(** * Further properties *)

(** ** The steps of a cache write on a disk that is ready for it *)

Lemma uptoLastSeparator_tmp (path : string) :
  filepath.uptoLastSeparator (path +:+ ".tmp") = filepath.uptoLastSeparator path.
Proof.
  induction path as [|c path IH]; [reflexivity |].
  change (String c path +:+ ".tmp") with (String c (path +:+ ".tmp")).
  cbn [filepath.uptoLastSeparator]. now rewrite IH.
Qed.

Lemma Dir_tmp (path : string) : filepath.Dir (path +:+ ".tmp") = filepath.Dir path.
Proof. unfold filepath.Dir. now rewrite uptoLastSeparator_tmp. Qed.

Lemma lookupPath_insert_ne (fs : gmap string os.node) (k name : string) (n : os.node) :
  k <> name -> os.lookupPath (<[k := n]> fs) name = os.lookupPath fs name.
Proof.
  intros H. unfold os.lookupPath.
  destruct (String.eqb name ""); [reflexivity |].
  destruct (os.isFixed name); [reflexivity |]. now apply lookup_insert_ne.
Qed.

Lemma cache_setup_ok (flt : os.Faults) (fs : gmap string os.node) (path : string) :
  os.onMkdir flt = None -> os.onCreate flt = None ->
  isDirectory fs (filepath.Dir path) = true ->
  isDirectory fs (path +:+ ".tmp") = false ->
  os.MkdirAll (os.onMkdir flt) fs (filepath.Dir path) = (fs, None)
  /\ os.Create (os.onCreate flt) fs (path +:+ ".tmp")
     = (<[path +:+ ".tmp" := os.File []]> fs, None).
Proof.
  unfold isDirectory. intros Hm Hc Hdir Htmp.
  assert (HD : os.lookupPath fs (filepath.Dir path) = Some os.Directory).
  { destruct (os.lookupPath fs (filepath.Dir path)) as [[?|]|]; congruence. }
  split.
  - rewrite Hm. unfold os.MkdirAll.
    destruct (String.length (filepath.Dir path)); cbn [os.MkdirAll_rec]; now rewrite HD.
  - unfold os.Create. rewrite Hc.
    assert (HP : os.parentOf fs (path +:+ ".tmp") = Some os.Directory).
    { unfold os.parentOf. now rewrite tmp_eqb_empty, Dir_tmp. }
    rewrite HP.
    destruct (os.lookupPath fs (path +:+ ".tmp")) as [[?|]|];
      first [discriminate | reflexivity].
Qed.

Lemma cache_rename_ok (flt : os.Faults) (fs : gmap string os.node) (path : string)
    (data : list byte) :
  os.onRename flt = None ->
  String.eqb path "" = false ->
  isDirectory fs (filepath.Dir path) = true ->
  isDirectory fs (path +:+ ".tmp") = false ->
  isDirectory fs path = false ->
  os.Rename (os.onRename flt)
            (<[path +:+ ".tmp" := os.File data]> (<[path +:+ ".tmp" := os.File []]> fs))
            (path +:+ ".tmp") path
  = (<[path := os.File data]> (delete (path +:+ ".tmp") fs), None).
Proof.
  unfold isDirectory. intros Hr Hne Hdir Htmp Hfin.
  assert (HD : os.lookupPath fs (filepath.Dir path) = Some os.Directory).
  { destruct (os.lookupPath fs (filepath.Dir path)) as [[?|]|]; congruence. }
  rewrite insert_insert_eq.
  unfold os.Rename. rewrite Hr, lookupPath_tmp, lookup_insert_eq.
  assert (HF : os.lookupPath (<[path +:+ ".tmp" := os.File data]> fs) path
               = os.lookupPath fs path).
  { apply lookupPath_insert_ne, tmp_neq. }
  assert (HPf : os.parentOf (<[path +:+ ".tmp" := os.File data]> fs) path
                = Some os.Directory).
  { unfold os.parentOf. rewrite Hne.
    destruct (decide (path +:+ ".tmp" = filepath.Dir path)) as [E | E].
    - rewrite <- E in HD. rewrite HD in Htmp. discriminate.
    - now rewrite lookupPath_insert_ne. }
  rewrite HF, HPf.
  destruct (os.lookupPath fs path) as [[?|]|]; try discriminate.
  all: now rewrite delete_insert_eq.
Qed.

(** ** The router *)

(** X1. A request whose method is not GET is answered 405; nothing is
    logged, fetched or written. *)
Theorem router_method_not_allowed
    (p : Proxy) (wld : World) (r : http.Request) (st : State) :
  String.eqb (http.Method r) http.MethodGet = false ->
  http.wroteHeader (w st) = None ->
  let st' := run (HandleRequest p wld r) st in
  http.statusOf (w st') = http.StatusMethodNotAllowed
  /\ disk st' = disk st /\ sent st' = sent st /\ logged st' = logged st.
Proof.
  intros Hm Hw st'. subst st'. unfold HandleRequest. rewrite Hm. cbn [negb]. exec.
  repeat split. now apply Error_status.
Qed.

Lemma router_method_not_allowed_witness :
  http.statusOf
    (w (run (HandleRequest exampleProxy (exampleWorld "v1.0.0")
               (http.mkRequest "POST" "/example.com/@v/list" context.Background
                               "192.0.2.1:4711"))
            (initState (exampleCache []))))
  = 405.
Proof.
  exact (proj1 (router_method_not_allowed exampleProxy (exampleWorld "v1.0.0")
                  (http.mkRequest "POST" "/example.com/@v/list" context.Background
                                  "192.0.2.1:4711")
                  (initState (exampleCache [])) eq_refl eq_refl)).
Defined.

(** X2. A GET of [/health] or [/healthz] is answered 200 with the JSON
    status document; it is not logged and touches neither the cache nor
    upstream. *)
Theorem router_health
    (p : Proxy) (wld : World) (r : http.Request) (st : State) :
  String.eqb (http.Method r) http.MethodGet = true ->
  String.eqb (GoStrings.TrimPrefix (http.URL r) "/") "health"
  || String.eqb (GoStrings.TrimPrefix (http.URL r) "/") "healthz" = true ->
  http.wroteHeader (w st) = None ->
  let st' := run (HandleRequest p wld r) st in
  http.statusOf (w st') = http.StatusOK
  /\ http.Header (w st') !! "Content-Type" = Some "application/json"
  /\ http.wroteBody (w st')
     = http.wroteBody (w st)
       ++ list_byte_of_string ("{" +:+ quoted "status" +:+ ":" +:+ quoted "ok" +:+ "}")
  /\ disk st' = disk st /\ sent st' = sent st /\ logged st' = logged st.
Proof.
  intros Hm Hh Hw st'. subst st'. unfold HandleRequest. rewrite Hm, Hh. cbn [negb].
  unfold handleHealth. exec.
  unfold http.Write, http.WriteHeader, http.HeaderSet, http.statusOf. rewrite Hw. cbn.
  repeat split. apply lookup_insert_eq.
Qed.

Lemma router_health_witness :
  http.statusOf
    (w (run (HandleRequest exampleProxy (exampleWorld "v1.0.0")
               (exampleRequest "/healthz" context.Background))
            (initState (exampleCache []))))
  = 200.
Proof.
  exact (proj1 (router_health exampleProxy (exampleWorld "v1.0.0")
                  (exampleRequest "/healthz" context.Background)
                  (initState (exampleCache [])) eq_refl eq_refl eq_refl)).
Defined.

(** X3. A GET whose path is no health path and ends in none of
    [/@v/list], [.info], [.mod], [.zip] is logged and answered 404 without a
    fetch and without a change of the cache. *)
Theorem router_not_found
    (p : Proxy) (wld : World) (r : http.Request) (st : State) :
  let path := GoStrings.TrimPrefix (http.URL r) "/" in
  String.eqb (http.Method r) http.MethodGet = true ->
  String.eqb path "health" || String.eqb path "healthz" = false ->
  GoStrings.HasSuffix path "/@v/list" = false ->
  GoStrings.HasSuffix path ".info" = false ->
  GoStrings.HasSuffix path ".mod" = false ->
  GoStrings.HasSuffix path ".zip" = false ->
  http.wroteHeader (w st) = None ->
  let st' := run (HandleRequest p wld r) st in
  http.statusOf (w st') = http.StatusNotFound
  /\ disk st' = disk st /\ sent st' = sent st
  /\ logged st' = logged st ++ [("[%s] %s %s", [fmt.str (http.RemoteAddr r);
                                                fmt.str (http.Method r); fmt.str path])].
Proof.
  intros path Hm Hh H1 H2 H3 H4 Hw st'. subst st' path. unfold HandleRequest.
  rewrite Hm, Hh. cbn [negb]. exec. rewrite H1, H2, H3, H4. exec.
  repeat split. now apply Error_status.
Qed.

Lemma router_not_found_witness :
  http.statusOf
    (w (run (HandleRequest exampleProxy (exampleWorld "v1.0.0")
               (exampleRequest "/example.com/@v/v1.0.0.txt" context.Background))
            (initState (exampleCache []))))
  = 404.
Proof.
  exact (proj1 (router_not_found exampleProxy (exampleWorld "v1.0.0")
                  (exampleRequest "/example.com/@v/v1.0.0.txt" context.Background)
                  (initState (exampleCache []))
                  eq_refl eq_refl eq_refl eq_refl eq_refl eq_refl eq_refl)).
Defined.

(** ** What the handlers answer *)

Ltac unfold_handler v :=
  destruct v as [[| |]|]; cbn [handlerOf bufferedHandler fetchContext misses] in *;
  [unfold handleList | unfold handleInfo | unfold handleMod | unfold handleZip].

(** Takes the handler past a cache lookup that [misses]. *)
Ltac enter_miss Hmiss :=
  exec;
  first
    [ match goal with
      | |- context [readCache ?f ?d ?c] =>
          destruct (readCache f d c) as [? [?|]]; [|cbn in Hmiss; discriminate]
      end
    | unfold zipMiss in Hmiss;
      match goal with
      | |- context [os.Open ?f ?d ?c] =>
          destruct (os.Open f d c) as [[?|] [?|]]; exec;
          try match goal with
              | |- context [os.onStat ?f] => destruct (os.onStat f); [|discriminate]
              end
      end ];
  exec.

Lemma append_empty_r (s : string) : s +:+ "" = s.
Proof.
  induction s as [|c s IH]; [reflexivity |].
  change (String c (s +:+ "") = String c s). now rewrite IH.
Qed.

Lemma Sprintf_fetch_error (err : error) :
  fmt.Sprintf "Failed to fetch: %v" [fmt.str err] = "Failed to fetch: " +:+ err.
Proof. unfold fmt.Sprintf. simpl. now rewrite append_empty_r. Qed.

Lemma Sprintf_upstream_error (code : Z) :
  fmt.Sprintf "Upstream error: %d" [fmt.int code] = "Upstream error: " +:+ fmt.itoa code.
Proof.
  unfold fmt.Sprintf. cbn [fmt.sprintfFrom Ascii.eqb Bool.eqb fmt.showArg].
  rewrite append_empty_r. reflexivity.
Qed.

(** X5. When, after a miss, the upstream request cannot be built, every
    handler answers 500, sends nothing and leaves the cache unchanged. *)
Theorem request_error_500
    (v : verb) (p : Proxy) (wld : World) (r : http.Request) (path : string) (st : State)
    (err : error) :
  http.wroteHeader (w st) = None ->
  misses v wld (disk st) (cachePath (cacheDir p) path) = true ->
  newRequestError wld (upstreamURL p path) = Some err ->
  let st' := run (handlerOf v p wld r path) st in
  http.statusOf (w st') = http.StatusInternalServerError
  /\ sent st' = sent st /\ disk st' = disk st.
Proof.
  intros Hw Hmiss Hreq st'. subst st'. unfold upstreamURL in *.
  unfold_handler v; enter_miss Hmiss.
  all: rewrite Hreq; exec; repeat split; now apply Error_status.
Qed.

Lemma request_error_500_witness :
  http.statusOf
    (w (run (handlerOf archive exampleProxy brokenRequestWorld
               (exampleRequest "/example.com/@v/v1.0.0.zip" context.Background)
               "example.com/@v/v1.0.0.zip")
            (initState (exampleCache []))))
  = 500.
Proof.
  exact (proj1 (request_error_500 archive exampleProxy brokenRequestWorld
                  (exampleRequest "/example.com/@v/v1.0.0.zip" context.Background)
                  "example.com/@v/v1.0.0.zip" (initState (exampleCache []))
                  "invalid URL" eq_refl ltac:(vm_compute; reflexivity) eq_refl)).
Defined.

(** X6. When the fetch fails on the network, every handler answers 502
    with the error in the body, logs it, and leaves the cache unchanged. *)
Theorem upstream_error_502
    (v : verb) (p : Proxy) (wld : World) (r : http.Request) (path : string) (st : State)
    (err : error) :
  http.wroteHeader (w st) = None ->
  misses v wld (disk st) (cachePath (cacheDir p) path) = true ->
  newRequestError wld (upstreamURL p path) = None ->
  answer p wld (fetchContext v wld r) path = Err err ->
  let st' := run (handlerOf v p wld r path) st in
  http.statusOf (w st') = http.StatusBadGateway
  /\ http.wroteBody (w st')
     = http.wroteBody (w st)
       ++ list_byte_of_string ("Failed to fetch: " +:+ err +:+ String "010"%char EmptyString)
  /\ disk st' = disk st
  /\ logged st'
     = logged st ++ [("[CACHE MISS] %s", [fmt.str path]);
                     ("[ERROR] Failed to fetch %s: %v",
                      [fmt.str (upstreamURL p path); fmt.str err])].
Proof.
  intros Hw Hmiss Hreq Hans st'. subst st'. unfold answer, upstreamURL in *.
  unfold_handler v; enter_miss Hmiss.
  all: rewrite Hreq; exec; rewrite Hans; exec.
  all: split; [now apply Error_status |].
  all: split; [rewrite Sprintf_fetch_error;
               unfold http.Error, http.Write, http.WriteHeader, http.HeaderSet;
               rewrite Hw; reflexivity |].
  all: split; [reflexivity |].
  all: rewrite <- app_assoc; reflexivity.
Qed.

Lemma upstream_error_502_witness :
  http.statusOf
    (w (run (handlerOf (buffered verbMod) exampleProxy
               (answeringWorld (Err "connection refused"))
               (exampleRequest "/example.com/@v/v1.0.0.mod" context.Background)
               "example.com/@v/v1.0.0.mod")
            (initState (exampleCache []))))
  = 502.
Proof.
  exact (proj1 (upstream_error_502 (buffered verbMod) exampleProxy
                  (answeringWorld (Err "connection refused"))
                  (exampleRequest "/example.com/@v/v1.0.0.mod" context.Background)
                  "example.com/@v/v1.0.0.mod" (initState (exampleCache []))
                  "connection refused" eq_refl ltac:(vm_compute; reflexivity) eq_refl
                  ltac:(vm_compute; reflexivity))).
Defined.

(** X7. When upstream answers with a status other than 200 that net/http
    sends as given and with a body (200 to 999, not 204 or 304), every handler
    answers with that same status and the line [Upstream error: <status>], and
    leaves the cache unchanged. *)
Theorem upstream_status_mirrored
    (v : verb) (p : Proxy) (wld : World) (r : http.Request) (path : string) (st : State)
    (resp : http.Response) :
  http.wroteHeader (w st) = None ->
  misses v wld (disk st) (cachePath (cacheDir p) path) = true ->
  newRequestError wld (upstreamURL p path) = None ->
  answer p wld (fetchContext v wld r) path = Ok resp ->
  (http.StatusCode resp =? http.StatusOK) = false ->
  carriesBody (http.StatusCode resp) = true ->
  let st' := run (handlerOf v p wld r path) st in
  http.statusOf (w st') = http.StatusCode resp
  /\ http.wroteBody (w st')
     = http.wroteBody (w st)
       ++ list_byte_of_string ("Upstream error: " +:+ fmt.itoa (http.StatusCode resp)
                               +:+ String "010"%char EmptyString)
  /\ disk st' = disk st.
Proof.
  intros Hw Hmiss Hreq Hans Hcode _ st'. subst st'. unfold answer, upstreamURL in *.
  unfold_handler v; enter_miss Hmiss.
  all: rewrite Hreq; exec; rewrite Hans; exec; rewrite Hcode; cbn [negb]; exec.
  all: split; [now apply Error_status |].
  all: split; [|reflexivity].
  all: rewrite Sprintf_upstream_error.
  all: unfold http.Error, http.Write, http.WriteHeader, http.HeaderSet; rewrite Hw; reflexivity.
Qed.

Lemma upstream_status_mirrored_witness :
  http.statusOf
    (w (run (handlerOf (buffered verbList) exampleProxy
               (answeringWorld
                  (Ok (http.mkResponse 404 (-1) [list_byte_of_string "not found"] None)))
               (exampleRequest "/example.com/@v/list" context.Background)
               "example.com/@v/list")
            (initState (exampleCache []))))
  = 404.
Proof.
  exact (proj1 (upstream_status_mirrored (buffered verbList) exampleProxy
                  (answeringWorld
                     (Ok (http.mkResponse 404 (-1) [list_byte_of_string "not found"] None)))
                  (exampleRequest "/example.com/@v/list" context.Background)
                  "example.com/@v/list" (initState (exampleCache []))
                  (http.mkResponse 404 (-1) [list_byte_of_string "not found"] None)
                  eq_refl ltac:(vm_compute; reflexivity) eq_refl
                  ltac:(vm_compute; reflexivity) eq_refl eq_refl)).
Defined.

(** X8. When reading the upstream body fails, the list, info and
    manifest handlers answer 500 and cache nothing. *)
Theorem body_read_error_500
    (b : bufferedVerb) (p : Proxy) (wld : World) (r : http.Request) (path : string)
    (st : State) (resp : http.Response) (err : error) :
  http.wroteHeader (w st) = None ->
  misses (buffered b) wld (disk st) (cachePath (cacheDir p) path) = true ->
  newRequestError wld (upstreamURL p path) = None ->
  answer p wld (http.Ctx r) path = Ok resp ->
  (http.StatusCode resp =? http.StatusOK) = true ->
  http.BodyErr resp = Some err ->
  let st' := run (bufferedHandler b p wld r path) st in
  http.statusOf (w st') = http.StatusInternalServerError /\ disk st' = disk st.
Proof.
  intros Hw Hmiss Hreq Hans Hcode Hbody st'. subst st'. unfold answer, upstreamURL in *.
  cbn [misses] in Hmiss.
  destruct b; cbn [bufferedHandler];
    [unfold handleList | unfold handleInfo | unfold handleMod]; enter_miss Hmiss.
  all: rewrite Hreq; exec; rewrite Hans; exec; rewrite Hcode; cbn [negb]; exec;
    rewrite Hbody; exec.
  all: split; [now apply Error_status | reflexivity].
Qed.

Lemma body_read_error_500_witness :
  http.statusOf
    (w (run (bufferedHandler verbInfo exampleProxy
               (answeringWorld
                  (Ok (http.mkResponse 200 (-1) [list_byte_of_string "{"]
                                       (Some "unexpected EOF"))))
               (exampleRequest "/example.com/@v/v1.0.0.info" context.Background)
               "example.com/@v/v1.0.0.info")
            (initState (exampleCache []))))
  = 500.
Proof.
  exact (proj1 (body_read_error_500 verbInfo exampleProxy
                  (answeringWorld
                     (Ok (http.mkResponse 200 (-1) [list_byte_of_string "{"]
                                          (Some "unexpected EOF"))))
                  (exampleRequest "/example.com/@v/v1.0.0.info" context.Background)
                  "example.com/@v/v1.0.0.info" (initState (exampleCache []))
                  (http.mkResponse 200 (-1) [list_byte_of_string "{"] (Some "unexpected EOF"))
                  "unexpected EOF" eq_refl ltac:(vm_compute; reflexivity) eq_refl
                  ltac:(vm_compute; reflexivity) eq_refl eq_refl)).
Defined.

(** ** When the cache cannot be written *)











(** ** A failed cache read is a miss *)






(** ** Hits *)

Lemma buffered_hit
    (b : bufferedVerb) (p : Proxy) (wld : World) (r : http.Request) (path : string)
    (st : State) (cached : list byte) :
  http.wroteHeader (w st) = None ->
  readCache (faults wld) (disk st) (cachePath (cacheDir p) path) = (cached, None) ->
  let st' := run (bufferedHandler b p wld r path) st in
  http.statusOf (w st') = http.StatusOK
  /\ http.wroteBody (w st') = http.wroteBody (w st) ++ cached
  /\ http.Header (w st') !! "Content-Type" = Some (contentTypeOf b)
  /\ sent st' = sent st /\ disk st' = disk st
  /\ logged st' = logged st ++ [("[CACHE HIT] %s", [fmt.str path])].
Proof.
  intros Hw Hread st'. subst st'.
  destruct b; cbn [bufferedHandler contentTypeOf];
    [unfold handleList | unfold handleInfo | unfold handleMod].
  all: exec; rewrite Hread; exec.
  all: pose proof (Write_served "Content-Type") as HW; cbv zeta in HW.
  all: repeat split; apply HW; exact Hw.
Qed.

Lemma handleZip_hit
    (p : Proxy) (wld : World) (r : http.Request) (path : string) (st : State)
    (content : list byte) :
  http.wroteHeader (w st) = None ->
  os.Open (os.onOpen (faults wld)) (disk st) (cachePath (cacheDir p) path)
  = (Some (os.File content), None) ->
  os.onStat (faults wld) = None ->
  os.onFileRead (faults wld) = None ->
  let st' := run (handleZip p wld r path) st in
  http.statusOf (w st') = http.StatusOK
  /\ http.wroteBody (w st') = http.wroteBody (w st) ++ content
  /\ http.Header (w st') !! "Content-Type" = Some "application/zip"
  /\ http.Header (w st') !! "Content-Length" = Some (fmt.itoa (Z.of_nat (length content)))
  /\ sent st' = sent st /\ disk st' = disk st
  /\ logged st' = logged st ++ [("[CACHE HIT] %s", [fmt.str path])].
Proof.
  intros Hw Hopen Hstat Hread st'. subst st'.
  unfold handleZip. exec. rewrite Hopen. exec. rewrite Hstat. exec.
  unfold copyFromFile, os.readToEnd. rewrite Hread.
  assert (HCL : fmt.Sprintf "%d" [fmt.int (os.Size (dirSize wld) (os.File content))]
                = fmt.itoa (Z.of_nat (length content))).
  { unfold fmt.Sprintf. cbn [fmt.sprintfFrom Ascii.eqb Bool.eqb fmt.showArg os.Size].
    now rewrite append_empty_r. }
  rewrite HCL.
  destruct content as [|c0 content]; exec.
  all: unfold http.Write, http.WriteHeader, http.HeaderSet, http.statusOf; rewrite ?Hw;
    cbn [http.wroteHeader http.wroteBody http.Header]; rewrite ?app_nil_r.
  all: repeat split; try apply lookup_insert_eq.
  all: rewrite lookup_insert_ne by discriminate; apply lookup_insert_eq.
Qed.

(** X4. On a cache hit the list, info and manifest handlers answer 200
    with the stored bytes and the content type of the verb, and the archive
    handler answers 200 with the stored file, its length as [Content-Length];
    no request goes upstream and the cache is unchanged. *)
Theorem cache_hit_served
    (p : Proxy) (wld : World) (r : http.Request) (path : string) (st : State) :
  (forall (b : bufferedVerb) (cached : list byte),
     http.wroteHeader (w st) = None ->
     readCache (faults wld) (disk st) (cachePath (cacheDir p) path) = (cached, None) ->
     let st' := run (bufferedHandler b p wld r path) st in
     http.statusOf (w st') = http.StatusOK
     /\ http.wroteBody (w st') = http.wroteBody (w st) ++ cached
     /\ http.Header (w st') !! "Content-Type" = Some (contentTypeOf b)
     /\ sent st' = sent st /\ disk st' = disk st
     /\ logged st' = logged st ++ [("[CACHE HIT] %s", [fmt.str path])])
  /\ (forall content : list byte,
        http.wroteHeader (w st) = None ->
        os.Open (os.onOpen (faults wld)) (disk st) (cachePath (cacheDir p) path)
        = (Some (os.File content), None) ->
        os.onStat (faults wld) = None ->
        os.onFileRead (faults wld) = None ->
        let st' := run (handleZip p wld r path) st in
        http.statusOf (w st') = http.StatusOK
        /\ http.wroteBody (w st') = http.wroteBody (w st) ++ content
        /\ http.Header (w st') !! "Content-Type" = Some "application/zip"
        /\ http.Header (w st') !! "Content-Length"
           = Some (fmt.itoa (Z.of_nat (length content)))
        /\ sent st' = sent st /\ disk st' = disk st
        /\ logged st' = logged st ++ [("[CACHE HIT] %s", [fmt.str path])]).
Proof.
  split.
  - intros b cached. exact (buffered_hit b p wld r path st cached).
  - intros content. exact (handleZip_hit p wld r path st content).
Qed.

Lemma cache_hit_served_witness :
  http.wroteBody
    (w (run (bufferedHandler verbList exampleProxy (answeringWorld (Err "offline"))
               (exampleRequest "/example.com/@v/list" context.Background)
               "example.com/@v/list")
            (initState listCache)))
  = http.wroteBody (w (initState listCache)) ++ list_byte_of_string "v1.0.0"
  /\ http.wroteBody
       (w (run (handleZip exampleProxy (answeringWorld (Err "offline"))
                  (exampleRequest "/example.com/@v/list" context.Background)
                  "example.com/@v/list")
               (initState listCache)))
     = http.wroteBody (w (initState listCache)) ++ list_byte_of_string "v1.0.0".
Proof.
  destruct (cache_hit_served exampleProxy (answeringWorld (Err "offline"))
              (exampleRequest "/example.com/@v/list" context.Background)
              "example.com/@v/list" (initState listCache)) as [HB HZ].
  split.
  - exact (proj1 (proj2 (HB verbList (list_byte_of_string "v1.0.0") eq_refl
                            ltac:(vm_compute; reflexivity)))).
  - exact (proj1 (proj2 (HZ (list_byte_of_string "v1.0.0") eq_refl
                            ltac:(vm_compute; reflexivity) eq_refl eq_refl))).
Defined.

(** ** No retries *)

(** X9. Whatever happens, a handler sends at most one request upstream,
    for its own path and under the context of its verb: nothing is retried. *)
Theorem at_most_one_fetch
    (v : verb) (p : Proxy) (wld : World) (r : http.Request) (path : string) (st : State) :
  let st' := run (handlerOf v p wld r path) st in
  sent st' = sent st
  \/ sent st' = sent st ++ [fetchRequest p (fetchContext v wld r) path].
Proof.
  intros st'. subst st'.
  destruct (newRequestError wld (upstreamURL p path)) as [e|] eqn:Hreq.
  - left. unfold upstreamURL in Hreq.
    unfold_handler v; exec.
    1-3: destruct (readCache _ _ _) as [cached [e'|]]; exec; rewrite ?Hreq; exec; reflexivity.
    destruct (os.Open _ _ _) as [[file|] [e'|]]; exec;
      try (destruct (os.onStat _); exec);
      try (unfold copyFromFile; destruct (os.readToEnd _ _) as [[|c0 bs] e2]; exec);
      rewrite ?Hreq; exec; reflexivity.
  - destruct (misses v wld (disk st) (cachePath (cacheDir p) path)) eqn:Hmiss.
    + right. destruct v as [b|]; cbn [handlerOf fetchContext misses] in *.
      * destruct (readCache _ _ _) as [cached [e'|]] eqn:Hread; [|discriminate].
        eapply buffered_miss_sends; eassumption.
      * now apply handleZip_miss_sends.
    + left. unfold_handler v; exec.
      1-3: destruct (readCache _ _ _) as [cached [e'|]]; [discriminate |]; exec; reflexivity.
      unfold zipMiss in Hmiss.
      destruct (os.Open _ _ _) as [[file|] [e'|]]; try discriminate.
      destruct (os.onStat _); [discriminate |]. exec.
      unfold copyFromFile; destruct (os.readToEnd _ _) as [[|c0 bs] e2]; exec; reflexivity.
Qed.

(** ** A miss fills the cache for the next request *)

(** X10. After a list, info or manifest request has missed, fetched and
    written the cache, the next request for the same path is served the same
    bytes from the cache and sends nothing upstream. *)
Theorem buffered_miss_then_hit
    (b : bufferedVerb) (p : Proxy) (wld wld2 : World) (r r2 : http.Request) (path : string)
    (st st2 : State) (resp : http.Response) (cached : list byte) (err : error) :
  http.wroteHeader (w st) = None ->
  readCache (faults wld) (disk st) (cachePath (cacheDir p) path) = (cached, Some err) ->
  newRequestError wld (upstreamURL p path) = None ->
  answer p wld (http.Ctx r) path = Ok resp ->
  http.StatusCode resp = http.StatusOK ->
  http.BodyErr resp = None ->
  validates b wld (concat (http.Body resp)) = true ->
  snd (writeCache (faults wld) (disk st) (cachePath (cacheDir p) path)
                  (concat (http.Body resp))) = None ->
  disk st2 = disk (run (bufferedHandler b p wld r path) st) ->
  http.wroteHeader (w st2) = None ->
  os.onOpen (faults wld2) = None -> os.onFileRead (faults wld2) = None ->
  let st3 := run (bufferedHandler b p wld2 r2 path) st2 in
  http.statusOf (w st3) = http.StatusOK
  /\ http.wroteBody (w st3) = http.wroteBody (w st2) ++ concat (http.Body resp)
  /\ sent st3 = sent st2 /\ disk st3 = disk st2.
Proof.
  intros Hw Hread Hreq Hans Hcode Hbody Hval Hok Hd Hw2 Ho Hf st3. subst st3.
  pose proof (buffered_persist_failure_swallowed b p wld r path st resp cached err
                Hw Hread Hreq Hans Hcode Hbody Hval) as H.
  cbv zeta in H. destruct H as (_ & _ & _ & Hdisk & _).
  destruct (writeCache _ _ _ _) as [fs' [e|]] eqn:HW; [discriminate |].
  cbn [fst] in Hdisk. apply writeCache_ok_lookup in HW as [HL _].
  assert (Hhit : readCache (faults wld2) (disk st2) (cachePath (cacheDir p) path)
                 = (concat (http.Body resp), None)).
  { rewrite Hd, Hdisk. unfold readCache. now apply ReadFile_file. }
  pose proof (buffered_hit b p wld2 r2 path st2 _ Hw2 Hhit) as H. cbv zeta in H.
  destruct H as (H1 & H2 & _ & H4 & H5 & _). auto.
Qed.

Lemma buffered_miss_then_hit_witness :
  let st2 :=
    initState (disk (run (bufferedHandler verbList exampleProxy (exampleWorld "v1.0.0")
                            (exampleRequest "/example.com/@v/list" context.Background)
                            "example.com/@v/list")
                         (initState (exampleCache [])))) in
  let st3 := run (bufferedHandler verbList exampleProxy (answeringWorld (Err "offline"))
                    (exampleRequest "/example.com/@v/list" context.Background)
                    "example.com/@v/list") st2 in
  http.statusOf (w st3) = 200 /\ sent st3 = sent st2.
Proof.
  intros st2 st3.
  pose proof (buffered_miss_then_hit verbList exampleProxy (exampleWorld "v1.0.0")
                (answeringWorld (Err "offline"))
                (exampleRequest "/example.com/@v/list" context.Background)
                (exampleRequest "/example.com/@v/list" context.Background)
                "example.com/@v/list" (initState (exampleCache [])) st2
                (http.mkResponse 200 (-1) [list_byte_of_string "v1.0.0"] None)
                [] os.ENOENT
                eq_refl ltac:(vm_compute; reflexivity) eq_refl
                ltac:(vm_compute; reflexivity) eq_refl eq_refl eq_refl
                ltac:(vm_compute; reflexivity) eq_refl eq_refl eq_refl eq_refl)
    as (H1 & _ & H3 & _).
  split; [exact H1 | exact H3].
Defined.

Lemma handleZip_success_disk
    (p : Proxy) (wld : World) (r : http.Request) (path : string) (st : State)
    (resp : http.Response) (fs1 fs2 fs3 : gmap string os.node) :
  http.wroteHeader (w st) = None ->
  zipMiss wld (disk st) (cachePath (cacheDir p) path) = true ->
  newRequestError wld (upstreamURL p path) = None ->
  answer p wld (context.WithTimeout (http.Ctx r) (now wld) (10 * time.Minute)) path
  = Ok resp ->
  http.StatusCode resp = http.StatusOK ->
  http.BodyErr resp = None ->
  clientRoom wld = None -> os.onWrite (faults wld) = None ->
  os.MkdirAll (os.onMkdir (faults wld)) (disk st) (filepath.Dir (cachePath (cacheDir p) path))
  = (fs1, None) ->
  os.Create (os.onCreate (faults wld)) fs1 (cachePath (cacheDir p) path +:+ ".tmp")
  = (fs2, None) ->
  os.Rename (os.onRename (faults wld))
            (<[cachePath (cacheDir p) path +:+ ".tmp" := os.File (concat (http.Body resp))]> fs2)
            (cachePath (cacheDir p) path +:+ ".tmp") (cachePath (cacheDir p) path)
  = (fs3, None) ->
  disk (run (handleZip p wld r path) st) = fs3
  /\ os.lookupPath fs3 (cachePath (cacheDir p) path) = Some (os.File (concat (http.Body resp)))
  /\ fs3 !! (cachePath (cacheDir p) path +:+ ".tmp") = None.
Proof.
  intros Hw Hmiss Hreq Hans Hcode Hbody Hc Hf HM HC HR.
  unfold answer, upstreamURL, zipMiss in *.
  pose proof (Create_ok _ _ _ _ HC) as Hfs2.
  split.
  - unfold handleZip. exec.
    destruct (os.Open _ _ _) as [[file|] [e|]]; exec;
      try (destruct (os.onStat (faults wld)); [|discriminate]); exec.
    all: rewrite Hreq; exec; rewrite Hans; exec; rewrite Hcode;
      change (negb (http.StatusOK =? http.StatusOK)) with false; exec;
      rewrite HM; exec; rewrite HC; exec.
    all: destruct (0 <? http.ContentLength resp); exec.
    all: match goal with
         | |- context [copyToBoth ?wd ?tmp ?chunks ?be 0 ?s] =>
             destruct (copyToBoth_clean wd tmp be chunks Hc Hf 0 s [])
               as (st3 & E & Hb & Hs & Hl & Hse & Hdk & Hh);
             [cbn [disk]; rewrite Hfs2; apply lookup_insert_eq
             | cbn [w]; unfold http.HeaderSet; rewrite ?Hw; cbn; now left
             | rewrite E ]
         end.
    all: exec; rewrite Hbody; exec.
    all: cbn [disk] in Hdk; rewrite Hdk; cbn [app]; rewrite HR; exec; reflexivity.
  - apply (Rename_file_ok _ _ _ _ _ (concat (http.Body resp))) in HR.
    + destruct HR as (-> & HE & HF). split.
      * now apply lookupPath_insert_file.
      * rewrite lookup_insert_ne by (intros E; symmetry in E; now apply tmp_neq in E).
        apply lookup_delete_eq.
    + rewrite lookupPath_tmp. apply lookup_insert_eq.
Qed.

(** X11. An archive request that misses on a disk ready for the new file
    (the directory of the entry is there, no directory stands at the path of
    the entry or of its temporary file) and meets no failure of upstream, of
    the client or of the disk leaves the whole body at the path of the entry
    and no temporary file; the next request for the same path is served the
    same bytes from the cache, with their length as [Content-Length], and
    sends nothing upstream. *)
Theorem handleZip_miss_then_hit
    (p : Proxy) (wld wld2 : World) (r r2 : http.Request) (path : string) (st st2 : State)
    (resp : http.Response) :
  let final := cachePath (cacheDir p) path in
  http.wroteHeader (w st) = None ->
  zipMiss wld (disk st) final = true ->
  newRequestError wld (upstreamURL p path) = None ->
  answer p wld (context.WithTimeout (http.Ctx r) (now wld) (10 * time.Minute)) path
  = Ok resp ->
  http.StatusCode resp = http.StatusOK ->
  http.BodyErr resp = None ->
  clientRoom wld = None ->
  os.onMkdir (faults wld) = None -> os.onCreate (faults wld) = None ->
  os.onWrite (faults wld) = None -> os.onRename (faults wld) = None ->
  String.eqb final "" = false ->
  isDirectory (disk st) (filepath.Dir final) = true ->
  isDirectory (disk st) (final +:+ ".tmp") = false ->
  isDirectory (disk st) final = false ->
  disk st2 = disk (run (handleZip p wld r path) st) ->
  http.wroteHeader (w st2) = None ->
  os.onOpen (faults wld2) = None -> os.onStat (faults wld2) = None ->
  os.onFileRead (faults wld2) = None ->
  let st3 := run (handleZip p wld2 r2 path) st2 in
  disk st2 = <[final := os.File (concat (http.Body resp))]> (delete (final +:+ ".tmp") (disk st))
  /\ http.statusOf (w st3) = http.StatusOK
  /\ http.wroteBody (w st3) = http.wroteBody (w st2) ++ concat (http.Body resp)
  /\ http.Header (w st3) !! "Content-Length"
     = Some (fmt.itoa (Z.of_nat (length (concat (http.Body resp)))))
  /\ sent st3 = sent st2 /\ disk st3 = disk st2.
Proof.
  intros final Hw Hmiss Hreq Hans Hcode Hbody Hc Hm Hcr Hf Hrn Hne Hdir Htmp Hfin
         Hd Hw2 Ho Hs Hfr st3. subst st3.
  destruct (cache_setup_ok (faults wld) (disk st) final Hm Hcr Hdir Htmp) as [HM HC].
  pose proof (cache_rename_ok (faults wld) (disk st) final (concat (http.Body resp))
                Hrn Hne Hdir Htmp Hfin) as HR.
  destruct (handleZip_success_disk p wld r path st resp _ _ _
              Hw Hmiss Hreq Hans Hcode Hbody Hc Hf HM HC HR) as (Hdisk & HL & _).
  fold final in Hdisk, HL.
  assert (Hopen : os.Open (os.onOpen (faults wld2)) (disk st2) final
                  = (Some (os.File (concat (http.Body resp))), None)).
  { rewrite Hd, Hdisk. unfold os.Open. now rewrite HL, Ho. }
  pose proof (handleZip_hit p wld2 r2 path st2 _ Hw2 Hopen Hs Hfr) as H. cbv zeta in H.
  destruct H as (H1 & H2 & _ & H4 & H5 & H6 & _).
  split; [now rewrite Hd |]. auto.
Qed.

Lemma handleZip_miss_then_hit_witness :
  let st2 :=
    initState (disk (run (handleZip exampleProxy (exampleWorld "PK")
                            (exampleRequest "/example.com/@v/v1.0.0.zip" context.Background)
                            "example.com/@v/v1.0.0.zip")
                         (initState listCache))) in
  let st3 := run (handleZip exampleProxy (answeringWorld (Err "offline"))
                    (exampleRequest "/example.com/@v/v1.0.0.zip" context.Background)
                    "example.com/@v/v1.0.0.zip") st2 in
  http.statusOf (w st3) = 200
  /\ http.wroteBody (w st3) = http.wroteBody (w st2) ++ list_byte_of_string "PK"
  /\ sent st3 = sent st2.
Proof.
  intros st2 st3.
  pose proof (handleZip_miss_then_hit exampleProxy (exampleWorld "PK")
                (answeringWorld (Err "offline"))
                (exampleRequest "/example.com/@v/v1.0.0.zip" context.Background)
                (exampleRequest "/example.com/@v/v1.0.0.zip" context.Background)
                "example.com/@v/v1.0.0.zip" (initState listCache) st2
                (http.mkResponse 200 (-1) [list_byte_of_string "PK"] None)
                eq_refl ltac:(vm_compute; reflexivity) eq_refl
                ltac:(vm_compute; reflexivity) eq_refl eq_refl eq_refl
                eq_refl eq_refl eq_refl eq_refl
                ltac:(vm_compute; reflexivity) ltac:(vm_compute; reflexivity)
                ltac:(vm_compute; reflexivity) ltac:(vm_compute; reflexivity)
                eq_refl eq_refl eq_refl eq_refl eq_refl)
    as (_ & H1 & H2 & _ & H4 & _).
  split; [exact H1 |]. split; [exact H2 | exact H4].
Defined.

(** ** Other keys are left alone *)

(** X12. A request for one path never changes the file content cached
    at a name other than the path of its key and that path with [.tmp]
    appended. *)
Theorem handler_frame
    (v : verb) (p : Proxy) (wld : World) (r : http.Request) (path : string) (st : State)
    (k : string) (c : list byte) :
  String.eqb k (cachePath (cacheDir p) path) = false ->
  String.eqb k (cachePath (cacheDir p) path +:+ ".tmp") = false ->
  holds (disk (run (handlerOf v p wld r path) st)) k c <-> holds (disk st) k c.
Proof.
  intros Hk Ht. apply String.eqb_neq in Hk, Ht.
  destruct v as [b|]; cbn [handlerOf].
  - destruct b; cbn [bufferedHandler];
      [unfold handleList | unfold handleInfo | unfold handleMod].
    all: exec; destruct (readCache _ _ _) as [cached [e|]]; exec; [|reflexivity].
    all: destruct (newRequestError wld _); exec; [reflexivity |].
    all: destruct (roundTrip wld _ _) as [resp|e']; exec; [|reflexivity].
    all: destruct (negb (http.StatusCode resp =? http.StatusOK)); exec; [reflexivity |].
    all: destruct (http.BodyErr resp); exec; [reflexivity |].
    all: try (destruct (json.Unmarshal _ _); exec; [reflexivity |]).
    all: destruct (writeCache _ _ _ _) as [fs' werr] eqn:HW;
      pose proof (writeCache_frame _ _ _ _ _ _ HW k c Hk Ht) as HF;
      destruct werr; exec; exact HF.
  - set (final := cachePath (cacheDir p) path) in *.
    unfold handleZip. fold final. destruct (onRemove wld) as [rerr|]. all: exec.
    all: destruct (os.Open _ _ _) as [[file|] [e|]]; exec;
      try (destruct (os.onStat (faults wld)); exec);
      try (unfold copyFromFile; destruct (os.readToEnd _ _) as [[|b0 bs] e']; exec).
    all: try reflexivity.
    all: destruct (newRequestError wld _); exec; [reflexivity |].
    all: destruct (roundTrip wld _ _) as [resp|e']; exec; [|reflexivity].
    all: destruct (negb (http.StatusCode resp =? http.StatusOK)); exec; [reflexivity |].
    all: destruct (os.MkdirAll _ _ _) as [fs1 [e1|]] eqn:HM;
      apply MkdirAll_sameFiles in HM; exec; [apply HM |].
    all: destruct (Create_cases (os.onCreate (faults wld)) fs1 (final +:+ ".tmp"))
      as [[e2 ->] | ->]; exec; [apply HM |].
    all: destruct (0 <? http.ContentLength resp); exec.
    all: destruct (copyToBoth _ _ _ _ _ _) as [res st3] eqn:HC;
      destruct (copyToBoth_keeps _ _ _ _ _ _ _ _ HC) as (_ & _ & [[n cerr] ->]);
      eapply copyToBoth_disk in HC; [|cbn [disk]; apply lookup_insert_eq];
      destruct HC as (c1 & Hd & Hok); cbn [disk] in Hd; rewrite insert_insert_eq in Hd.
    all: assert (HL : os.lookupPath (disk st3) (final +:+ ".tmp") = Some (os.File c1))
      by (rewrite lookupPath_tmp, Hd; apply lookup_insert_eq).
    all: destruct cerr as [cerr|]; exec.
    all: try (rewrite (Remove_file _ _ _ HL); exec).
    all: try (rewrite Remove_refused; exec).
    all: try (destruct (Rename_file_cases (os.onRename (faults wld)) (disk st3)
                          (final +:+ ".tmp") final c1 HL) as [[e5 ->] | ->]; exec;
              try (rewrite (Remove_file _ _ _ HL); exec);
              try (rewrite Remove_refused; exec)).
    all: unfold holds; rewrite ?lookup_insert_ne by congruence;
      rewrite ?lookup_delete_ne by congruence;
      rewrite Hd, lookup_insert_ne by congruence; apply HM.
Qed.

Lemma handler_frame_witness :
  holds (disk (run (handlerOf archive exampleProxy (exampleWorld "PK")
                      (exampleRequest "/example.com/@v/v1.0.0.zip" context.Background)
                      "example.com/@v/v1.0.0.zip")
                   (initState listCache)))
        "cache/example.com/@v/list" (list_byte_of_string "v1.0.0")
  <-> holds (disk (initState listCache))
            "cache/example.com/@v/list" (list_byte_of_string "v1.0.0").
Proof.
  exact (handler_frame archive exampleProxy (exampleWorld "PK")
           (exampleRequest "/example.com/@v/v1.0.0.zip" context.Background)
           "example.com/@v/v1.0.0.zip" (initState listCache)
           "cache/example.com/@v/list" (list_byte_of_string "v1.0.0")
           ltac:(vm_compute; reflexivity) ltac:(vm_compute; reflexivity)).
Defined.

(** ** The cache engine *)

(** On the names the program uses, [writeCache] succeeds when no injected
    fault hits it, the path is not empty, its directory exists and neither
    the path nor its [.tmp] sibling is a directory. *)
Lemma writeCache_succeeds_at
    (flt : os.Faults) (fs : gmap string os.node) (path : string) (data : list byte) :
  os.onMkdir flt = None -> os.onCreate flt = None -> os.onWrite flt = None ->
  os.onRename flt = None ->
  String.eqb path "" = false ->
  isDirectory fs (filepath.Dir path) = true ->
  isDirectory fs (path +:+ ".tmp") = false ->
  isDirectory fs path = false ->
  writeCache flt fs path data
  = (<[path := os.File data]> (delete (path +:+ ".tmp") fs), None).
Proof.
  unfold isDirectory. intros Hm Hc Hw Hr Hne Hdir Htmp Hfin.
  assert (HD : os.lookupPath fs (filepath.Dir path) = Some os.Directory).
  { destruct (os.lookupPath fs (filepath.Dir path)) as [[?|]|]; congruence. }
  unfold writeCache. rewrite Hm. unfold os.MkdirAll.
  assert (HM : forall fuel, os.MkdirAll_rec fuel fs (filepath.Dir path) = (fs, None)).
  { intros [|fuel]; cbn [os.MkdirAll_rec]; now rewrite HD. }
  rewrite HM. unfold os.WriteFile, os.Create. rewrite Hc.
  assert (HP : os.parentOf fs (path +:+ ".tmp") = Some os.Directory).
  { unfold os.parentOf. now rewrite tmp_eqb_empty, Dir_tmp. }
  rewrite HP.
  assert (HC : match os.lookupPath fs (path +:+ ".tmp") with
               | Some os.Directory => (fs, Some os.EISDIR)
               | _ => (<[path +:+ ".tmp" := os.File []]> fs, None)
               end = (<[path +:+ ".tmp" := os.File []]> fs, None)).
  { destruct (os.lookupPath fs (path +:+ ".tmp")) as [[?|]|];
      first [discriminate | reflexivity]. }
  rewrite HC. unfold os.fileWrite. rewrite lookup_insert_eq, Hw, insert_insert_eq.
  cbn [app]. unfold os.Rename. rewrite Hr, lookupPath_tmp, lookup_insert_eq.
  assert (HF : os.lookupPath (<[path +:+ ".tmp" := os.File data]> fs) path
               = os.lookupPath fs path).
  { apply lookupPath_insert_ne, tmp_neq. }
  assert (HPf : os.parentOf (<[path +:+ ".tmp" := os.File data]> fs) path
                = Some os.Directory).
  { unfold os.parentOf. rewrite Hne.
    destruct (decide (path +:+ ".tmp" = filepath.Dir path)) as [E | E].
    - rewrite <- E in HD. rewrite HD in Htmp. discriminate.
    - now rewrite lookupPath_insert_ne. }
  rewrite HF, HPf.
  destruct (os.lookupPath fs path) as [[?|]|]; try discriminate.
  all: now rewrite delete_insert_eq.
Qed.

(** X15. For the path of a cache key, [writeCache] succeeds whenever no
    injected fault hits it, the path is not empty, its directory exists and
    neither the path nor its [.tmp] sibling is a directory: the result is the
    file system with the payload at the path and without the [.tmp]
    sibling. *)
Theorem writeCache_succeeds
    (flt : os.Faults) (fs : gmap string os.node) (baseDir key : string) (data : list byte) :
  let path := cachePath baseDir key in
  os.onMkdir flt = None -> os.onCreate flt = None -> os.onWrite flt = None ->
  os.onRename flt = None ->
  String.eqb path "" = false ->
  isDirectory fs (filepath.Dir path) = true ->
  isDirectory fs (path +:+ ".tmp") = false ->
  isDirectory fs path = false ->
  writeCache flt fs path data
  = (<[path := os.File data]> (delete (path +:+ ".tmp") fs), None).
Proof. intros path. apply writeCache_succeeds_at. Qed.

Lemma writeCache_succeeds_witness :
  writeCache os.noFaults (exampleCache []) (cachePath "./cache" "foo.info")
             (list_byte_of_string "{}")
  = (<[cachePath "./cache" "foo.info" := os.File (list_byte_of_string "{}")]>
       (delete (cachePath "./cache" "foo.info" +:+ ".tmp") (exampleCache [])), None).
Proof.
  exact (writeCache_succeeds os.noFaults (exampleCache []) "./cache" "foo.info"
           (list_byte_of_string "{}") eq_refl eq_refl eq_refl eq_refl
           ltac:(vm_compute; reflexivity)
           ltac:(vm_compute; reflexivity) ltac:(vm_compute; reflexivity)
           ltac:(vm_compute; reflexivity)).
Defined.

(** X16. After a successful [writeCache] the path holds the payload, no
    temporary file is left, [cacheExists] holds for the path, and the file
    content at every other name is as before. *)
Theorem writeCache_success_effects
    (flt : os.Faults) (fs fs' : gmap string os.node) (path : string) (data : list byte) :
  writeCache flt fs path data = (fs', None) ->
  holds fs' path data
  /\ fs' !! (path +:+ ".tmp") = None
  /\ cacheExists fs' path = true
  /\ forall (k : string) (c : list byte),
       k <> path -> k <> path +:+ ".tmp" -> (holds fs' k c <-> holds fs k c).
Proof.
  intros HW. pose proof (writeCache_ok_lookup _ _ _ _ _ HW) as [HL HT].
  split; [now apply lookupPath_Some_file |]. split; [exact HT |]. split.
  - unfold cacheExists, os.Stat. now rewrite HL.
  - intros k c. eapply writeCache_frame; eassumption.
Qed.

Lemma writeCache_success_effects_witness :
  holds (fst (writeCache os.noFaults listCache "cache/example.com/@v/v1.0.0.mod"
                         (list_byte_of_string "module example.com")))
        "cache/example.com/@v/v1.0.0.mod" (list_byte_of_string "module example.com").
Proof.
  exact (proj1 (writeCache_success_effects os.noFaults listCache
                  (fst (writeCache os.noFaults listCache "cache/example.com/@v/v1.0.0.mod"
                                   (list_byte_of_string "module example.com")))
                  "cache/example.com/@v/v1.0.0.mod"
                  (list_byte_of_string "module example.com")
                  ltac:(vm_compute; reflexivity))).
Defined.

(** X18. [readCache] only succeeds where [cacheExists] holds; where
    [cacheExists] fails, [readCache] fails too and returns no bytes; and for
    a directory [cacheExists] holds while [readCache] fails. *)
Theorem cacheExists_readCache (flt : os.Faults) (fs : gmap string os.node) (path : string) :
  (snd (readCache flt fs path) = None -> cacheExists fs path = true)
  /\ (cacheExists fs path = false -> exists err, readCache flt fs path = ([], Some err))
  /\ (isDirectory fs path = true ->
      cacheExists fs path = true /\ exists err, readCache flt fs path = ([], Some err)).
Proof.
  unfold readCache, cacheExists, isDirectory, os.ReadFile, os.Open, os.Stat.
  destruct (os.lookupPath fs path) as [[c|]|]; repeat split; try discriminate; eauto.
  all: destruct (os.onOpen flt); cbn; eauto; try discriminate.
Qed.

(** ** One file per key *)

Lemma Join_elements (s : string) :
  GoStrings.Join (filepath.elements s) filepath.sep = s.
Proof.
  induction s as [|c s IH]; [reflexivity |].
  cbn [filepath.elements].
  pose proof (elements_nonempty s) as HN.
  destruct (Ascii.eqb_spec c filepath.Separator) as [-> | Hc].
  - destruct (filepath.elements s) as [|e es]; [congruence |].
    change (GoStrings.Join ("" :: e :: es) filepath.sep)
      with (String filepath.Separator (GoStrings.Join (e :: es) filepath.sep)).
    now rewrite IH.
  - destruct (filepath.elements s) as [|e [|e2 es]]; [congruence | |].
    + cbn [GoStrings.Join] in *. now rewrite IH.
    + change (GoStrings.Join (String c e :: e2 :: es) filepath.sep)
        with (String c (GoStrings.Join (e :: e2 :: es) filepath.sep)).
      now rewrite IH.
Qed.

Lemma elements_separatorFree (e : string) :
  separatorFree e = true -> filepath.elements e = [e].
Proof.
  induction e as [|c e IH]; [reflexivity |].
  cbn [separatorFree filepath.elements]. intros H.
  apply andb_prop in H as [Hc He]. apply negb_true_iff in Hc. rewrite Hc.
  now rewrite IH.
Qed.

Lemma elements_of_Join (l : list string) :
  l <> [] -> Forall (fun e => separatorFree e = true) l ->
  filepath.elements (GoStrings.Join l filepath.sep) = l.
Proof.
  induction l as [|e l IH]; [congruence |]. intros _ H.
  apply Forall_cons_iff in H as [He Hl].
  destruct l as [|e2 l].
  - cbn [GoStrings.Join]. now apply elements_separatorFree.
  - change (GoStrings.Join (e :: e2 :: l) filepath.sep)
      with (e +:+ filepath.sep +:+ GoStrings.Join (e2 :: l) filepath.sep).
    rewrite elements_join, IH by (congruence || assumption).
    now rewrite elements_separatorFree.
Qed.

Lemma elements_all_separatorFree (s : string) :
  Forall (fun e => separatorFree e = true) (filepath.elements s).
Proof.
  induction s as [|c s IH]; [repeat constructor |].
  cbn [filepath.elements].
  destruct (Ascii.eqb c filepath.Separator) eqn:Hc; [now constructor |].
  destruct (filepath.elements s) as [|e es]; [repeat constructor; cbn; now rewrite Hc |].
  apply Forall_cons_iff in IH as [He Hes].
  constructor; [|assumption]. cbn [separatorFree]. now rewrite Hc, He.
Qed.

Lemma cleanStack_separatorFree (rooted : bool) (es stack : list string) :
  Forall (fun e => separatorFree e = true) es ->
  Forall (fun e => separatorFree e = true) stack ->
  Forall (fun e => separatorFree e = true) (fold_left (filepath.cleanStep rooted) es stack).
Proof.
  revert stack. induction es as [|e es IH]; intros stack Hes Hst; [assumption |].
  apply Forall_cons_iff in Hes as [He Hes]. cbn [fold_left]. apply IH; [assumption |].
  unfold filepath.cleanStep.
  destruct (String.eqb e "" || String.eqb e "."); [assumption |].
  destruct (String.eqb e "..").
  - destruct stack as [|top below].
    + destruct rooted; repeat constructor; assumption.
    + apply Forall_cons_iff in Hst as [Ht Hb].
      destruct (String.eqb top ".."); repeat constructor; assumption.
  - now constructor.
Qed.

Lemma canonicalKey_elements (key : string) :
  canonicalKey key = true ->
  hasDotDot key = false /\ keyElements key = filepath.elements key.
Proof.
  unfold canonicalKey, hasDotDot, keyElements.
  induction (filepath.elements key) as [|e es IH]; [now split |].
  cbn [forallb existsb List.filter]. intros H.
  apply andb_prop in H as [He Hes]. destruct (IH Hes) as [H1 H2].
  apply negb_true_iff in He.
  apply Bool.orb_false_elim in He as [He Hdd].
  rewrite He, H1, H2, (String.eqb_sym ".." e), Hdd. now split.
Qed.

(** X19. For a non-empty cache root, two keys none of whose elements is
    empty, [.] or [..] have the same path only when they are the same key. *)
Theorem cachePath_injective (baseDir k1 k2 : string) :
  String.eqb baseDir "" = false ->
  canonicalKey k1 = true -> canonicalKey k2 = true ->
  cachePath baseDir k1 = cachePath baseDir k2 -> k1 = k2.
Proof.
  intros HB H1 H2 HE.
  apply canonicalKey_elements in H1 as [D1 K1], H2 as [D2 K2].
  rewrite (cachePath_elements _ _ HB D1), (cachePath_elements _ _ HB D2), K1, K2 in HE.
  assert (HS : forall k, Forall (fun e => separatorFree e = true)
                                (cleanElements baseDir ++ filepath.elements k)).
  { intros k. apply Forall_app. split; [|apply elements_all_separatorFree].
    unfold cleanElements. apply Forall_rev.
    apply cleanStack_separatorFree; [apply elements_all_separatorFree | constructor]. }
  assert (HN : forall k, cleanElements baseDir ++ filepath.elements k <> []).
  { intros k E. apply app_eq_nil in E as [_ E]. now apply elements_nonempty in E. }
  assert (HJ : GoStrings.Join (cleanElements baseDir ++ filepath.elements k1) filepath.sep
               = GoStrings.Join (cleanElements baseDir ++ filepath.elements k2) filepath.sep).
  { unfold filepath.render in HE.
    pose proof (HN k1) as N1. pose proof (HN k2) as N2.
    destruct (cleanElements baseDir ++ filepath.elements k1) as [|a1 l1]; [congruence |].
    destruct (cleanElements baseDir ++ filepath.elements k2) as [|a2 l2]; [congruence |].
    destruct (filepath.isRooted baseDir); [|exact HE].
    now injection HE. }
  apply (f_equal filepath.elements) in HJ.
  rewrite !elements_of_Join in HJ by auto.
  apply app_inv_head in HJ.
  rewrite <- (Join_elements k1), <- (Join_elements k2). now rewrite HJ.
Qed.

Lemma cachePath_injective_witness :
  cachePath "./cache" "example.com/@v/list" = cachePath "./cache" "example.com/@v/list"
  /\ "example.com/@v/list" = "example.com/@v/list".
Proof.
  split; [reflexivity |].
  exact (cachePath_injective "./cache" "example.com/@v/list" "example.com/@v/list"
           eq_refl eq_refl eq_refl eq_refl).
Defined.

(** ** The layout of the cache *)

Lemma cleanStep_proper (es stack : list string) :
  Forall (fun e => separatorFree e = true) es ->
  Forall (fun e => properElement e = true) stack ->
  Forall (fun e => properElement e = true) (fold_left (filepath.cleanStep true) es stack).
Proof.
  revert stack. induction es as [|e es IH]; intros stack Hes Hst; [assumption |].
  apply Forall_cons_iff in Hes as [He Hes]. cbn [fold_left]. apply IH; [assumption |].
  unfold filepath.cleanStep.
  destruct (String.eqb e "" || String.eqb e ".") eqn:H1; [assumption |].
  destruct (String.eqb e "..") eqn:H2.
  - destruct stack as [|top below]; [constructor |].
    apply Forall_cons_iff in Hst as [Ht Hb].
    destruct (String.eqb top "..") eqn:H3; [|assumption].
    unfold properElement in Ht. rewrite H3 in Ht.
    rewrite !Bool.orb_true_r in Ht. discriminate.
  - constructor; [|assumption]. unfold properElement.
    apply Bool.orb_false_elim in H1 as [-> ->]. now rewrite H2, He.
Qed.

Lemma render_rooted (out : list string) :
  filepath.render true out
  = String filepath.Separator
           (match out with [] => "" | _ => GoStrings.Join out filepath.sep end).
Proof. destruct out; reflexivity. Qed.

Lemma HasPrefix_split (s pre : string) :
  GoStrings.HasPrefix s pre = true ->
  s = pre +:+ GoStrings.drop (String.length pre) s.
Proof.
  revert s. induction pre as [|c pre IH]; intros s H; [now destruct s |].
  destruct s as [|d s]; [discriminate |]. cbn [GoStrings.HasPrefix] in H.
  destruct (Ascii.eqb_spec d c) as [-> | _]; [|discriminate].
  cbn [String.length GoStrings.drop].
  change (String c pre +:+ GoStrings.drop (String.length pre) s)
    with (String c (pre +:+ GoStrings.drop (String.length pre) s)).
  f_equal. now apply IH.
Qed.

(** A path the mux leaves as it is: a rooted clean path, or one followed by a
    slash. *)
Lemma cleanPath_fixed (p : string) :
  ServeMux.cleanPath p = p ->
  exists names : list string,
    Forall (fun e => properElement e = true) names
    /\ (GoStrings.TrimPrefix p "/" = GoStrings.Join names filepath.sep
        \/ names <> []
           /\ GoStrings.TrimPrefix p "/"
              = GoStrings.Join names filepath.sep +:+ filepath.sep +:+ "").
Proof.
  unfold ServeMux.cleanPath.
  destruct (String.eqb_spec p "") as [-> | Hp]; [discriminate |].
  destruct (filepath.isRooted p) eqn:HR.
  - cbv zeta. unfold filepath.Clean. rewrite HR.
    set (names := rev (filepath.cleanStack true (filepath.elements p))).
    assert (HN : Forall (fun e => properElement e = true) names).
    { unfold names. apply Forall_rev. apply cleanStep_proper; [|constructor].
      apply elements_all_separatorFree. }
    rewrite render_rooted.
    set (np := String filepath.Separator
                      match names with [] => "" | _ => GoStrings.Join names filepath.sep end).
    assert (Hkey : GoStrings.TrimPrefix np "/" = GoStrings.Join names filepath.sep).
    { unfold np. destruct names; reflexivity. }
    assert (Hslash : forall q, q = np +:+ "/" -> names <> [] ->
              GoStrings.TrimPrefix q "/"
              = GoStrings.Join names filepath.sep +:+ filepath.sep +:+ "").
    { intros q -> Hne. unfold np. destruct names as [|e l]; [congruence |]. reflexivity. }
    destruct (GoStrings.HasSuffix p "/" && negb (String.eqb np "/")) eqn:HS.
    + apply andb_prop in HS as [HS Hnp]. apply negb_true_iff in Hnp.
      assert (Hne : names <> []).
      { intros E. unfold np in Hnp. rewrite E in Hnp. discriminate. }
      destruct ((String.length p =? String.length np + 1)%nat && GoStrings.HasPrefix p np)
        eqn:HF.
      * intros _. apply andb_prop in HF as [HL HP].
        apply Nat.eqb_eq in HL. apply HasPrefix_split in HP.
        set (rest := GoStrings.drop (String.length np) p) in *.
        assert (Hrest : rest = "/").
        { unfold GoStrings.HasSuffix in HS. apply andb_prop in HS as [_ HS].
          apply String.eqb_eq in HS. rewrite <- HS.
          cbn [String.length]. rewrite HL.
          replace (String.length np + 1 - 1)%nat with (String.length np) by lia.
          reflexivity. }
        exists names. split; [exact HN |]. right. split; [exact Hne |].
        apply Hslash; [|exact Hne]. rewrite HP at 1. now rewrite Hrest.
      * intros E. exists names. split; [exact HN |]. right. split; [exact Hne |].
        apply Hslash; [now symmetry | exact Hne].
    + intros E. exists names. split; [exact HN |]. left. now rewrite <- E.
  - cbv zeta.
    assert (Hnp : exists t, filepath.Clean ("/" +:+ p) = String filepath.Separator t).
    { unfold filepath.Clean. change (filepath.isRooted ("/" +:+ p)) with true.
      rewrite render_rooted. eauto. }
    destruct Hnp as [t ->].
    destruct (_ && _); [destruct (_ && _) |]; intros E;
      apply (f_equal filepath.isRooted) in E; rewrite HR in E; discriminate E.
Qed.

Lemma proper_separatorFree (l : list string) :
  Forall (fun e => properElement e = true) l ->
  Forall (fun e => separatorFree e = true) l.
Proof.
  intros HF. eapply Forall_impl; [exact HF |]. cbv beta. intros e H.
  unfold properElement in H. now apply andb_prop in H as [_ H].
Qed.

Lemma proper_noDots (l : list string) :
  Forall (fun e => properElement e = true) l -> Forall noDots l.
Proof.
  intros HF. eapply Forall_impl; [exact HF |]. cbv beta. intros e H.
  unfold properElement in H.
  apply andb_prop in H as [H _]. apply negb_true_iff in H.
  apply Bool.orb_false_elim in H as [H H2].
  apply Bool.orb_false_elim in H as [_ H1].
  split; intros ->; discriminate.
Qed.

(** No element of a key the mux lets through is [.] or [..]. *)
Lemma served_key_noDots (p : string) :
  ServeMux.cleanPath p = p ->
  Forall noDots (filepath.elements (GoStrings.TrimPrefix p "/")).
Proof.
  intros H. destruct (cleanPath_fixed p H) as (names & HN & [-> | [Hne ->]]).
  - destruct names as [|e l].
    + repeat constructor; discriminate.
    + rewrite elements_of_Join by (congruence || now apply proper_separatorFree).
      now apply proper_noDots.
  - rewrite elements_join.
    rewrite elements_of_Join by (assumption || now apply proper_separatorFree).
    apply Forall_app. split; [now apply proper_noDots |].
    repeat constructor; discriminate.
Qed.

Lemma noDots_hasDotDot (key : string) :
  Forall noDots (filepath.elements key) -> hasDotDot key = false.
Proof.
  unfold hasDotDot. induction 1 as [|e es [_ He] _ IH]; [reflexivity |].
  cbn [existsb]. rewrite IH, Bool.orb_false_r.
  apply String.eqb_neq. congruence.
Qed.

Lemma noDots_keyElements (key : string) :
  Forall noDots (filepath.elements key) ->
  keyElements key
  = List.filter (fun e => negb (String.eqb e "")) (filepath.elements key)
  /\ Forall (fun e => properElement e = true) (keyElements key).
Proof.
  unfold keyElements. pose proof (elements_all_separatorFree key) as HS.
  induction 1 as [|e es [He1 He2] _ IH]; [split; [reflexivity | constructor] |].
  apply Forall_cons_iff in HS as [Hs HS]. destruct (IH HS) as [IH1 IH2].
  cbn [List.filter].
  apply String.eqb_neq in He1, He2. rewrite He1, Bool.orb_false_r.
  destruct (String.eqb e "") eqn:He0; cbn [negb]; [now split |].
  split; [now f_equal |]. constructor; [|assumption].
  unfold properElement. now rewrite He0, He1, He2, Hs.
Qed.

(** [main] stops when it cannot make the cache directory, and it cannot
    when the name is empty: a proxy that serves has a cache root. *)
Lemma MkdirAll_empty (flt : option error) (fs : gmap string os.node) :
  snd (os.MkdirAll flt fs "") <> None.
Proof. destruct flt; discriminate. Qed.

Lemma Handler_clean (r : http.Request) :
  String.eqb (http.Method r) http.MethodGet = true ->
  ServeMux.Handler r = ServeMux.handler ->
  ServeMux.cleanPath (http.URL r) = http.URL r.
Proof.
  unfold ServeMux.Handler. intros HG. apply String.eqb_eq in HG. rewrite HG.
  change (String.eqb http.MethodGet "CONNECT") with false. cbv iota.
  destruct (String.eqb_spec (ServeMux.cleanPath (http.URL r)) (http.URL r)); [auto | discriminate].
Qed.

(** What a write stages and where. *)
Lemma writeCache_stages (flt : os.Faults) (fs fs1 fs2 : gmap string os.node)
    (path : string) (data : list byte) :
  os.MkdirAll (os.onMkdir flt) fs (filepath.Dir path) = (fs1, None) ->
  os.WriteFile flt fs1 (path +:+ ".tmp") data = (fs2, None) ->
  holds fs2 (path +:+ ".tmp") data
  /\ writeCache flt fs path data = os.Rename (os.onRename flt) fs2 (path +:+ ".tmp") path.
Proof.
  intros HM HW. split.
  - apply WriteFile_ok in HW. subst fs2. apply lookup_insert_eq.
  - unfold writeCache. now rewrite HM, HW.
Qed.

(** C3. For every cache key, that is the path of a GET request the mux
    hands to [HandleRequest], without its leading separator, and a cache root
    that is not empty: the path of the key is the cache root joined with the
    key, [/] mapped to the separator; it is the cleaned root followed by the
    elements of the key as they are, only empty ones left out, and so lies
    under the cache directory; and a write stages the payload in the file
    whose name is that path with [.tmp] appended, which it then renames to the
    path: after a write that went through the path holds the payload and the
    [.tmp] file is gone, and no write changes file content anywhere else. *)
Theorem cachePath_layout (baseDir : string) (r : http.Request) :
  String.eqb baseDir "" = false ->
  String.eqb (http.Method r) http.MethodGet = true ->
  ServeMux.Handler r = ServeMux.handler ->
  let key := cacheKey r in
  let final := cachePath baseDir key in
  final = filepath.Join [baseDir; GoStrings.ReplaceAll key "/" filepath.sep]
  /\ final
     = filepath.render (filepath.isRooted baseDir) (cleanElements baseDir ++ keyElements key)
  /\ keyElements key
     = List.filter (fun e => negb (String.eqb e "")) (filepath.elements key)
  /\ rootedUnder baseDir final
  /\ forall (flt : os.Faults) (fs : gmap string os.node) (data : list byte),
       (forall fs1 fs2,
          os.MkdirAll (os.onMkdir flt) fs (filepath.Dir final) = (fs1, None) ->
          os.WriteFile flt fs1 (final +:+ ".tmp") data = (fs2, None) ->
          holds fs2 (final +:+ ".tmp") data
          /\ writeCache flt fs final data
             = os.Rename (os.onRename flt) fs2 (final +:+ ".tmp") final)
       /\ (snd (writeCache flt fs final data) = None ->
           holds (fst (writeCache flt fs final data)) final data
           /\ fst (writeCache flt fs final data) !! (final +:+ ".tmp") = None)
       /\ (forall (k : string) (c : list byte),
             holds (fst (writeCache flt fs final data)) k c ->
             holds fs k c \/ k = final \/ k = final +:+ ".tmp").
Proof.
  intros HB' HG HH key final.
  pose proof (served_key_noDots _ (Handler_clean r HG HH)) as HD.
  fold (cacheKey r) in HD. fold key in HD.
  pose proof (noDots_hasDotDot key HD) as HK.
  destruct (noDots_keyElements key HD) as [HE HP].
  split; [reflexivity |]. split; [now apply cachePath_elements |].
  split; [exact HE |]. split.
  - exists (keyElements key). split; [exact HP | now apply cachePath_elements].
  - intros flt fs data. split; [|split].
    + intros fs1 fs2. apply writeCache_stages.
    + destruct (writeCache flt fs final data) as [fs' err] eqn:E. cbn [fst snd].
      intros ->. apply writeCache_ok_lookup in E as [HL HT].
      split; [now apply lookupPath_Some_file | exact HT].
    + intros k c H.
      destruct (writeCache flt fs final data) as [fs' err] eqn:E.
      destruct (decide (k = final)) as [-> | H1]; [auto |].
      destruct (decide (k = final +:+ ".tmp")) as [-> | H2]; [auto |].
      left. simpl in H. exact (proj1 (writeCache_frame _ _ _ _ _ _ E k c H1 H2) H).
Qed.

Lemma cachePath_layout_witness :
  cachePath "./cache" (cacheKey (exampleRequest "/example.com/@v/list" context.Background))
  = "cache/example.com/@v/list"
  /\ rootedUnder "./cache"
       (cachePath "./cache"
                  (cacheKey (exampleRequest "/example.com/@v/list" context.Background))).
Proof.
  pose proof (cachePath_layout "./cache"
                (exampleRequest "/example.com/@v/list" context.Background)
                eq_refl eq_refl ltac:(vm_compute; reflexivity)) as H.
  cbv zeta in H. destruct H as (_ & H2 & _ & H4 & _).
  split; [exact H2 | exact H4].
Defined.

Example cleanPath_examples :
  ServeMux.cleanPath "" = "/"
  /\ ServeMux.cleanPath "/" = "/"
  /\ ServeMux.cleanPath "a" = "/a"
  /\ ServeMux.cleanPath "/a/../b" = "/b"
  /\ ServeMux.cleanPath "/a/b/" = "/a/b/"
  /\ ServeMux.cleanPath "//a/./b//" = "/a/b/"
  /\ ServeMux.cleanPath "/../x.info" = "/x.info"
  /\ ServeMux.cleanPath "/example.com/@v/list" = "/example.com/@v/list".
Proof. repeat split; vm_compute; reflexivity. Qed.

Lemma proper_elements (p : string) (below : list string) :
  Forall (fun e => properElement e = true) below ->
  GoStrings.Join below filepath.sep = p -> below <> [] ->
  filepath.elements p = below.
Proof.
  intros HP <- HN. apply elements_of_Join; [exact HN | now apply proper_separatorFree].
Qed.

(** [cachePath] itself keeps no key inside the cache directory; it is the
    mux that sends a path with a [..] back to the client, with a redirect. *)
Example mux_redirects_dotdot :
  cachePath "cache" "../x.info" = "x.info"
  /\ ~ rootedUnder "cache" "x.info"
  /\ ~ rootedUnder "cache" "cache/../../etc/passwd"
  /\ ServeMux.Handler (exampleRequest "/../x.info" context.Background)
     = ServeMux.redirect "/x.info".
Proof.
  split; [reflexivity |]. split; [|split; [|reflexivity]].
  - intros (below & _ & H).
    change (cleanElements "cache") with ["cache"] in H.
    destruct below as [|e below]; vm_compute in H; discriminate.
  - intros (below & HP & H).
    change (cleanElements "cache") with ["cache"] in H.
    destruct below as [|e below]; [vm_compute in H; discriminate |].
    assert (HJ : GoStrings.Join (e :: below) filepath.sep = "../../etc/passwd").
    { change (filepath.render (filepath.isRooted "cache") (["cache"] ++ e :: below))
        with ("cache/" +:+ GoStrings.Join (e :: below) filepath.sep) in H.
      change ("cache/" +:+ GoStrings.Join (e :: below) filepath.sep)
        with (String "c" (String "a" (String "c" (String "h" (String "e" (String "/"
                (GoStrings.Join (e :: below) filepath.sep))))))) in H.
      injection H as H'. symmetry. exact H'. }
    apply proper_elements in HJ; [|exact HP | discriminate].
    vm_compute in HJ. injection HJ as <- _.
    apply Forall_cons_iff in HP as [HP _]. discriminate HP.
Qed.

(** ** Resolvers *)

Lemma Contains_after (s rest : string) :
  GoStrings.Contains (s +:+ String ":" rest) ":" = true.
Proof.
  induction s as [|c s IH]; [reflexivity |].
  change (String c s +:+ String ":" rest) with (String c (s +:+ String ":" rest)).
  cbn [GoStrings.Contains]. rewrite IH. apply Bool.orb_true_r.
Qed.

Lemma withDefaultPort_has_port (server port : string) :
  GoStrings.Contains (withDefaultPort server port) ":" = true.
Proof.
  unfold withDefaultPort. destruct (GoStrings.Contains server ":") eqn:E; [exact E |].
  apply Contains_after.
Qed.

(** X20. [createDNSResolver] returns no resolver only for the empty
    string; the server of every UDP, TLS or QUIC resolver it builds names a
    port (has a colon); the endpoint of a DNS-over-HTTPS resolver is the
    configuration string itself. *)
Theorem createDNSResolver_shape (dnsURL : string) :
  match fst (createDNSResolver dnsURL) with
  | None => dnsURL = ""
  | Some (isDoH r) => endpoint r = dnsURL
  | Some (isStandard r) => GoStrings.Contains (stdServer r) ":" = true
  | Some (isDoT r) => GoStrings.Contains (dotServer r) ":" = true
  | Some (isDoQ r) => GoStrings.Contains (doqServer r) ":" = true
  end
  /\ fst (createDNSResolver "") = None.
Proof.
  split; [|reflexivity].
  unfold createDNSResolver.
  destruct (String.eqb_spec dnsURL "") as [E | E]; [exact E |].
  destruct (GoStrings.HasPrefix dnsURL "https://"); [reflexivity |].
  destruct (GoStrings.HasPrefix dnsURL "quic://");
    [cbn [fst doqServer]; rewrite port_default; apply withDefaultPort_has_port |].
  destruct (GoStrings.HasPrefix dnsURL "tls://");
    [cbn [fst dotServer]; rewrite port_default; apply withDefaultPort_has_port |].
  cbn [fst stdServer]. rewrite port_default. apply withDefaultPort_has_port.
Qed.

(** X21. A bare server address and the same address after [udp://]
    give the same UDP resolver. *)
Theorem createDNSResolver_udp (address : string) :
  String.eqb address "" = false ->
  GoStrings.HasPrefix address "https://" = false ->
  GoStrings.HasPrefix address "tls://" = false ->
  GoStrings.HasPrefix address "quic://" = false ->
  GoStrings.HasPrefix address "udp://" = false ->
  createDNSResolver ("udp://" +:+ address) = createDNSResolver address
  /\ createDNSResolver address
     = (Some (isStandard (mkStandardDNSResolver (withDefaultPort address "53"))), None).
Proof.
  intros H0 H1 H2 H3 H4.
  assert (E : createDNSResolver address
              = (Some (isStandard (mkStandardDNSResolver (withDefaultPort address "53"))),
                 None)).
  { rewrite (createDNSResolver_standard _ H0 H1 H2 H3).
    unfold GoStrings.TrimPrefix. now rewrite H4. }
  split; [|exact E]. rewrite E.
  unfold createDNSResolver. expose_prefix.
  cbn -[withDefaultPort GoStrings.Contains]. now rewrite port_default.
Qed.

Lemma createDNSResolver_udp_witness :
  createDNSResolver ("udp://" +:+ "9.9.9.9") = createDNSResolver "9.9.9.9".
Proof.
  exact (proj1 (createDNSResolver_udp "9.9.9.9" eq_refl eq_refl eq_refl eq_refl eq_refl)).
Defined.

(** X22. A lookup through a DNS-over-HTTPS, DNS-over-TLS or
    DNS-over-QUIC resolver returns either an error and no address, or no
    error and at least one address. *)
Theorem lookup_error_or_addresses
    (nw : Network) (r : Resolver) (ctx : context.Context) (host : string) :
  isStandardResolver r = false ->
  match fst (LookupIP nw r ctx host) with
  | (ips, None) => ips <> []
  | (ips, Some _) => ips = []
  end.
Proof.
  intros HS. destruct r as [s|d|t|q]; [discriminate | | |];
    cbn [LookupIP Resolver_DNSResolver DoHResolver_DNSResolver DoTResolver_DNSResolver
         DoQResolver_DNSResolver].
  - unfold DoHResolver_LookupIP.
    destruct (dohNewRequestError nw _); [reflexivity |].
    destruct (dohDo nw _ _ _) as [[status [answers|e]]|e]; try reflexivity;
      destruct (negb (status =? http.StatusOK)); try reflexivity.
    destruct (omap _ answers) as [|ip ips]; cbn; [reflexivity | discriminate].
  - unfold DoTResolver_LookupIP.
    destruct (tlsDial nw _ _ _ _) as [conn|e]; [|reflexivity].
    destruct (WriteMsg conn _ _); [reflexivity |].
    destruct (ReadMsg conn _ _) as [reply|e]; [|reflexivity].
    destruct (omap _ (dns.Answer reply)) as [|ip ips]; cbn; [reflexivity | discriminate].
  - unfold DoQResolver_LookupIP, DoTResolver_LookupIP.
    destruct (tlsDial nw _ _ _ _) as [conn|e]; [|reflexivity].
    destruct (WriteMsg conn _ _); [reflexivity |].
    destruct (ReadMsg conn _ _) as [reply|e]; [|reflexivity].
    destruct (omap _ (dns.Answer reply)) as [|ip ips]; cbn; [reflexivity | discriminate].
Qed.

Lemma lookup_error_or_addresses_witness :
  match fst (LookupIP exampleNetwork
               (isDoT (mkDoTResolver "1.1.1.1:853" (dns.mkClient "tcp-tls")))
               context.Background "example.com") with
  | (ips, None) => ips <> []
  | (ips, Some _) => ips = []
  end.
Proof.
  exact (lookup_error_or_addresses exampleNetwork
           (isDoT (mkDoTResolver "1.1.1.1:853" (dns.mkClient "tcp-tls")))
           context.Background "example.com" eq_refl).
Defined.

Lemma Split_first (host rest : string) :
  GoStrings.Contains host ":" = false ->
  hd EmptyString (GoStrings.Split (host +:+ String ":" rest) ":") = host.
Proof.
  unfold GoStrings.Split.
  induction host as [|c host IH]; [reflexivity |].
  cbn [GoStrings.Contains GoStrings.HasPrefix]. intros H.
  apply Bool.orb_false_elim in H as [Hc Hh]. specialize (IH Hh).
  change (String c host +:+ String ":" rest) with (String c (host +:+ String ":" rest)).
  cbn [GoStrings.splitFrom GoStrings.HasPrefix]. rewrite Hc.
  destruct (GoStrings.splitFrom ":" 0 (host +:+ String ":" rest)) as [|piece pieces];
    cbn [hd] in *; now rewrite IH.
Qed.

Lemma DoT_dials_with_server_name
    (nw : Network) (r : DoTResolver) (ctx : context.Context) (name host port : string) :
  dotServer r = host +:+ String ":" port ->
  GoStrings.Contains host ":" = false ->
  snd (LookupIP nw r ctx name) = [DialedTLS "tcp" (host +:+ String ":" port) host].
Proof.
  intros Hs Hh. cbn [LookupIP DoTResolver_DNSResolver]. unfold DoTResolver_LookupIP.
  rewrite Hs, (Split_first _ _ Hh).
  destruct (tlsDial nw _ _ _ _) as [conn|e]; [|reflexivity].
  destruct (WriteMsg conn _ _); [reflexivity |].
  destruct (ReadMsg conn _ _) as [reply|e]; [|reflexivity].
  destruct (length _ =? 0)%nat; reflexivity.
Qed.

(** X23. For a host without a colon, the resolver built from
    [tls://host] dials [host:853] and the one built from [tls://host:port]
    dials [host:port], both over TLS on tcp with [host] as server name. *)
Theorem tls_resolver_server_name
    (nw : Network) (ctx : context.Context) (name host : string) :
  GoStrings.Contains host ":" = false ->
  exists r,
    createDNSResolver ("tls://" +:+ host) = (Some (isDoT r), None)
    /\ snd (LookupIP nw r ctx name) = [DialedTLS "tcp" (host +:+ ":853") host]
    /\ forall port,
         exists r',
           createDNSResolver ("tls://" +:+ host +:+ String ":" port) = (Some (isDoT r'), None)
           /\ snd (LookupIP nw r' ctx name)
              = [DialedTLS "tcp" (host +:+ String ":" port) host].
Proof.
  intros Hh. eexists. rewrite createDNSResolver_tls. split; [reflexivity |]. split.
  - apply DoT_dials_with_server_name; [|exact Hh].
    cbn [dotServer]. unfold withDefaultPort. now rewrite Hh.
  - intros port. eexists. rewrite createDNSResolver_tls. split; [reflexivity |].
    apply DoT_dials_with_server_name; [|exact Hh].
    cbn [dotServer]. unfold withDefaultPort. now rewrite Contains_after.
Qed.

Lemma tls_resolver_server_name_witness :
  exists r,
    createDNSResolver ("tls://" +:+ "1.1.1.1") = (Some (isDoT r), None)
    /\ snd (LookupIP exampleNetwork r context.Background "example.com")
       = [DialedTLS "tcp" ("1.1.1.1" +:+ ":853") "1.1.1.1"].
Proof.
  destruct (tls_resolver_server_name exampleNetwork context.Background "example.com"
              "1.1.1.1" eq_refl) as (r & H1 & H2 & _).
  exists r. split; [exact H1 | exact H2].
Defined.

(** ** The proxy and its configuration *)

Lemma NewProxy_fields (env : Startup) (cacheDir0 upstream0 httpProxy0 dnsServer0 : string) :
  let p := fst (NewProxy env cacheDir0 upstream0 httpProxy0 dnsServer0) in
  cacheDir p = cacheDir0
  /\ upstream p = GoStrings.TrimSuffix upstream0 "/"
  /\ Timeout (client p) = 5 * time.Minute.
Proof.
  unfold NewProxy.
  destruct (createDNSResolver dnsServer0) as [[res|] [e|]];
    destruct (negb (String.eqb (NewProxy_proxyURL env httpProxy0) ""));
    try destruct (url_Parse env _) as [u|e'];
    try destruct (String.eqb (Scheme u) "http" || String.eqb (Scheme u) "https");
    try destruct (String.eqb (Scheme u) "socks5" || String.eqb (Scheme u) "socks5h");
    try destruct (proxy_SOCKS5 env _ _); repeat split.
Qed.

(** X24. [NewProxy] never fails on its proxy configuration: with no
    proxy URL, an unparsable one, an unsupported scheme or a SOCKS5 dialer that
    cannot be made, the transport dials directly; with [http] or [https] it
    uses the parsed URL as proxy; with [socks5] or [socks5h] it dials through
    the SOCKS5 endpoint; the resolver made from the DNS setting is part of the
    dial in every case. *)
Theorem NewProxy_transport (env : Startup) (cacheDir0 upstream0 httpProxy0 dnsServer0 : string) :
  let tr := clientTransport (client (fst (NewProxy env cacheDir0 upstream0 httpProxy0
                                                   dnsServer0))) in
  let dnsResolver := fst (createDNSResolver dnsServer0) in
  let proxyURL := NewProxy_proxyURL env httpProxy0 in
  let direct := transportProxy tr = None /\ transportDial tr = createDialer dnsResolver in
  (String.eqb proxyURL "" = true -> direct)
  /\ (forall err, url_Parse env proxyURL = Err err -> direct)
  /\ (forall u,
        String.eqb proxyURL "" = false -> url_Parse env proxyURL = Ok u ->
        isHTTPScheme u = true ->
        transportProxy tr = Some u /\ transportDial tr = createDialer dnsResolver)
  /\ (forall u,
        String.eqb proxyURL "" = false -> url_Parse env proxyURL = Ok u ->
        isHTTPScheme u = false -> isSOCKSScheme u = true ->
        proxy_SOCKS5 env "tcp" (Host u) = None ->
        transportProxy tr = None /\ transportDial tr = dialSOCKS5 (Host u) dnsResolver)
  /\ (forall u err,
        url_Parse env proxyURL = Ok u ->
        isHTTPScheme u = false -> isSOCKSScheme u = true ->
        proxy_SOCKS5 env "tcp" (Host u) = Some err -> direct)
  /\ (forall u,
        url_Parse env proxyURL = Ok u ->
        isHTTPScheme u = false -> isSOCKSScheme u = false -> direct).
Proof.
  intros tr dnsResolver proxyURL direct. subst tr dnsResolver proxyURL direct.
  unfold NewProxy, isHTTPScheme, isSOCKSScheme.
  pose proof (createDNSResolver_no_error dnsServer0) as HE.
  destruct (createDNSResolver dnsServer0) as [[res|] e]; cbn [snd fst] in *; subst e.
  all: destruct (String.eqb (NewProxy_proxyURL env httpProxy0) "") eqn:Hp; cbn [negb].
  all: try (repeat split; intros; (discriminate || reflexivity); fail).
  all: destruct (url_Parse env _) as [u|e'].
  all: try (repeat split; intros; (discriminate || reflexivity); fail).
  all: destruct (String.eqb (Scheme u) "http" || String.eqb (Scheme u) "https") eqn:Hh.
  all: try (repeat split; intros; try discriminate;
            repeat match goal with H : Ok _ = Ok _ |- _ => injection H as <- end;
            (congruence || reflexivity); fail).
  all: destruct (String.eqb (Scheme u) "socks5" || String.eqb (Scheme u) "socks5h") eqn:Hs.
  all: try (repeat split; intros; try discriminate;
            repeat match goal with H : Ok _ = Ok _ |- _ => injection H as <- end;
            (congruence || reflexivity); fail).
  all: destruct (proxy_SOCKS5 env "tcp" (Host u)) eqn:H5.
  all: repeat split; intros; try discriminate;
    repeat match goal with H : Ok _ = Ok _ |- _ => injection H as <- end;
    (congruence || reflexivity).
Qed.

Lemma NewProxy_transport_witness :
  transportDial
    (clientTransport
       (client (fst (NewProxy socksStartup "./cache" "https://proxy.golang.org"
                              "socks5://127.0.0.1:1080" ""))))
  = dialSOCKS5 "127.0.0.1:1080" None.
Proof.
  pose proof (NewProxy_transport socksStartup "./cache" "https://proxy.golang.org"
                "socks5://127.0.0.1:1080" "") as H.
  cbv zeta in H. destruct H as (_ & _ & _ & H & _).
  exact (proj2 (H (mkURL "socks5" "127.0.0.1:1080") eq_refl eq_refl eq_refl eq_refl eq_refl)).
Defined.

(** X25. In [main] the environment wins over the flag for the port, the
    cache directory and the upstream, while the flag wins over the
    environment for the DNS server. *)
Theorem main_config_precedence (env : Startup) (flags : Flags) :
  let cfg := main_config env flags in
  port cfg = firstNonEmpty [Getenv env "PORT"; port flags]
  /\ flagCacheDir cfg = firstNonEmpty [Getenv env "CACHE_DIR"; flagCacheDir flags]
  /\ flagUpstream cfg = firstNonEmpty [Getenv env "UPSTREAM_PROXY"; flagUpstream flags]
  /\ dnsServer cfg = firstNonEmpty [dnsServer flags; Getenv env "DNS_SERVER"].
Proof.
  unfold main_config, orEnv, firstNonEmpty.
  cbn [port flagCacheDir flagUpstream dnsServer].
  repeat split.
  all: repeat match goal with
         | |- context [String.eqb ?x ""] => destruct (String.eqb_spec x ""); cbn [negb]
         end; congruence.
Qed.

Lemma drop_append (u v : string) : GoStrings.drop (String.length u) (u +:+ v) = v.
Proof. induction u as [|c u IH]; [now destruct v | exact IH]. Qed.

Lemma take_append (u v : string) : GoStrings.take (String.length u) (u +:+ v) = u.
Proof.
  induction u as [|c u IH]; [now destruct v |].
  change (String c (GoStrings.take (String.length u) (u +:+ v)) = String c u).
  now rewrite IH.
Qed.

Lemma TrimSuffix_append (u suffix : string) :
  GoStrings.TrimSuffix (u +:+ suffix) suffix = u.
Proof.
  unfold GoStrings.TrimSuffix, GoStrings.HasSuffix.
  rewrite append_length.
  replace (String.length u + String.length suffix - String.length suffix)%nat
    with (String.length u) by lia.
  rewrite drop_append, take_append, String.eqb_refl.
  replace (String.length suffix <=? String.length u + String.length suffix)%nat with true
    by (symmetry; apply Nat.leb_le; lia).
  reflexivity.
Qed.

Lemma Sprintf_url (a b : string) :
  fmt.Sprintf "%s/%s" [fmt.str a; fmt.str b] = a +:+ "/" +:+ b.
Proof.
  unfold fmt.Sprintf. cbn [fmt.sprintfFrom Ascii.eqb Bool.eqb fmt.showArg].
  now rewrite append_empty_r.
Qed.

(** X26. An upstream configured with or without one trailing slash
    gives the same fetch URL: the upstream, a slash, the path. *)
Theorem upstream_trailing_slash
    (env : Startup) (cacheDir0 base httpProxy0 dnsServer0 path : string) :
  GoStrings.HasSuffix base "/" = false ->
  upstreamURL (fst (NewProxy env cacheDir0 (base +:+ "/") httpProxy0 dnsServer0)) path
  = base +:+ "/" +:+ path
  /\ upstreamURL (fst (NewProxy env cacheDir0 base httpProxy0 dnsServer0)) path
     = base +:+ "/" +:+ path.
Proof.
  intros H. unfold upstreamURL. rewrite !Sprintf_url.
  destruct (NewProxy_fields env cacheDir0 (base +:+ "/") httpProxy0 dnsServer0)
    as (_ & -> & _).
  destruct (NewProxy_fields env cacheDir0 base httpProxy0 dnsServer0) as (_ & -> & _).
  rewrite TrimSuffix_append. unfold GoStrings.TrimSuffix. rewrite H. now split.
Qed.

Lemma upstream_trailing_slash_witness :
  upstreamURL (fst (NewProxy exampleStartup "./cache" ("https://proxy.golang.org" +:+ "/")
                             "" ""))
              "example.com/@v/list"
  = "https://proxy.golang.org" +:+ "/" +:+ "example.com/@v/list".
Proof.
  exact (proj1 (upstream_trailing_slash exampleStartup "./cache" "https://proxy.golang.org"
                  "" "" "example.com/@v/list" eq_refl)).
Defined.

(** ** Validation of the info verb *)

Lemma Unmarshal_not_an_object (fit : list byte -> bool) (data : list byte) :
  notAnObject data = true -> exists err, json.Unmarshal fit data = Some err.
Proof.
  unfold notAnObject, json.Unmarshal. intros H.
  destruct (json.checkValid data); [|eauto].
  destruct (json.firstByte data) as [b|]; [|eauto].
  destruct b; try discriminate; eauto.
Qed.

(** X13. On an info request that misses the cache, a body whose value
    starts as neither an object nor [null] (an array, a string, a number, a
    boolean) is answered 502 and nothing is cached. *)
Theorem handleInfo_rejects_non_object
    (p : Proxy) (wld : World) (r : http.Request) (path : string) (st : State)
    (resp : http.Response) (cached : list byte) (err : error) :
  http.wroteHeader (w st) = None ->
  readCache (faults wld) (disk st) (cachePath (cacheDir p) path) = (cached, Some err) ->
  newRequestError wld (upstreamURL p path) = None ->
  answer p wld (http.Ctx r) path = Ok resp ->
  http.StatusCode resp = http.StatusOK ->
  http.BodyErr resp = None ->
  notAnObject (concat (http.Body resp)) = true ->
  http.statusOf (w (run (handleInfo p wld r path) st)) = http.StatusBadGateway
  /\ disk (run (handleInfo p wld r path) st) = disk st.
Proof.
  intros Hw Hread Hreq Hans Hcode Hbody Hjson.
  unfold answer, upstreamURL in *.
  apply (Unmarshal_not_an_object (numbersFit wld)) in Hjson as [jerr Hjson].
  unfold handleInfo. exec. rewrite Hread. exec. rewrite Hreq. exec.
  rewrite Hans. exec. rewrite Hcode. change (negb (http.StatusOK =? http.StatusOK)) with false.
  exec. rewrite Hbody. exec. rewrite Hjson. exec.
  split; [now apply Error_status | reflexivity].
Qed.

Lemma handleInfo_rejects_non_object_witness :
  http.statusOf
    (w (run (handleInfo exampleProxy (exampleWorld "[]")
               (exampleRequest "/example.com/@v/v1.0.0.info" context.Background)
               "example.com/@v/v1.0.0.info")
            (initState (exampleCache []))))
  = 502.
Proof.
  exact (proj1 (handleInfo_rejects_non_object exampleProxy (exampleWorld "[]")
                  (exampleRequest "/example.com/@v/v1.0.0.info" context.Background)
                  "example.com/@v/v1.0.0.info" (initState (exampleCache []))
                  (http.mkResponse 200 (-1) [list_byte_of_string "[]"] None)
                  [] os.ENOENT
                  eq_refl ltac:(vm_compute; reflexivity) eq_refl
                  ltac:(vm_compute; reflexivity) eq_refl eq_refl eq_refl)).
Defined.

(** ** Witnesses for the cache engine's failure properties *)

Lemma writeCache_failure_final_witness :
  holds listCache "cache/example.com/@v/list" (list_byte_of_string "v1.0.0")
  /\ snd (writeCache diskFull listCache "cache/example.com/@v/list"
                     (list_byte_of_string "v1.1.0"))
     = Some "no space left on device"
  /\ holds (fst (writeCache diskFull listCache "cache/example.com/@v/list"
                            (list_byte_of_string "v1.1.0")))
           "cache/example.com/@v/list" (list_byte_of_string "v1.0.0").
Proof.
  split; [vm_compute; reflexivity |]. split; [vm_compute; reflexivity |].
  apply (writeCache_failure_final diskFull listCache
           (fst (writeCache diskFull listCache "cache/example.com/@v/list"
                            (list_byte_of_string "v1.1.0")))
           "cache/example.com/@v/list" (list_byte_of_string "v1.1.0")
           "no space left on device" ltac:(vm_compute; reflexivity)
           (list_byte_of_string "v1.0.0")).
  vm_compute. reflexivity.
Defined.

Lemma writeCache_rename_failure_keeps_tmp_witness :
  holds (fst (writeCache os.noFaults (exampleCache [("cache/foo.info", os.Directory)])
                         "cache/foo.info" (list_byte_of_string "{}")))
        ("cache/foo.info" +:+ ".tmp") (list_byte_of_string "{}").
Proof.
  pose (fs := exampleCache [("cache/foo.info", os.Directory)]).
  pose (fs1 := fst (os.MkdirAll None fs (filepath.Dir "cache/foo.info"))).
  pose (fs2 := fst (os.WriteFile os.noFaults fs1 ("cache/foo.info" +:+ ".tmp")
                                 (list_byte_of_string "{}"))).
  pose proof (writeCache_rename_failure_keeps_tmp os.noFaults fs fs1 fs2 "cache/foo.info"
                (list_byte_of_string "{}") os.EEXIST
                ltac:(vm_compute; reflexivity) ltac:(vm_compute; reflexivity)
                ltac:(vm_compute; reflexivity)) as [HW HT].
  unfold fs in HW. rewrite HW. exact HT.
Defined.
